(** * Differentially-private training cells of mindarmour, embedded in Rocq

    Source: [mindarmour/diff_privacy/train/model.py].

    The module is glue over a deep-learning framework: every numerical
    operation is a call into the framework's operator library.  The embedding
    therefore keeps the framework abstract (class [Framework]) and translates
    the Python of [model.py] statement by statement on top of it:

    - Python exceptions are the left summand of [exn + A];
    - the mutable objects a training step touches (network parameters, the
      [loss_scale] Parameter, the internal state of optimizer and update cell)
      live in a [Store] that is threaded through a state-and-error monad;
    - every call of a framework cell or device primitive made by the source is
      appended to the store's [calls], so that orderings and counts of calls
      are statements about that list. *)

From Stdlib Require Import ZArith List Bool Lia.
From Stdlib Require Import PrimFloat.
From stdpp Require Import base list strings gmap.

Set Implicit Arguments.
Local Open Scope Z_scope.

(** ** Python exceptions and the state-and-error monad *)

Inductive exn : Type :=
| ValueError
| TypeError
| IndexError
| KeyError
| AttributeError.

Section Monad.
Context {St : Type}.

Definition M (A : Type) : Type := St -> exn + (A * St).

Definition ret {A} (a : A) : M A := fun s => inr (a, s).

Definition bind {A B} (m : M A) (k : A -> M B) : M B :=
  fun s => match m s with
           | inl e => inl e
           | inr (a, s') => k a s'
           end.

Definition raise {A} (e : exn) : M A := fun _ => inl e.

(** A pure computation that may raise. *)
Definition lift {A} (r : exn + A) : M A :=
  fun s => match r with inl e => inl e | inr a => inr (a, s) end.

Definition get : M St := fun s => inr (s, s).
Definition modify (f : St -> St) : M unit := fun s => inr (tt, f s).

(** [for i in xs: a = body i a] *)
Fixpoint for_each {I A} (xs : list I) (body : I -> A -> M A) (a : A) : M A :=
  match xs with
  | [] => ret a
  | i :: xs' => bind (body i a) (for_each xs' body)
  end.
End Monad.

Notation "'let*' x ':=' m 'in' k" := (bind m (fun x => k))
  (at level 10, x name, m at level 100, k at level 200).
Notation "m1 ';;' m2" := (bind m1 (fun _ => m2))
  (at level 100, m2 at level 200, right associativity).

(** Sequencing of pure computations that may raise. *)
Definition ebind {A B} (r : exn + A) (k : A -> exn + B) : exn + B :=
  match r with
  | inl e => inl e
  | inr a => k a
  end.

Notation "'try*' x ':=' r 'in' k" := (ebind r (fun x => k))
  (at level 10, x name, r at level 100, k at level 200).

(** [range(n)] and [range(1, m)] for a Python int [m]. *)
Definition range (n : nat) : list nat := seq 0 n.
Definition range_from_1 (m : Z) : list nat := seq 1 (Z.to_nat m - 1).

(** [xs[i]] for a non-negative index: IndexError out of range. *)
Definition getitem {A} (xs : list A) (i : nat) : exn + A :=
  match xs !! i with
  | Some x => inr x
  | None => inl IndexError
  end.

(** ** The host framework *)

(** [mindspore.common.dtype]. *)
Inductive dtype : Type := float16 | float32 | float64 | int32 | bool_.

Definition dtype_eqb (a b : dtype) : bool :=
  match a, b with
  | float16, float16 | float32, float32 | float64, float64
  | int32, int32 | bool_, bool_ => true
  | _, _ => false
  end.

(** [mindspore.train.model.ParallelMode]. *)
Inductive ParallelMode : Type :=
| STAND_ALONE
| DATA_PARALLEL
| HYBRID_PARALLEL
| SEMI_AUTO_PARALLEL
| AUTO_PARALLEL.

Definition ParallelMode_eqb (a b : ParallelMode) : bool :=
  match a, b with
  | STAND_ALONE, STAND_ALONE | DATA_PARALLEL, DATA_PARALLEL
  | HYBRID_PARALLEL, HYBRID_PARALLEL
  | SEMI_AUTO_PARALLEL, SEMI_AUTO_PARALLEL
  | AUTO_PARALLEL, AUTO_PARALLEL => true
  | _, _ => false
  end.

(** [x in (a, b, ...)] on parallel modes. *)
Definition mode_in (x : ParallelMode) (xs : list ParallelMode) : bool :=
  existsb (ParallelMode_eqb x) xs.

(** The global [mindspore.context] and [mindspore.parallel._utils] getters. *)
Record Context : Type := {
  device_target : string;        (* context.get_context("device_target") *)
  enable_ge : bool;              (* context.get_context("enable_ge") *)
  _get_parallel_mode : ParallelMode;
  _get_mirror_mean : bool;
  _get_device_num : Z
}.

(** Calls of framework cells and device primitives made by the training
    cells, in the order they are made.  [CallMech] is a call of the noise
    mechanism object ([self._mech]). *)
Inductive call (Tensor : Type) : Type :=
| CallNetwork (data label : Tensor)
| CallGrad (data label sens : Tensor)
| CallClipGradients (grads : list Tensor) (clip_type : Z) (clip_value : option float)
| CallMech (grads : list Tensor)
| CallGradReducer (grads : list Tensor)
| CallOptimizer (grads : list Tensor)
| CallAllocStatus
| CallClearStatus (init : Tensor)
| CallGetStatus (init : Tensor)
| CallAllReduce (flag : Tensor)
| CallLossScaleManager (loss_scale cond : Tensor).

Arguments CallNetwork {Tensor}.
Arguments CallGrad {Tensor}.
Arguments CallClipGradients {Tensor}.
Arguments CallMech {Tensor}.
Arguments CallGradReducer {Tensor}.
Arguments CallOptimizer {Tensor}.
Arguments CallAllocStatus {Tensor}.
Arguments CallClearStatus {Tensor}.
Arguments CallGetStatus {Tensor}.
Arguments CallAllReduce {Tensor}.
Arguments CallLossScaleManager {Tensor}.

(** Values that travel in [**kwargs] and in the [config] dict of
    [amp_build_train_network]. *)
Inductive pyobj (Manager : Type) : Type :=
| PyNone
| PyBool (b : bool)
| PyDtype (d : dtype)
| PyManager (m : Manager).

Arguments PyNone {Manager}.
Arguments PyBool {Manager}.
Arguments PyDtype {Manager}.
Arguments PyManager {Manager}.

(** The operators of the framework that [model.py] imports.  None of them is
    defined in the repository; they are parameters of the development.  The
    two laws are the arities the framework guarantees: [P.Split(0, n)]
    accepts only a positive int [n] and its output has [n] pieces, and
    [GradOperation(get_by_list=True)] returns one gradient per weight. *)
Class Framework : Type := {
  Tensor : Type;
  NdArray : Type;               (* numpy.ndarray *)
  Shape : Type;
  Cell : Type;                  (* nn.Cell: networks *)
  LossFn : Type;
  Optimizer : Type;             (* nn.Optimizer *)
  ParamRef : Type;              (* a Parameter object *)
  ParamValues : Type;           (* the values held by the network's Parameters *)
  Aux : Type;                   (* internal state of optimizer and update cell *)
  UpdateCell : Type;            (* loss-scale update cell *)
  LossScaleManager : Type;
  Mechanisms : Type;            (* noise mechanism object *)

  (* Tensor <-> numpy *)
  asnumpy : Tensor -> NdArray;                   (* t.asnumpy() *)
  np_add : NdArray -> NdArray -> NdArray;        (* ndarray + ndarray *)
  Tensor_of_array : NdArray -> dtype -> Tensor;  (* Tensor(a, dt) *)
  Tensor_of_int : Z -> dtype -> Tensor;          (* Tensor(1, dt) *)
  Tensor_of_float : float -> dtype -> Tensor;    (* Tensor(x, dt) *)
  tuple_to_array : list float -> Tensor;         (* F.tuple_to_array *)

  (* operators *)
  P_Split : Z -> option Z -> exn + (Tensor -> exn + list Tensor);
  P_Fill : dtype -> Shape -> float -> Tensor;
  P_DType : Tensor -> dtype;                     (* P.DType(), F.dtype *)
  P_Shape : Tensor -> Shape;
  P_Reciprocal : Tensor -> Tensor;
  tensor_mul : Tensor -> Tensor -> Tensor;       (* t * u *)
  ones_like : Tensor -> Tensor;                  (* C.ones_like *)
  F_cast : Tensor -> dtype -> Tensor;
  ClipByNorm : Tensor -> Tensor -> Tensor;       (* nn.ClipByNorm()(x, clip_norm) *)
  clip_by_value : Tensor -> Tensor -> Tensor -> Tensor;
  ReduceSum : Tensor -> list Z -> Tensor;        (* ReduceSum(keep_dims=False) *)
  LessEqual : Tensor -> Tensor -> Tensor;
  _grad_overflow : Tensor -> Tensor;             (* FloatStatus of one gradient *)
  P_AddN : list Tensor -> Tensor;
  P_Reshape : Tensor -> list Z -> Tensor;
  P_AllReduce : Tensor -> Tensor;
  tensor_bool : Tensor -> bool;                  (* truth value of a Tensor *)

  (* NPU float-status register *)
  NPUAllocFloatStatus : Tensor;
  NPUGetFloatStatus : Tensor -> list (call Tensor) -> Tensor;

  (* cells *)
  trainable_params : Cell -> list ParamRef;
  opt_parameters : Optimizer -> list ParamRef;   (* optimizer.parameters *)
  run_network : Cell -> ParamValues -> Tensor -> Tensor -> Tensor;
  GradOperation : Cell -> list ParamRef -> ParamValues ->
                  Tensor -> Tensor -> Tensor -> list Tensor;
  run_optimizer : Optimizer -> ParamValues -> Aux -> list Tensor -> ParamValues * Aux;
  DistributedGradReducer : list ParamRef -> bool -> Z -> list Tensor -> list Tensor;
  run_update_cell : UpdateCell -> Aux -> Tensor -> Tensor -> Tensor * Tensor * Aux;
  uc_get_loss_scale : UpdateCell -> float;       (* update_cell.get_loss_scale() *)

  (* network construction (mindspore.train.amp, mindspore.nn) *)
  to_float : Cell -> dtype -> Cell;
  _do_keep_batchnorm_fp32 : Cell -> Cell;
  _add_loss_network : Cell -> LossFn -> pyobj LossScaleManager -> Cell;
  _VirtualDatasetCell : Cell -> Cell;
  WithLossCell : Cell -> LossFn -> Cell;
  get_loss_scale : LossScaleManager -> float;
  get_update_cell : LossScaleManager -> option UpdateCell;
  _config_level : gmap string (gmap string (pyobj LossScaleManager));
  _check_kwargs : gmap string (pyobj LossScaleManager) -> option exn;
  amp_build_train_network_fw :                   (* amp.build_train_network *)
    Cell -> Optimizer -> option LossFn -> string ->
    gmap string (pyobj LossScaleManager) -> exn + Cell;

  (* laws *)
  P_Split_arity : forall axis n op,
    P_Split axis n = inr op ->
    exists k, n = Some k /\ 0 < k /\
              forall x xs, op x = inr xs -> length xs = Z.to_nat k;
  GradOperation_arity : forall net ws pv d l s,
    length (GradOperation net ws pv d l s) = length ws
}.

Section Clip.
Context {F : Framework}.

Definition GRADIENT_CLIP_TYPE : Z := 1.

Definition reciprocal : Tensor -> Tensor := P_Reciprocal.

(** [grad_scale] registered for ("Tensor", "Tensor"). *)
Definition tensor_grad_scale (scale grad : Tensor) : Tensor :=
  tensor_mul grad (reciprocal scale).

(** [C.HyperMap()] over one tuple. *)
Definition hyper_map {A B} (f : A -> B) (xs : list A) : list B := map f xs.

(** A Python float that may be [None]: using it as a number raises. *)
Definition as_float (v : option float) : exn + float :=
  match v with
  | Some x => inr x
  | None => inl TypeError
  end.

(** [_ClipGradients.construct(grads, clip_type, clip_value)]. *)
Fixpoint _ClipGradients_loop (grads : list Tensor) (clip_type : Z)
    (clip_value : option float) (new_grads : list Tensor) : exn + list Tensor :=
  match grads with
  | [] => inr new_grads
  | grad :: rest =>
      match as_float clip_value with
      | inl e => inl e
      | inr c =>
          let t :=
            if clip_type =? 0
            then clip_by_value grad (tuple_to_array [PrimFloat.opp c])
                                    (tuple_to_array [c])
            else ClipByNorm grad (tuple_to_array [c]) in
          _ClipGradients_loop rest clip_type clip_value (new_grads ++ [t])
      end
  end.

Definition _ClipGradients (grads : list Tensor) (clip_type : Z)
    (clip_value : option float) : exn + list Tensor :=
  if negb ((clip_type =? 0) || (clip_type =? 1)) then inr grads
  else _ClipGradients_loop grads clip_type clip_value [].

End Clip.

(** ** The store and the calls into the framework *)

Section Store.
Context {F : Framework}.

Record Store : Type := {
  params : ParamValues;          (* values of the network's Parameters *)
  loss_scale : option Tensor;    (* value of the [loss_scale] Parameter, if any *)
  aux : Aux;
  calls : list (call Tensor)
}.

Definition log (c : call Tensor) : M (St:=Store) unit :=
  modify (fun s => {| params := params s; loss_scale := loss_scale s;
                      aux := aux s; calls := calls s ++ [c] |}).

(** [self.network(data, label)] *)
Definition call_network (net : Cell) (data label : Tensor) : M Tensor :=
  log (CallNetwork data label) ;;
  let* s := get in
  ret (run_network net (params s) data label).

(** [self.grad(self.network, weights)(data, label, sens)] *)
Definition call_grad (net : Cell) (weights : list ParamRef)
    (data label sens : Tensor) : M (list Tensor) :=
  log (CallGrad data label sens) ;;
  let* s := get in
  ret (GradOperation net weights (params s) data label sens).

(** [self._clip_by_global_norm(grads, clip_type, clip_value)] *)
Definition call_clip (grads : list Tensor) (clip_type : Z)
    (clip_value : option float) : M (list Tensor) :=
  log (CallClipGradients grads clip_type clip_value) ;;
  lift (_ClipGradients grads clip_type clip_value).

(** [self.optimizer(grads)]: updates the Parameters in place.  Its return
    value is only ever passed to [F.depend], which drops it. *)
Definition call_optimizer (opt : Optimizer) (grads : list Tensor) : M unit :=
  log (CallOptimizer grads) ;;
  modify (fun s =>
    let '(pv, a) := run_optimizer opt (params s) (aux s) grads in
    {| params := pv; loss_scale := loss_scale s; aux := a; calls := calls s |}).

(** What [self.grad_reducer] can hold: [F.identity] or a
    [DistributedGradReducer(parameters, mean, degree)]. *)
Inductive GradReducer : Type :=
| F_identity
| Reducer (parameters : list ParamRef) (mean : bool) (degree : Z).

Definition apply_reducer (r : GradReducer) (grads : list Tensor) : list Tensor :=
  match r with
  | F_identity => grads
  | Reducer p m d => DistributedGradReducer p m d grads
  end.

(** [self.grad_reducer(grads)] *)
Definition call_grad_reducer (r : GradReducer) (grads : list Tensor)
  : M (list Tensor) :=
  match r with
  | F_identity => ret grads
  | Reducer _ _ _ => log (CallGradReducer grads) ;; ret (apply_reducer r grads)
  end.

(** [init = self.alloc_status()] *)
Definition call_alloc_status : M Tensor :=
  log CallAllocStatus ;; ret NPUAllocFloatStatus.

(** [self.clear_status(init)] *)
Definition call_clear_status (init : Tensor) : M unit :=
  log (CallClearStatus init).

(** [self.get_status(init)] writes the register into the buffer [init]; the
    new content of the buffer is returned.  What the register holds is
    decided by the device from the operators it has run. *)
Definition call_get_status (init : Tensor) : M Tensor :=
  let* s := get in
  log (CallGetStatus init) ;;
  ret (NPUGetFloatStatus init (calls s)).

(** [self.allreduce(flag)] *)
Definition call_allreduce (flag : Tensor) : M Tensor :=
  log (CallAllReduce flag) ;; ret (P_AllReduce flag).

(** [self.loss_scaling_manager(self.loss_scale, cond)]: the update cell
    assigns the [loss_scale] Parameter and returns the overflow flag. *)
Definition call_update_cell (uc : UpdateCell) (ls cond : Tensor) : M Tensor :=
  log (CallLossScaleManager ls cond) ;;
  let* s := get in
  let '(overflow, ls', a) := run_update_cell uc (aux s) ls cond in
  modify (fun s => {| params := params s; loss_scale := Some ls';
                      aux := a; calls := calls s |}) ;;
  ret overflow.

(** *** Elements of [grad_sum]: Tensors that become numpy arrays in place *)

Inductive pyval : Type :=
| PTensor (t : Tensor)
| PArray (a : NdArray).

(** [v.asnumpy()] *)
Definition py_asnumpy (v : pyval) : exn + pyval :=
  match v with
  | PTensor t => inr (PArray (asnumpy t))
  | PArray _ => inl AttributeError
  end.

(** [x + y]; the cells only ever add two numpy arrays. *)
Definition py_add (x y : pyval) : exn + pyval :=
  match x, y with
  | PArray a, PArray b => inr (PArray (np_add a b))
  | _, _ => inl TypeError
  end.

(** [Tensor(v, dt)]; the cells only ever convert numpy arrays. *)
Definition py_Tensor (v : pyval) (dt : dtype) : exn + pyval :=
  match v with
  | PArray a => inr (PTensor (Tensor_of_array a dt))
  | PTensor _ => inl TypeError
  end.

(** A tuple handed to a framework operator must hold Tensors. *)
Definition as_tensor (v : pyval) : exn + Tensor :=
  match v with
  | PTensor t => inr t
  | PArray _ => inl TypeError
  end.

Fixpoint as_tensors (vs : list pyval) : exn + list Tensor :=
  match vs with
  | [] => inr []
  | v :: vs' =>
      match as_tensor v, as_tensors vs' with
      | inr t, inr ts => inr (t :: ts)
      | inl e, _ => inl e
      | _, inl e => inl e
      end
  end.

(** [for i in range(grad_len): grad_sum[i] = grad_sum[i].asnumpy()] *)
Definition asnumpy_loop (grad_len : nat) (grad_sum : list pyval)
  : M (St:=Store) (list pyval) :=
  for_each (range grad_len) (fun i grad_sum =>
    let* x := lift (getitem grad_sum i) in
    let* a := lift (py_asnumpy x) in
    ret (<[i := a]> grad_sum)) grad_sum.

(** [for j in range(grad_len):
       grad_sum[j] = grad_sum[j] + record_grad[j].asnumpy()] *)
Definition accumulate_loop (grad_len : nat) (record_grad : list Tensor)
    (grad_sum : list pyval) : M (St:=Store) (list pyval) :=
  for_each (range grad_len) (fun j grad_sum =>
    let* x := lift (getitem grad_sum j) in
    let* g := lift (getitem record_grad j) in
    let* y := lift (py_asnumpy (PTensor g)) in
    let* z := lift (py_add x y) in
    ret (<[j := z]> grad_sum)) grad_sum.

(** [for i in range(grad_len): grad_sum[i] = Tensor(grad_sum[i], ms.float32)] *)
Definition to_tensor_loop (grad_len : nat) (grad_sum : list pyval)
  : M (St:=Store) (list pyval) :=
  for_each (range grad_len) (fun i grad_sum =>
    let* x := lift (getitem grad_sum i) in
    let* t := lift (py_Tensor x float32) in
    ret (<[i := t]> grad_sum)) grad_sum.

(** [range(1, self._micro_batches)]: [None] is not an int. *)
Definition micro_range (micro_batches : option Z) : exn + list nat :=
  match micro_batches with
  | Some m => inr (range_from_1 m)
  | None => inl TypeError
  end.

End Store.

(** ** [class _TrainOneStepCell(Cell)] *)

Module _TrainOneStepCell.
Section Def.
Context {F : Framework}.

Record t : Type := {
  network : Cell;
  weights : list ParamRef;
  optimizer : Optimizer;
  sens : float;
  reducer_flag : bool;
  grad_reducer : option GradReducer;     (* None until a reducer is built *)
  _micro_batches : option Z;
  _l2_norm : option float;
  _split : Tensor -> exn + list Tensor;  (* P.Split(0, self._micro_batches) *)
  _mech : option Mechanisms;
  training : bool
}.

Definition __init__ (ctx : Context) (network : Cell) (optimizer : Optimizer)
    (sens : float) (micro_batches : option Z) (l2_norm_clip : option float)
    (mech : option Mechanisms) : exn + t :=
  let parallel_mode := _get_parallel_mode ctx in
  let reducer_flag := mode_in parallel_mode [DATA_PARALLEL; HYBRID_PARALLEL] in
  let grad_reducer :=
    if reducer_flag
    then Some (Reducer (opt_parameters optimizer)
                       (_get_mirror_mean ctx) (_get_device_num ctx))
    else None in
  match P_Split 0 micro_batches with
  | inl e => inl e
  | inr split =>
      inr {| network := network;
             weights := opt_parameters optimizer;
             optimizer := optimizer;
             sens := sens;
             reducer_flag := reducer_flag;
             grad_reducer := grad_reducer;
             _micro_batches := micro_batches;
             _l2_norm := l2_norm_clip;
             _split := split;
             _mech := mech;
             training := false |}
  end.

(** [Cell.set_train()] *)
Definition set_train (self : t) : t :=
  {| network := network self; weights := weights self;
     optimizer := optimizer self; sens := sens self;
     reducer_flag := reducer_flag self; grad_reducer := grad_reducer self;
     _micro_batches := _micro_batches self; _l2_norm := _l2_norm self;
     _split := _split self; _mech := _mech self; training := true |}.

(** One microbatch: forward pass, gradient with the filled [sens], clipping. *)
Definition record_grad_of (self : t) (data label : Tensor) : M (list Tensor) :=
  let* loss := call_network (network self) data label in
  let sens := P_Fill (P_DType loss) (P_Shape loss) (sens self) in
  let* record_grad := call_grad (network self) (weights self) data label sens in
  call_clip record_grad GRADIENT_CLIP_TYPE (_l2_norm self).

Definition construct (self : t) (data label : Tensor) : M (St:=Store) Tensor :=
  let* record_datas := lift (_split self data) in
  let* record_labels := lift (_split self label) in
  let* data0 := lift (getitem record_datas 0) in
  let* label0 := lift (getitem record_labels 0) in
  let* record_grad := record_grad_of self data0 label0 in
  let grad_sum := map PTensor record_grad in
  let grad_len := length record_grad in
  let* grad_sum := asnumpy_loop grad_len grad_sum in
  let* idx := lift (micro_range (_micro_batches self)) in
  let* grad_sum :=
    for_each idx (fun i grad_sum =>
      let* data_i := lift (getitem record_datas i) in
      let* label_i := lift (getitem record_labels i) in
      let* record_grad := record_grad_of self data_i label_i in
      accumulate_loop grad_len record_grad grad_sum) grad_sum in
  let* grad_sum := to_tensor_loop grad_len grad_sum in
  let* grads := lift (as_tensors grad_sum) in
  let* loss := call_network (network self) data label in
  let* grads :=
    (if reducer_flag self
     then match grad_reducer self with
          | Some r => call_grad_reducer r grads
          | None => raise TypeError
          end
     else ret grads) in
  call_optimizer (optimizer self) grads ;;
  ret loss.

End Def.
End _TrainOneStepCell.

(** ** [class _TrainOneStepWithLossScaleCell(Cell)] *)

Module _TrainOneStepWithLossScaleCell.
Section Def.
Context {F : Framework}.

Record t : Type := {
  network : Cell;
  weights : list ParamRef;
  optimizer : Optimizer;
  gpu_target : bool;
  base : Tensor;
  parallel_mode : ParallelMode;
  grad_reducer : GradReducer;
  reducer_flag : bool;
  is_distributed : bool;
  init_loss_scale : option Tensor;       (* initial value of [self.loss_scale] *)
  loss_scaling_manager : option UpdateCell;
  _micro_batches : option Z;
  _l2_norm : option float;
  _split : Tensor -> exn + list Tensor;  (* P.Split(0, self._micro_batches) *)
  _mech : option Mechanisms;
  training : bool
}.

Definition __init__ (ctx : Context) (network : Cell) (optimizer : Optimizer)
    (scale_update_cell : option UpdateCell) (micro_batches : option Z)
    (l2_norm_clip : option float) (mech : option Mechanisms) : exn + t :=
  let gpu_target := String.eqb (device_target ctx) "GPU" in
  let parallel_mode := _get_parallel_mode ctx in
  let reducer_flag := mode_in parallel_mode [DATA_PARALLEL; HYBRID_PARALLEL] in
  let grad_reducer :=
    if reducer_flag
    then Reducer (opt_parameters optimizer)
                 (_get_mirror_mean ctx) (_get_device_num ctx)
    else F_identity in
  let is_distributed := negb (ParallelMode_eqb parallel_mode STAND_ALONE) in
  let loss_scale :=
    match scale_update_cell with
    | Some uc => Some (Tensor_of_float (uc_get_loss_scale uc) float32)
    | None => None
    end in
  match P_Split 0 micro_batches with
  | inl e => inl e
  | inr split =>
      inr {| network := network;
             weights := trainable_params network;
             optimizer := optimizer;
             gpu_target := gpu_target;
             base := Tensor_of_int 1 float32;
             parallel_mode := parallel_mode;
             grad_reducer := grad_reducer;
             reducer_flag := reducer_flag;
             is_distributed := is_distributed;
             init_loss_scale := loss_scale;
             loss_scaling_manager := scale_update_cell;
             _micro_batches := micro_batches;
             _l2_norm := l2_norm_clip;
             _split := split;
             _mech := mech;
             training := false |}
  end.

(** [Cell.set_train()] *)
Definition set_train (self : t) : t :=
  {| network := network self; weights := weights self;
     optimizer := optimizer self; gpu_target := gpu_target self;
     base := base self; parallel_mode := parallel_mode self;
     grad_reducer := grad_reducer self; reducer_flag := reducer_flag self;
     is_distributed := is_distributed self;
     init_loss_scale := init_loss_scale self;
     loss_scaling_manager := loss_scaling_manager self;
     _micro_batches := _micro_batches self; _l2_norm := _l2_norm self;
     _split := _split self; _mech := _mech self; training := true |}.

(** The object bound to [scaling_sens]: the [self.loss_scale] Parameter
    itself (not a copy of its value) or the [sens] argument. *)
Inductive scaling : Type :=
| self_loss_scale
| sens_arg (sens : Tensor).

(** Reading [self.loss_scale] where a Tensor is needed: it may be [None]. *)
Definition read_loss_scale : M (St:=Store) Tensor :=
  let* s := get in
  match loss_scale s with
  | Some v => ret v
  | None => raise TypeError
  end.

Definition read_scaling (scaling_sens : scaling) : M (St:=Store) Tensor :=
  match scaling_sens with
  | self_loss_scale => read_loss_scale
  | sens_arg v => ret v
  end.

(** One microbatch: forward pass, gradient with the filled loss scale,
    clipping. *)
Definition record_grad_of (self : t) (scaling_sens : scaling)
    (data label : Tensor) : M (list Tensor) :=
  let* loss := call_network (network self) data label in
  let* sv := read_scaling scaling_sens in
  let scaling_sens_filled :=
    tensor_mul (ones_like loss) (F_cast sv (P_DType loss)) in
  let* record_grad :=
    call_grad (network self) (weights self) data label scaling_sens_filled in
  call_clip record_grad GRADIENT_CLIP_TYPE (_l2_norm self).

Definition construct (self : t) (data label : Tensor) (sens : option Tensor)
  : M (St:=Store) (Tensor * Tensor * scaling) :=
  (* [init = False], or the overflow buffer when not on GPU *)
  let* init :=
    (if negb (gpu_target self)
     then let* init := call_alloc_status in
          call_clear_status init ;;
          ret (Some init)
     else ret None) in
  let scaling_sens :=
    match sens with
    | None => self_loss_scale
    | Some v => sens_arg v
    end in
  (* DP clip *)
  let* record_datas := lift (_split self data) in
  let* record_labels := lift (_split self label) in
  let* data0 := lift (getitem record_datas 0) in
  let* label0 := lift (getitem record_labels 0) in
  let* record_grad := record_grad_of self scaling_sens data0 label0 in
  let grad_sum := map PTensor record_grad in
  let grad_len := length record_grad in
  let* grad_sum := asnumpy_loop grad_len grad_sum in
  let* idx := lift (micro_range (_micro_batches self)) in
  let* grad_sum :=
    for_each idx (fun i grad_sum =>
      let* data_i := lift (getitem record_datas i) in
      let* label_i := lift (getitem record_labels i) in
      let* record_grad := record_grad_of self scaling_sens data_i label_i in
      accumulate_loop grad_len record_grad grad_sum) grad_sum in
  let* grad_sum := to_tensor_loop grad_len grad_sum in
  let* grads := lift (as_tensors grad_sum) in
  let* loss := call_network (network self) data label in
  let* sv := read_scaling scaling_sens in
  let grads := hyper_map (tensor_grad_scale sv) grads in
  (* apply grad reducer on grads *)
  let* grads := call_grad_reducer (grad_reducer self) grads in
  (* get the overflow buffer *)
  let* flag_sum :=
    (if negb (gpu_target self)
     then match init with
          | Some init =>
              let* init := call_get_status init in
              ret (ReduceSum init [0])
          | None => raise TypeError
          end
     else
       let flag_sum := hyper_map _grad_overflow grads in
       let flag_sum := P_AddN flag_sum in
       ret (P_Reshape flag_sum [])) in
  let* cond :=
    (if is_distributed self
     then let* flag_reduce := call_allreduce flag_sum in
          ret (LessEqual (base self) flag_reduce)
     else ret (LessEqual (base self) flag_sum)) in
  let* overflow :=
    match sens with
    | None =>
        match loss_scaling_manager self with
        | Some uc =>
            let* ls := read_loss_scale in
            call_update_cell uc ls cond
        | None => raise TypeError
        end
    | Some _ => ret cond
    end in
  (* if there is no overflow, do optimize *)
  (if tensor_bool overflow
   then ret tt
   else call_optimizer (optimizer self) grads) ;;
  ret (loss, cond, scaling_sens).

End Def.
End _TrainOneStepWithLossScaleCell.

(** ** [class DPModel(Model)] *)

Module DPModel.
Section Def.
Context {F : Framework}.

Abbreviation pyobj := (pyobj LossScaleManager).
Abbreviation kwargs := (gmap string pyobj).

(** The attributes set by [mindspore.train.model.Model.__init__]. *)
Record Model : Type := {
  Model_network : Cell;
  Model_loss_fn : option LossFn;
  Model_optimizer : option Optimizer;
  Model_loss_scale_manager_set : bool;
  Model_loss_scale_manager : option LossScaleManager;
  Model_amp_level : string;
  Model_keep_bn_fp32 : bool;
  Model_parallel_mode : ParallelMode
}.

Record t : Type := {
  _micro_batches : option Z;
  _norm_clip : option float;
  _dp_mech : option Mechanisms;
  _network : Cell;
  _loss_fn : option LossFn;
  _optimizer : option Optimizer;
  _loss_scale_manager_set : bool;
  _loss_scale_manager : option LossScaleManager;
  _amp_level : string;
  _keep_bn_fp32 : bool;
  _parallel_mode : ParallelMode
}.

(** Truth value of an optional Python int: [None] and [0] are falsy. *)
Definition int_truthy (v : option Z) : bool :=
  match v with
  | Some z => negb (z =? 0)
  | None => false
  end.

(** [DPModel.__init__]; the call of [Model.__init__] with the remaining
    keyword arguments supplies [base]. *)
Definition __init__ (micro_batches : option Z) (norm_clip : option float)
    (dp_mech : option Mechanisms) (base : Model) : t :=
  {| _micro_batches := if int_truthy micro_batches then micro_batches else None;
     _norm_clip := norm_clip;
     _dp_mech := dp_mech;
     _network := Model_network base;
     _loss_fn := Model_loss_fn base;
     _optimizer := Model_optimizer base;
     _loss_scale_manager_set := Model_loss_scale_manager_set base;
     _loss_scale_manager := Model_loss_scale_manager base;
     _amp_level := Model_amp_level base;
     _keep_bn_fp32 := Model_keep_bn_fp32 base;
     _parallel_mode := Model_parallel_mode base |}.

(** What a train-network builder returns. *)
Inductive TrainNetwork : Type :=
| NetCell (c : Cell)   (* the bare network, nn.WithLossCell, or the result of
                          the framework's amp.build_train_network *)
| NetLossScale (c : _TrainOneStepWithLossScaleCell.t)
| NetOneStep (c : _TrainOneStepCell.t).

(** [config.name] on the EasyDict. *)
Definition attr (config : kwargs) (name : string) : exn + pyobj :=
  match config !! name with
  | Some v => inr v
  | None => inl AttributeError
  end.

Definition truthy (v : pyobj) : bool :=
  match v with
  | PyNone => false
  | PyBool b => b
  | PyDtype _ => true
  | PyManager _ => true
  end.

(** [v == mstype.float16] *)
Definition is_float16 (v : pyobj) : bool :=
  match v with
  | PyDtype float16 => true
  | _ => false
  end.

(** [validator.check] of [level] against [['O0', 'O2']] with [Rel.IN]. *)
Definition check_level (level : string) : exn + unit :=
  if String.eqb level "O0" || String.eqb level "O2" then inr tt
  else inl ValueError.

Definition option_to_result {A} (o : option exn) (a : A) : exn + A :=
  match o with
  | Some e => inl e
  | None => inr a
  end.

(** [DPModel.amp_build_train_network].  The two [check_value_type] calls on
    [network] and [optimizer] hold by typing. *)
Definition amp_build_train_network (ctx : Context) (self : t) (network : Cell)
    (optimizer : Optimizer) (loss_fn : option LossFn) (level : string)
    (kw : kwargs) : exn + TrainNetwork :=
  try* _ := check_level level in
  try* _ := option_to_result (_check_kwargs kw) tt in
  try* level_config :=
    match _config_level !! level with
    | Some c => inr c
    | None => inl KeyError
    end in
  (* dict(_config_level[level], **kwargs) *)
  let config : kwargs := kw ∪ level_config in
  try* cast_model_type := attr config "cast_model_type" in
  try* network :=
    (if is_float16 cast_model_type
     then let network := to_float network float16 in
          try* keep := attr config "keep_batchnorm_fp32" in
          inr (if truthy keep then _do_keep_batchnorm_fp32 network else network)
     else inr network) in
  try* network :=
    match loss_fn with
    | Some loss_fn =>
        try* cast_model_type := attr config "cast_model_type" in
        inr (_add_loss_network network loss_fn cast_model_type)
    | None => inr network
    end in
  let network :=
    if mode_in (_get_parallel_mode ctx) [SEMI_AUTO_PARALLEL; AUTO_PARALLEL]
    then _VirtualDatasetCell network
    else network in
  let one_step (loss_scale : float) :=
    try* cell := _TrainOneStepCell.__init__ ctx network optimizer loss_scale
                   (_micro_batches self) (_norm_clip self) (_dp_mech self) in
    inr (NetOneStep (_TrainOneStepCell.set_train cell)) in
  let loss_scale := 1%float in
  try* manager := attr config "loss_scale_manager" in
  match manager with
  | PyNone => one_step loss_scale
  | PyManager loss_scale_manager =>
      let loss_scale := get_loss_scale loss_scale_manager in
      match get_update_cell loss_scale_manager with
      | Some update_cell =>
          (* only cpu not support `TrainOneStepWithLossScaleCell` *)
          if negb (enable_ge ctx) && String.eqb (device_target ctx) "CPU"
          then inl ValueError
          else
            try* cell := _TrainOneStepWithLossScaleCell.__init__ ctx network
                           optimizer (Some update_cell) (_micro_batches self)
                           (_norm_clip self) (_dp_mech self) in
            inr (NetLossScale (_TrainOneStepWithLossScaleCell.set_train cell))
      | None => one_step loss_scale
      end
  | PyBool _ | PyDtype _ => inl AttributeError   (* no get_loss_scale() *)
  end.

Definition of_manager (m : option LossScaleManager) : pyobj :=
  match m with
  | Some m => PyManager m
  | None => PyNone
  end.

(** The keyword arguments [_build_train_network] passes on. *)
Definition build_kwargs (self : t) : kwargs :=
  if _loss_scale_manager_set self
  then {[ "loss_scale_manager" := of_manager (_loss_scale_manager self);
          "keep_batchnorm_fp32" := PyBool (_keep_bn_fp32 self) ]}
  else {[ "keep_batchnorm_fp32" := PyBool (_keep_bn_fp32 self) ]}.

(** [DPModel._build_train_network]; the second component tells whether
    [set_auto_parallel()] was called on the result. *)
Definition _build_train_network (ctx : Context) (self : t)
  : exn + (TrainNetwork * bool) :=
  let network := _network self in
  try* network :=
    (if int_truthy (_micro_batches self)
     then match _optimizer self with
          | Some optimizer =>
              amp_build_train_network ctx self network optimizer
                (_loss_fn self) (_amp_level self) (build_kwargs self)
          | None =>
              match _loss_fn self with
              | Some loss_fn => inr (NetCell (WithLossCell network loss_fn))
              | None => inr (NetCell network)
              end
          end
     else match _optimizer self with
          | Some optimizer =>
              try* c := amp_build_train_network_fw network optimizer
                          (_loss_fn self) (_amp_level self) (build_kwargs self) in
              inr (NetCell c)
          | None =>
              match _loss_fn self with
              | Some loss_fn => inr (NetCell (WithLossCell network loss_fn))
              | None => inr (NetCell network)
              end
          end) in
  inr (network,
       mode_in (_parallel_mode self) [SEMI_AUTO_PARALLEL; AUTO_PARALLEL]).

End Def.
End DPModel.

(** ** A small framework to run the cells on

    Tensors are vectors of integers.  The operators are chosen to be easy to
    follow by hand; they stand in for the real framework when the embedding
    is evaluated on concrete inputs. *)

Module Toy.

Inductive cell : Type :=
| LeNet
| ToFloat (c : cell) (d : dtype)
| KeepBatchnormFp32 (c : cell)
| AddLossNetwork (c : cell)
| VirtualDataset (c : cell)
| WithLoss (c : cell)
| AmpTrainNetwork (c : cell) (level : string).

Definition vec : Type := list Z.

Definition total (v : vec) : Z := fold_right Z.add 0 v.
Definition scalar (v : vec) : Z := hd 0 v.

(** Floats are only ever small whole numbers here. *)
Definition float_to_Z (f : float) : Z :=
  if PrimFloat.leb 8 f then 8 else
  if PrimFloat.leb 7 f then 7 else
  if PrimFloat.leb 6 f then 6 else
  if PrimFloat.leb 5 f then 5 else
  if PrimFloat.leb 4 f then 4 else
  if PrimFloat.leb 3 f then 3 else
  if PrimFloat.leb 2 f then 2 else
  if PrimFloat.leb 1 f then 1 else 0.

Fixpoint chunk (size count : nat) (x : vec) : list vec :=
  match count with
  | O => []
  | S k => take size x :: chunk size k (drop size x)
  end.

(** [P.Split(axis, n)]: [n] equal pieces along axis 0. *)
Definition split (axis : Z) (n : option Z) : exn + (vec -> exn + list vec) :=
  match n with
  | None => inl TypeError
  | Some k =>
      if 0 <? k
      then inr (fun x =>
                  if Z.of_nat (length x) mod k =? 0
                  then inr (chunk (length x / Z.to_nat k) (Z.to_nat k) x)
                  else inl ValueError)
      else inl ValueError
  end.

(** The reciprocal of [k] is written [-k]: multiplying by it divides by [k]. *)
Definition times (k z : Z) : Z := if k <? 0 then z / (- k) else z * k.

Definition mul (a b : vec) : vec :=
  match b with
  | [k] => map (times k) a
  | _ => zip_with (fun z k => times k z) a b
  end.

Definition clamp (bound z : Z) : Z := Z.max (- bound) (Z.min bound z).

Definition too_big (v : vec) : bool := existsb (fun z => 1000 <? Z.abs z) v.

Definition flag (b : bool) : vec := [if b then 1 else 0].

(** The register reports an overflow when some gradient was asked for with
    a sensitivity above 1000. *)
Definition npu_status (calls : list (call vec)) : vec :=
  flag (existsb (fun c => match c with
                          | CallGrad _ _ s => too_big s
                          | _ => false
                          end) calls) ++ repeat 0 7.

(** The network has two parameters; the loss is linear in them. *)
Definition forward (pv : list Z) (d l : vec) : vec :=
  [total pv * total d - total l].

Definition gradient (ws : list nat) (d l s : vec) : list vec :=
  map (fun r => [scalar s * total d + Z.of_nat r; scalar s * total l]) ws.

(** Plain gradient descent with learning rate [lr]; the counter in the
    auxiliary state counts optimizer steps. *)
Definition descend (lr : Z) (pv : list Z) (a : Z) (gs : list vec) : list Z * Z :=
  (zip_with (fun w g => w - lr * scalar g) pv gs, a + 1).

(** All-reduce over [degree] devices that hold the same gradients. *)
Definition reduce (mean : bool) (degree : Z) (gs : list vec) : list vec :=
  map (map (fun z => if mean then z else z * degree)) gs.

(** The update cell halves the loss scale on overflow and hands the
    condition back. *)
Definition update (a : Z) (ls cond : vec) : vec * vec * Z :=
  (cond, if scalar cond =? 0 then ls else map (fun z => z / 2) ls, a).

Definition O0_config : gmap string (pyobj bool) :=
  {[ "keep_batchnorm_fp32" := PyBool false;
     "cast_model_type" := PyDtype float32;
     "loss_scale_manager" := PyNone ]}.

Definition O2_config : gmap string (pyobj bool) :=
  {[ "keep_batchnorm_fp32" := PyBool true;
     "cast_model_type" := PyDtype float16;
     "loss_scale_manager" := PyManager true ]}.

Definition level_table : gmap string (gmap string (pyobj bool)) :=
  {[ "O0" := O0_config; "O2" := O2_config ]}.

Definition check_kwargs (kw : gmap string (pyobj bool)) : option exn :=
  if forallb (fun k => String.eqb k "loss_scale_manager"
                       || String.eqb k "keep_batchnorm_fp32")
             (map fst (map_to_list kw))
  then None else Some ValueError.

Lemma length_chunk size count x : length (chunk size count x) = count.
Proof.
  revert x. induction count as [|k IH]; intros x; simpl; [done|].
  by rewrite IH.
Qed.

Lemma split_arity axis n op :
  split axis n = inr op ->
  exists k, n = Some k /\ 0 < k /\
            forall x xs, op x = inr xs -> length xs = Z.to_nat k.
Proof.
  unfold split. destruct n as [k|]; [|done].
  destruct (0 <? k) eqn:Hk; [|done].
  intros [= <-]. exists k. split; [done|]. split; [lia|].
  intros x xs. destruct (_ =? 0); [|done].
  intros [= <-]. apply length_chunk.
Qed.

Lemma gradient_arity (net : cell) ws (pv : list Z) d l s :
  length (gradient ws d l s) = length ws.
Proof. unfold gradient. by rewrite length_map. Qed.

Definition framework : Framework := {|
  Tensor := vec;
  NdArray := vec;
  Shape := nat;
  Cell := cell;
  LossFn := unit;
  Optimizer := Z;
  ParamRef := nat;
  ParamValues := list Z;
  Aux := Z;
  UpdateCell := unit;
  LossScaleManager := bool;
  Mechanisms := Z;
  asnumpy := fun t => t;
  np_add := zip_with Z.add;
  Tensor_of_array := fun a _ => a;
  Tensor_of_int := fun z _ => [z];
  Tensor_of_float := fun f _ => [float_to_Z f];
  tuple_to_array := map float_to_Z;
  P_Split := split;
  P_Fill := fun _ sh f => repeat (float_to_Z f) sh;
  P_DType := fun _ => float32;
  P_Shape := fun t => length t;
  P_Reciprocal := map Z.opp;
  tensor_mul := mul;
  ones_like := map (fun _ => 1);
  F_cast := fun t _ => t;
  ClipByNorm := fun g b => map (clamp (scalar b)) g;
  clip_by_value := fun g lo hi => map (fun z => Z.max (scalar lo) (Z.min (scalar hi) z)) g;
  ReduceSum := fun t _ => [total t];
  LessEqual := fun a b => flag (scalar a <=? scalar b);
  _grad_overflow := fun g => flag (too_big g);
  P_AddN := fun ts => [total (map scalar ts)];
  P_Reshape := fun t _ => t;
  P_AllReduce := fun t => t;
  tensor_bool := fun t => negb (scalar t =? 0);
  NPUAllocFloatStatus := repeat 0 8%nat;
  NPUGetFloatStatus := fun _ calls => npu_status calls;
  trainable_params := fun _ => [0; 1]%nat;
  opt_parameters := fun _ => [0; 1]%nat;
  run_network := fun _ => forward;
  GradOperation := fun _ ws _ => gradient ws;
  run_optimizer := descend;
  DistributedGradReducer := fun _ => reduce;
  run_update_cell := fun _ => update;
  uc_get_loss_scale := fun _ => 4%float;
  to_float := ToFloat;
  _do_keep_batchnorm_fp32 := KeepBatchnormFp32;
  _add_loss_network := fun c _ _ => AddLossNetwork c;
  _VirtualDatasetCell := VirtualDataset;
  WithLossCell := fun c _ => WithLoss c;
  get_loss_scale := fun _ => 4%float;
  get_update_cell := fun m => if m then Some tt else None;
  _config_level := level_table;
  _check_kwargs := check_kwargs;
  amp_build_train_network_fw := fun c _ _ level _ => inr (AmpTrainNetwork c level);
  P_Split_arity := split_arity;
  GradOperation_arity := gradient_arity
|}.

(** Contexts, a store and a batch of four examples. *)
Definition ctx (target : string) (mode : ParallelMode) : Context :=
  {| device_target := target; enable_ge := false;
     _get_parallel_mode := mode; _get_mirror_mean := false;
     _get_device_num := 2 |}.

Definition store0 : Store (F:=framework) :=
  Build_Store (F:=framework) [1; 2] (Some [4]) 0 [].

Definition data : vec := [1; 2; 3; 4].
Definition label : vec := [1; 0; 0; 1].

(** A model with two microbatches, an optimizer and a loss function; no
    loss-scale manager is passed, so the table of [level] decides. *)
Definition model (level : string) : DPModel.t (F:=framework) :=
  DPModel.__init__ (F:=framework) (Some 2) (Some 5%float) None
    (DPModel.Build_Model (F:=framework) LeNet (Some tt) (Some 1) false None
                         level true STAND_ALONE).

End Toy.

(** * Properties *)

Unset Implicit Arguments.
Local Open Scope nat_scope.

(** ** In-place loops over a list *)

Section Loops.
Context {St A : Type}.

(** What a loop [for i in range(len(l)): l[i] = f(i, l[i])] computes. *)
Fixpoint traverse_idx (f : nat -> A -> exn + A) (k : nat) (l : list A)
  : exn + list A :=
  match l with
  | [] => inr []
  | x :: l' =>
      try* y := f k x in
      try* l'' := traverse_idx f (S k) l' in
      inr (y :: l'')
  end.

Lemma inplace_loop (body : nat -> list A -> M (St:=St) (list A)) f :
  (forall i gs s,
      body i gs s =
      match gs !! i with
      | Some x => match f i x with
                  | inr a => inr (<[i := a]> gs, s)
                  | inl e => inl e
                  end
      | None => inl IndexError
      end) ->
  forall l pre s,
    for_each (seq (length pre) (length l)) body (pre ++ l) s =
    match traverse_idx f (length pre) l with
    | inr l' => inr (pre ++ l', s)
    | inl e => inl e
    end.
Proof.
  intros Hbody l. induction l as [|x l IH]; intros pre s; simpl.
  - unfold ret. by rewrite app_nil_r.
  - unfold bind at 1. rewrite Hbody, list_lookup_middle by done.
    destruct (f (length pre) x) as [e|y]; simpl; [done|].
    replace (<[length pre := y]> (pre ++ x :: l)) with ((pre ++ [y]) ++ l).
    + specialize (IH (pre ++ [y]) s).
      rewrite length_app in IH. simpl in IH.
      replace (length pre + 1)%nat with (S (length pre)) in IH by lia.
      rewrite IH.
      destruct (traverse_idx f (S (length pre)) l); simpl; [done|].
      by rewrite <- app_assoc.
    + rewrite <- app_assoc. simpl.
      rewrite insert_app_r_alt by lia.
      by rewrite Nat.sub_diag.
Qed.

Lemma inplace_loop_0 (body : nat -> list A -> M (St:=St) (list A)) f l s :
  (forall i gs s,
      body i gs s =
      match gs !! i with
      | Some x => match f i x with
                  | inr a => inr (<[i := a]> gs, s)
                  | inl e => inl e
                  end
      | None => inl IndexError
      end) ->
  for_each (range (length l)) body l s =
  match traverse_idx f 0 l with
  | inr l' => inr (l', s)
  | inl e => inl e
  end.
Proof.
  intros Hbody. apply (inplace_loop body f Hbody l [] s).
Qed.

End Loops.

(** ** Clipping and accumulation *)

Section Accumulate.
Context {F : Framework}.

(** The store after some more calls have been recorded. *)
Definition log_calls (s : Store) (cs : list (call Tensor)) : Store :=
  {| params := params s; loss_scale := loss_scale s; aux := aux s;
     calls := calls s ++ cs |}.

(** [ClipByNorm] with bound [c] on every tensor of a tuple. *)
Definition clip_norm (c : float) (grads : list Tensor) : list Tensor :=
  map (fun g => ClipByNorm g (tuple_to_array [c])) grads.

(** One more clipped gradient added onto the running numpy sums. *)
Definition add_record (acc : list NdArray) (record_grad : list Tensor)
  : list NdArray :=
  zip_with (fun a g => np_add a (asnumpy g)) acc record_grad.

(** The accumulated tuple, from the clipped gradients of the microbatches
    in order. *)
Definition accumulated (clipped : list (list Tensor)) : list Tensor :=
  match clipped with
  | [] => []
  | c0 :: rest =>
      map (fun a => Tensor_of_array a float32)
          (fold_left add_record rest (map asnumpy c0))
  end.

(** Component [j] of every clipped gradient, as numpy arrays. *)
Fixpoint column (j : nat) (clipped : list (list Tensor)) : option (list NdArray) :=
  match clipped with
  | [] => Some []
  | r :: rest =>
      match r !! j, column j rest with
      | Some g, Some col => Some (asnumpy g :: col)
      | _, _ => None
      end
  end.

(** [x0 + x1 + ... + xn], added in this order. *)
Definition np_sum (x0 : NdArray) (xs : list NdArray) : NdArray :=
  fold_left np_add xs x0.

Definition optimizer_args (cs : list (call Tensor)) : list (list Tensor) :=
  omap (fun c => match c with CallOptimizer g => Some g | _ => None end) cs.

Definition reducer_args (cs : list (call Tensor)) : list (list Tensor) :=
  omap (fun c => match c with CallGradReducer g => Some g | _ => None end) cs.

Definition mech_args (cs : list (call Tensor)) : list (list Tensor) :=
  omap (fun c => match c with CallMech g => Some g | _ => None end) cs.

Definition network_args (cs : list (call Tensor)) : list (Tensor * Tensor) :=
  omap (fun c => match c with CallNetwork d l => Some (d, l) | _ => None end) cs.

Definition clip_args (cs : list (call Tensor))
  : list (list Tensor * Z * option float) :=
  omap (fun c => match c with
                 | CallClipGradients g ty v => Some (g, ty, v)
                 | _ => None
                 end) cs.

Lemma _ClipGradients_loop_norm grads c acc :
  _ClipGradients_loop grads 1 (Some c) acc = inr (acc ++ clip_norm c grads).
Proof.
  revert acc. induction grads as [|g grads IH]; intros acc; simpl.
  - by rewrite app_nil_r.
  - rewrite IH. by rewrite <- app_assoc.
Qed.

Lemma _ClipGradients_norm grads c :
  _ClipGradients grads GRADIENT_CLIP_TYPE (Some c) = inr (clip_norm c grads).
Proof.
  unfold _ClipGradients, GRADIENT_CLIP_TYPE. simpl.
  apply _ClipGradients_loop_norm.
Qed.

Lemma length_clip_norm c grads : length (clip_norm c grads) = length grads.
Proof. unfold clip_norm. by rewrite length_map. Qed.

Lemma length_add_record acc r :
  length r = length acc -> length (add_record acc r) = length acc.
Proof. intros H. unfold add_record. rewrite length_zip_with. lia. Qed.

Lemma asnumpy_loop_run gs (s : Store) :
  asnumpy_loop (length gs) (map PTensor gs) s =
  inr (map PArray (map asnumpy gs), s).
Proof.
  unfold asnumpy_loop.
  rewrite <- (length_map PTensor gs) at 1.
  rewrite (inplace_loop_0 _ (fun _ x => py_asnumpy x)).
  - assert (H : forall k, traverse_idx (fun _ x => py_asnumpy x) k (map PTensor gs)
                          = inr (map PArray (map asnumpy gs))).
    { induction gs as [|g gs IH]; intros k; simpl; [done|].
      by rewrite IH. }
    by rewrite H.
  - intros i l s'. unfold bind, lift, getitem, ret.
    destruct (l !! i); [|done]. by destruct (py_asnumpy p).
Qed.

Lemma to_tensor_loop_run acc (s : Store) :
  to_tensor_loop (length acc) (map PArray acc) s =
  inr (map PTensor (map (fun a => Tensor_of_array a float32) acc), s).
Proof.
  unfold to_tensor_loop.
  rewrite <- (length_map PArray acc) at 1.
  rewrite (inplace_loop_0 _ (fun _ x => py_Tensor x float32)).
  - assert (H : forall k, traverse_idx (fun _ x => py_Tensor x float32) k
                            (map PArray acc)
                          = inr (map PTensor
                                   (map (fun a => Tensor_of_array a float32) acc))).
    { induction acc as [|a acc IH]; intros k; simpl; [done|].
      by rewrite IH. }
    by rewrite H.
  - intros i l s'. unfold bind, lift, getitem, ret.
    destruct (l !! i); [|done]. by destruct (py_Tensor p float32).
Qed.

(** The accumulation step of one microbatch. *)
Definition accumulate_step (record_grad : list Tensor) (j : nat) (x : pyval)
  : exn + pyval :=
  try* g := getitem record_grad j in
  try* y := py_asnumpy (PTensor g) in
  py_add x y.

Lemma traverse_accumulate record_grad acc k :
  length acc + k <= length record_grad ->
  traverse_idx (accumulate_step record_grad) k (map PArray acc) =
  inr (map PArray (add_record acc (drop k record_grad))).
Proof.
  revert k. induction acc as [|a acc IH]; intros k Hlen; simpl in *; [done|].
  unfold accumulate_step at 1, getitem.
  destruct (record_grad !! k) as [g|] eqn:Hg.
  - simpl. rewrite IH by lia. simpl.
    rewrite (drop_S _ _ _ Hg). done.
  - apply lookup_ge_None in Hg. lia.
Qed.

Lemma accumulate_loop_run record_grad acc (s : Store) :
  length record_grad = length acc ->
  accumulate_loop (length acc) record_grad (map PArray acc) s =
  inr (map PArray (add_record acc record_grad), s).
Proof.
  intros Hlen. unfold accumulate_loop.
  rewrite <- (length_map PArray acc) at 1.
  rewrite (inplace_loop_0 _ (accumulate_step record_grad)).
  - rewrite traverse_accumulate by lia. by rewrite drop_0.
  - intros i l s'. unfold bind, lift, ret, accumulate_step, ebind, getitem.
    destruct (l !! i) as [p|]; [|done].
    destruct (record_grad !! i) as [g|]; simpl; [|done].
    by destruct (py_add p (PArray (asnumpy g))).
Qed.

Lemma as_tensors_PTensor ts : as_tensors (map PTensor ts) = inr ts.
Proof. induction ts as [|t ts IH]; simpl; [done|]. by rewrite IH. Qed.

(** Component-wise reading of the accumulated tuple. *)
Lemma fold_add_record_lookup rest : forall acc j a,
  acc !! j = Some a ->
  Forall (fun r => length r = length acc) rest ->
  exists col, column j rest = Some col /\ length col = length rest /\
              fold_left add_record rest acc !! j = Some (np_sum a col).
Proof.
  induction rest as [|r rest IH]; intros acc j a Ha Hall; simpl.
  - exists []. done.
  - inversion Hall as [|? ? Hr Hrest]; subst.
    assert (Hj : (j < length r)%nat).
    { rewrite Hr. by eapply lookup_lt_Some. }
    destruct (lookup_lt_is_Some_2 r j Hj) as [g Hg].
    destruct (IH (add_record acc r) j (np_add a (asnumpy g))) as (col & Hc & Hl & Hf).
    + unfold add_record. rewrite lookup_zip_with, Ha. simpl. by rewrite Hg.
    + rewrite length_add_record by done. done.
    + exists (asnumpy g :: col). rewrite Hg, Hc. simpl. split; [done|].
      split; [by rewrite Hl|]. done.
Qed.

Lemma length_fold_add_record rest : forall acc,
  Forall (fun r => length r = length acc) rest ->
  length (fold_left add_record rest acc) = length acc.
Proof.
  induction rest as [|r rest IH]; intros acc Hall; simpl; [done|].
  inversion Hall as [|? ? Hr Hrest]; subst.
  rewrite IH; rewrite length_add_record by done; done.
Qed.

Lemma accumulated_lookup clipped n j :
  clipped <> [] ->
  Forall (fun r => length r = n) clipped ->
  (j < n)%nat ->
  exists x0 col, column j clipped = Some (x0 :: col) /\
                 length (x0 :: col) = length clipped /\
                 accumulated clipped !! j =
                 Some (Tensor_of_array (np_sum x0 col) float32).
Proof.
  intros Hne Hall Hj. destruct clipped as [|c0 rest]; [done|].
  inversion Hall as [|? ? Hc0 Hrest]; subst.
  destruct (lookup_lt_is_Some_2 c0 j Hj) as [g Hg].
  destruct (fold_add_record_lookup rest (map asnumpy c0) j (asnumpy g))
    as (col & Hc & Hl & Hf).
  - by rewrite list_lookup_fmap, Hg.
  - by rewrite length_map.
  - exists (asnumpy g), col. simpl. rewrite Hg, Hc. split; [done|].
    split; [by rewrite Hl|].
    by rewrite list_lookup_fmap, Hf.
Qed.

Lemma length_accumulated c0 rest :
  Forall (fun r => length r = length c0) rest ->
  length (accumulated (c0 :: rest)) = length c0.
Proof.
  intros Hall. simpl. rewrite length_map, length_fold_add_record.
  - by rewrite length_map.
  - by rewrite length_map.
Qed.

End Accumulate.

(** ** Running the monad *)

Section Run.
Context {St : Type}.

Lemma bind_run {A B} (m : M (St:=St) A) (k : A -> M B) s a s' :
  m s = inr (a, s') -> bind m k s = k a s'.
Proof. intros H. unfold bind. by rewrite H. Qed.

Lemma lift_run {A} (r : exn + A) (a : A) (s : St) :
  r = inr a -> lift r s = inr (a, s).
Proof. intros ->. done. Qed.

End Run.

(** ** The loop over the microbatches *)

Section MicroLoop.
Context {F : Framework}.

Lemma log_calls_nil (s : Store) : log_calls s [] = s.
Proof. destruct s. unfold log_calls. simpl. by rewrite app_nil_r. Qed.

Lemma log_calls_app (s : Store) cs1 cs2 :
  log_calls (log_calls s cs1) cs2 = log_calls s (cs1 ++ cs2).
Proof. unfold log_calls. simpl. by rewrite app_assoc. Qed.

(** A microbatch step [record_grad_of] that, on stores satisfying [inv],
    yields [clipped] and records [micro_calls]. *)
Variable record_grad_of : Tensor -> Tensor -> M (St:=Store) (list Tensor).
Variable clipped : ParamValues -> Tensor -> Tensor -> list Tensor.
Variable micro_calls : ParamValues -> Tensor -> Tensor -> list (call Tensor).
Variable inv : Store -> Prop.
Variable grad_len : nat.

Hypothesis inv_log : forall s cs, inv s -> inv (log_calls s cs).
Hypothesis record_grad_run : forall d l s,
  inv s ->
  record_grad_of d l s =
  inr (clipped (params s) d l, log_calls s (micro_calls (params s) d l)).
Hypothesis length_clipped : forall pv d l, length (clipped pv d l) = grad_len.

Lemma clipped_all_length pv ds ls :
  Forall (fun r => length r = grad_len) (zip_with (clipped pv) ds ls).
Proof.
  revert ls. induction ds as [|d ds IH]; intros [|l ls]; simpl; try constructor.
  - apply length_clipped.
  - apply IH.
Qed.

Lemma micro_loop : forall ds' ls' pre_d pre_l acc s,
  inv s ->
  length ds' = length ls' ->
  length pre_d = length pre_l ->
  length acc = grad_len ->
  for_each (seq (length pre_d) (length ds'))
    (fun i grad_sum =>
       let* data_i := lift (getitem (pre_d ++ ds') i) in
       let* label_i := lift (getitem (pre_l ++ ls') i) in
       let* record_grad := record_grad_of data_i label_i in
       accumulate_loop grad_len record_grad grad_sum)
    (map PArray acc) s =
  inr (map PArray
         (fold_left add_record (zip_with (clipped (params s)) ds' ls') acc),
       log_calls s (concat (zip_with (micro_calls (params s)) ds' ls'))).
Proof.
  intros ds'.
  induction ds' as [|d ds' IH];
    intros [|l ls'] pre_d pre_l acc s Hinv Hlen Hpre Hacc;
    simpl in Hlen; try lia; simpl.
  - unfold ret. by rewrite log_calls_nil.
  - erewrite bind_run; cycle 1.
    { erewrite bind_run by (apply lift_run; unfold getitem;
                            by rewrite list_lookup_middle).
      erewrite bind_run by (apply lift_run; unfold getitem;
                            by rewrite list_lookup_middle).
      erewrite bind_run by (by apply record_grad_run).
      rewrite <- Hacc. apply accumulate_loop_run.
      rewrite length_clipped. lia. }
    specialize (IH ls' (pre_d ++ [d]) (pre_l ++ [l])
                  (add_record acc (clipped (params s) d l))
                  (log_calls s (micro_calls (params s) d l))).
    rewrite !length_app in IH. simpl in IH.
    replace (length pre_d + 1) with (S (length pre_d)) in IH by lia.
    rewrite <- !app_assoc in IH. simpl in IH.
    rewrite IH.
    + by rewrite log_calls_app.
    + by apply inv_log.
    + lia.
    + lia.
    + rewrite length_add_record; [done|]. rewrite length_clipped. lia.
Qed.

(** The accumulation part shared by both cells: from the first microbatch
    to the tuple of float32 Tensors. *)
Lemma accumulation_run {A} (k : list Tensor -> M A) m d0 ds' l0 ls' s :
  inv s ->
  length ds' = length ls' ->
  Z.to_nat m - 1 = length ds' ->
  (let* record_grad0 := record_grad_of d0 l0 in
   let* grad_sum := asnumpy_loop (length record_grad0)
                                 (map PTensor record_grad0) in
   let* idx := lift (micro_range (Some m)) in
   let* grad_sum :=
     for_each idx (fun i grad_sum =>
       let* data_i := lift (getitem (d0 :: ds') i) in
       let* label_i := lift (getitem (l0 :: ls') i) in
       let* record_grad := record_grad_of data_i label_i in
       accumulate_loop (length record_grad0) record_grad grad_sum) grad_sum in
   let* grad_sum := to_tensor_loop (length record_grad0) grad_sum in
   let* grads := lift (as_tensors grad_sum) in
   k grads) s =
  k (accumulated (zip_with (clipped (params s)) (d0 :: ds') (l0 :: ls')))
    (log_calls s (concat (zip_with (micro_calls (params s))
                                   (d0 :: ds') (l0 :: ls')))).
Proof.
  intros Hinv Hlen Hm.
  erewrite bind_run by (by apply record_grad_run).
  erewrite bind_run by apply asnumpy_loop_run.
  erewrite bind_run by (by apply lift_run).
  unfold range_from_1. rewrite Hm.
  set (s1 := log_calls s (micro_calls (params s) d0 l0)).
  set (c0 := clipped (params s) d0 l0).
  assert (Hc0 : length c0 = grad_len) by apply length_clipped.
  rewrite Hc0.
  erewrite bind_run; cycle 1.
  { apply (micro_loop ds' ls' [d0] [l0] (map asnumpy c0) s1);
      [by apply inv_log | done | done | by rewrite length_map]. }
  set (rest := zip_with (clipped (params s1)) ds' ls').
  set (sums := fold_left add_record rest (map asnumpy c0)).
  assert (Hsums : grad_len = length sums).
  { unfold sums. rewrite length_fold_add_record; [by rewrite length_map|].
    rewrite length_map, Hc0. apply clipped_all_length. }
  rewrite Hsums.
  erewrite bind_run by apply to_tensor_loop_run.
  erewrite bind_run by (apply lift_run; apply as_tensors_PTensor).
  unfold s1. rewrite log_calls_app. done.
Qed.

End MicroLoop.

Module TOS := _TrainOneStepCell.
Module LSC := _TrainOneStepWithLossScaleCell.

(** ** One step of [_TrainOneStepCell] *)

Section OneStep.
Context {F : Framework}.

(** The [sens] tensor a microbatch is differentiated with. *)
Definition tos_fill (self : TOS.t) (pv : ParamValues) (d l : Tensor) : Tensor :=
  let loss := run_network (TOS.network self) pv d l in
  P_Fill (P_DType loss) (P_Shape loss) (TOS.sens self).

Definition tos_raw_grad (self : TOS.t) (pv : ParamValues) (d l : Tensor)
  : list Tensor :=
  GradOperation (TOS.network self) (TOS.weights self) pv d l (tos_fill self pv d l).

(** The clipped gradient of the microbatch [(d, l)]. *)
Definition tos_clipped (self : TOS.t) (c : float) (pv : ParamValues)
    (d l : Tensor) : list Tensor :=
  clip_norm c (tos_raw_grad self pv d l).

(** The calls one microbatch makes. *)
Definition tos_micro_calls (self : TOS.t) (pv : ParamValues) (d l : Tensor)
  : list (call Tensor) :=
  [CallNetwork d l;
   CallGrad d l (tos_fill self pv d l);
   CallClipGradients (tos_raw_grad self pv d l) GRADIENT_CLIP_TYPE (TOS._l2_norm self)].

(** The accumulated tuple after the guarded reducer call. *)
Definition tos_reduce (self : TOS.t) (acc : list Tensor) : list Tensor :=
  if TOS.reducer_flag self
  then match TOS.grad_reducer self with
       | Some r => apply_reducer r acc
       | None => acc
       end
  else acc.

Definition tos_reduce_calls (self : TOS.t) (acc : list Tensor)
  : list (call Tensor) :=
  if TOS.reducer_flag self
  then match TOS.grad_reducer self with
       | Some (Reducer _ _ _) => [CallGradReducer acc]
       | _ => []
       end
  else [].

(** All calls of one training step, in order. *)
Definition tos_step_calls (self : TOS.t) (c : float) (pv : ParamValues)
    (data label : Tensor) (ds ls : list Tensor) : list (call Tensor) :=
  let acc := accumulated (zip_with (tos_clipped self c pv) ds ls) in
  concat (zip_with (tos_micro_calls self pv) ds ls)
  ++ [CallNetwork data label]
  ++ tos_reduce_calls self acc
  ++ [CallOptimizer (tos_reduce self acc)].

(** The store after one training step. *)
Definition tos_step_store (self : TOS.t) (c : float) (s : Store)
    (data label : Tensor) (ds ls : list Tensor) : Store :=
  let acc := accumulated (zip_with (tos_clipped self c (params s)) ds ls) in
  let '(pv, a) := run_optimizer (TOS.optimizer self) (params s) (aux s)
                    (tos_reduce self acc) in
  {| params := pv; loss_scale := loss_scale s; aux := a;
     calls := calls s ++ tos_step_calls self c (params s) data label ds ls |}.

Lemma tos_record_grad_run self c d l s :
  TOS._l2_norm self = Some c ->
  TOS.record_grad_of self d l s =
  inr (tos_clipped self c (params s) d l,
       log_calls s (tos_micro_calls self (params s) d l)).
Proof.
  intros Hc. unfold TOS.record_grad_of, call_network, call_grad, call_clip.
  unfold bind, log, modify, get, ret, lift. simpl.
  rewrite Hc, _ClipGradients_norm.
  unfold tos_clipped, tos_raw_grad, tos_fill, log_calls, tos_micro_calls.
  simpl. rewrite Hc. by rewrite <- !app_assoc.
Qed.

Lemma length_tos_clipped self c pv d l :
  length (tos_clipped self c pv d l) = length (TOS.weights self).
Proof.
  unfold tos_clipped, tos_raw_grad.
  by rewrite length_clip_norm, GradOperation_arity.
Qed.

Lemma tos_construct_run self c m data label d0 ds' l0 ls' s :
  TOS._split self data = inr (d0 :: ds') ->
  TOS._split self label = inr (l0 :: ls') ->
  length ds' = length ls' ->
  TOS._micro_batches self = Some m ->
  Z.to_nat m - 1 = length ds' ->
  TOS._l2_norm self = Some c ->
  (TOS.reducer_flag self = true -> is_Some (TOS.grad_reducer self)) ->
  TOS.construct self data label s =
  inr (run_network (TOS.network self) (params s) data label,
       tos_step_store self c s data label (d0 :: ds') (l0 :: ls')).
Proof.
  intros Hd Hl Hlen Hm Hm' Hc Hr. unfold TOS.construct. cbv zeta.
  erewrite bind_run by (apply lift_run; exact Hd).
  erewrite bind_run by (apply lift_run; exact Hl).
  erewrite bind_run by (by apply lift_run).
  erewrite bind_run by (by apply lift_run).
  rewrite Hm.
  rewrite (accumulation_run (TOS.record_grad_of self) (tos_clipped self c)
             (tos_micro_calls self) (fun _ => True) (length (TOS.weights self)));
    [|done|intros; by apply tos_record_grad_run|apply length_tos_clipped
     |done|done|done].
  unfold tos_step_store, tos_step_calls, tos_reduce, tos_reduce_calls.
  set (acc := accumulated _).
  set (mc := concat _).
  unfold call_network, call_optimizer, call_grad_reducer.
  unfold bind, log, modify, get, ret, raise. simpl.
  destruct (TOS.reducer_flag self) eqn:Hflag.
  - destruct (Hr eq_refl) as [r Hred]. rewrite Hred.
    destruct r as [|p mn dg]; simpl.
    + destruct (run_optimizer _ _ _ _). simpl.
      by rewrite <- !app_assoc.
    + destruct (run_optimizer _ _ _ _). simpl.
      by rewrite <- !app_assoc.
  - destruct (run_optimizer _ _ _ _). simpl.
    by rewrite <- !app_assoc.
Qed.

End OneStep.

(** ** One step of [_TrainOneStepWithLossScaleCell] *)

Section LossScaleStep.
Context {F : Framework}.

(** The value [scaling_sens] denotes in a store. *)
Definition scaling_value (sens : option Tensor) (s : Store) : option Tensor :=
  match sens with
  | Some v => Some v
  | None => loss_scale s
  end.

Definition scaling_of (sens : option Tensor) : LSC.scaling :=
  match sens with
  | None => LSC.self_loss_scale
  | Some v => LSC.sens_arg v
  end.

(** The filled loss scale a microbatch is differentiated with. *)
Definition lsc_fill (self : LSC.t) (sv : Tensor) (pv : ParamValues)
    (d l : Tensor) : Tensor :=
  let loss := run_network (LSC.network self) pv d l in
  tensor_mul (ones_like loss) (F_cast sv (P_DType loss)).

Definition lsc_raw_grad (self : LSC.t) (sv : Tensor) (pv : ParamValues)
    (d l : Tensor) : list Tensor :=
  GradOperation (LSC.network self) (LSC.weights self) pv d l
                (lsc_fill self sv pv d l).

Definition lsc_clipped (self : LSC.t) (c : float) (sv : Tensor)
    (pv : ParamValues) (d l : Tensor) : list Tensor :=
  clip_norm c (lsc_raw_grad self sv pv d l).

Definition lsc_micro_calls (self : LSC.t) (sv : Tensor) (pv : ParamValues)
    (d l : Tensor) : list (call Tensor) :=
  [CallNetwork d l;
   CallGrad d l (lsc_fill self sv pv d l);
   CallClipGradients (lsc_raw_grad self sv pv d l) GRADIENT_CLIP_TYPE
                     (LSC._l2_norm self)].

(** The calls up to and including the reducer. *)
Definition lsc_calls1 (self : LSC.t) (sv : Tensor) (pv : ParamValues)
    (data label : Tensor) (ds ls : list Tensor) (scaled : list Tensor)
  : list (call Tensor) :=
  (if LSC.gpu_target self then []
   else [CallAllocStatus; CallClearStatus NPUAllocFloatStatus])
  ++ concat (zip_with (lsc_micro_calls self sv pv) ds ls)
  ++ [CallNetwork data label]
  ++ (match LSC.grad_reducer self with
      | Reducer _ _ _ => [CallGradReducer scaled]
      | F_identity => []
      end).

(** [flag_sum]: from the NPU register, read after the calls [history], or
    from the float status of the gradients on GPU. *)
Definition lsc_flag_sum (self : LSC.t) (grads : list Tensor)
    (history : list (call Tensor)) : Tensor :=
  if LSC.gpu_target self
  then P_Reshape (P_AddN (hyper_map _grad_overflow grads)) []
  else ReduceSum (NPUGetFloatStatus NPUAllocFloatStatus history) [0%Z].

Definition lsc_cond (self : LSC.t) (flag_sum : Tensor) : Tensor :=
  LessEqual (LSC.base self)
    (if LSC.is_distributed self then P_AllReduce flag_sum else flag_sum).

(** The calls that read the overflow flag. *)
Definition lsc_calls2 (self : LSC.t) (flag_sum : Tensor) : list (call Tensor) :=
  (if LSC.gpu_target self then [] else [CallGetStatus NPUAllocFloatStatus])
  ++ (if LSC.is_distributed self then [CallAllReduce flag_sum] else []).

(** [overflow]: [cond], or what the update cell returns for it when no
    [sens] was passed. *)
Definition lsc_overflow (self : LSC.t) (sens : option Tensor) (sv : Tensor)
    (a : Aux) (cond : Tensor) : Tensor :=
  match sens, LSC.loss_scaling_manager self with
  | None, Some uc => fst (fst (run_update_cell uc a sv cond))
  | _, _ => cond
  end.

(** The [loss_scale] Parameter and the auxiliary state after the update
    cell, if it ran. *)
Definition lsc_after_update (self : LSC.t) (sens : option Tensor) (sv : Tensor)
    (s : Store) (cond : Tensor) : option Tensor * Aux :=
  match sens, LSC.loss_scaling_manager self with
  | None, Some uc =>
      let r := run_update_cell uc (aux s) sv cond in
      (Some (snd (fst r)), snd r)
  | _, _ => (loss_scale s, aux s)
  end.

Definition lsc_update_calls (self : LSC.t) (sens : option Tensor)
    (sv cond : Tensor) : list (call Tensor) :=
  match sens, LSC.loss_scaling_manager self with
  | None, Some _ => [CallLossScaleManager sv cond]
  | _, _ => []
  end.

Definition lsc_optimizer_calls (overflow : Tensor) (grads : list Tensor)
  : list (call Tensor) :=
  if tensor_bool overflow then [] else [CallOptimizer grads].

(** Everything one step computes, named as in the source. *)
Record lsc_step : Type := {
  st_acc : list Tensor;        (* [grads] after accumulation *)
  st_scaled : list Tensor;     (* after [grad_scale] *)
  st_grads : list Tensor;      (* after [self.grad_reducer] *)
  st_flag_sum : Tensor;
  st_cond : Tensor;
  st_overflow : Tensor;
  st_calls : list (call Tensor);   (* the calls of the step, in order *)
  st_store : Store;            (* the store when the step returns *)
}.

Definition lsc_run (self : LSC.t) (c : float) (sens : option Tensor)
    (sv : Tensor) (s : Store) (data label : Tensor) (ds ls : list Tensor)
  : lsc_step :=
  let pv := params s in
  let acc := accumulated (zip_with (lsc_clipped self c sv pv) ds ls) in
  let scaled := hyper_map (tensor_grad_scale sv) acc in
  let grads := apply_reducer (LSC.grad_reducer self) scaled in
  let calls1 := lsc_calls1 self sv pv data label ds ls scaled in
  let flag_sum := lsc_flag_sum self grads (calls s ++ calls1) in
  let cond := lsc_cond self flag_sum in
  let overflow := lsc_overflow self sens sv (aux s) cond in
  let after := lsc_after_update self sens sv s cond in
  let new := calls1 ++ lsc_calls2 self flag_sum
             ++ lsc_update_calls self sens sv cond
             ++ lsc_optimizer_calls overflow grads in
  let updated := run_optimizer (LSC.optimizer self) pv (snd after) grads in
  {| st_acc := acc; st_scaled := scaled; st_grads := grads;
     st_flag_sum := flag_sum; st_cond := cond; st_overflow := overflow;
     st_calls := new;
     st_store :=
       {| params := if tensor_bool overflow then pv else fst updated;
          loss_scale := fst after;
          aux := if tensor_bool overflow then snd after else snd updated;
          calls := calls s ++ new |} |}.

Lemma read_scaling_run sens sv s :
  scaling_value sens s = Some sv ->
  LSC.read_scaling (scaling_of sens) s = inr (sv, s).
Proof.
  destruct sens as [v|]; simpl.
  - by intros [= ->].
  - intros H. unfold LSC.read_loss_scale, bind, get, ret. by rewrite H.
Qed.

Lemma lsc_record_grad_run self c sens sv d l s :
  LSC._l2_norm self = Some c ->
  scaling_value sens s = Some sv ->
  LSC.record_grad_of self (scaling_of sens) d l s =
  inr (lsc_clipped self c sv (params s) d l,
       log_calls s (lsc_micro_calls self sv (params s) d l)).
Proof.
  intros Hc Hsv. unfold LSC.record_grad_of.
  erewrite bind_run by reflexivity.
  erewrite bind_run
    by (apply read_scaling_run; destruct sens; simpl in *; exact Hsv).
  unfold call_network, call_grad, call_clip.
  unfold bind, log, modify, get, ret, lift. simpl.
  rewrite Hc, _ClipGradients_norm.
  unfold lsc_clipped, lsc_raw_grad, lsc_fill, log_calls, lsc_micro_calls.
  simpl. rewrite Hc. by rewrite <- !app_assoc.
Qed.

Lemma length_lsc_clipped self c sv pv d l :
  length (lsc_clipped self c sv pv d l) = length (LSC.weights self).
Proof.
  unfold lsc_clipped, lsc_raw_grad.
  by rewrite length_clip_norm, GradOperation_arity.
Qed.

Lemma lsc_init_run self s :
  (if negb (LSC.gpu_target self)
   then let* init := call_alloc_status in
        call_clear_status init ;;
        ret (Some init)
   else ret None) s =
  inr (if LSC.gpu_target self then None else Some NPUAllocFloatStatus,
       log_calls s (if LSC.gpu_target self then []
                    else [CallAllocStatus; CallClearStatus NPUAllocFloatStatus])).
Proof.
  destruct (LSC.gpu_target self); simpl.
  - unfold ret. by rewrite log_calls_nil.
  - unfold call_alloc_status, call_clear_status, bind, log, modify, ret.
    unfold log_calls. simpl. by rewrite <- app_assoc.
Qed.

Lemma lsc_construct_run self c m sens sv data label d0 ds' l0 ls' s :
  LSC._split self data = inr (d0 :: ds') ->
  LSC._split self label = inr (l0 :: ls') ->
  length ds' = length ls' ->
  LSC._micro_batches self = Some m ->
  Z.to_nat m - 1 = length ds' ->
  LSC._l2_norm self = Some c ->
  scaling_value sens s = Some sv ->
  (sens = None -> is_Some (LSC.loss_scaling_manager self)) ->
  LSC.construct self data label sens s =
  let r := lsc_run self c sens sv s data label (d0 :: ds') (l0 :: ls') in
  inr ((run_network (LSC.network self) (params s) data label,
        st_cond r, scaling_of sens),
       st_store r).
Proof.
  intros Hd Hl Hlen Hm Hm' Hc Hsv Huc. unfold LSC.construct. cbv zeta.
  erewrite bind_run by apply lsc_init_run.
  erewrite bind_run by (apply lift_run; exact Hd).
  erewrite bind_run by (apply lift_run; exact Hl).
  erewrite bind_run by (by apply lift_run).
  erewrite bind_run by (by apply lift_run).
  rewrite Hm.
  change (match sens with
          | Some v => LSC.sens_arg v
          | None => LSC.self_loss_scale
          end) with (scaling_of sens).
  rewrite (accumulation_run (LSC.record_grad_of self (scaling_of sens))
             (lsc_clipped self c sv) (lsc_micro_calls self sv)
             (fun s => scaling_value sens s = Some sv)
             (length (LSC.weights self)));
    [|by destruct sens
     |intros; by apply lsc_record_grad_run
     |apply length_lsc_clipped
     |by destruct sens|done|done].
  rewrite log_calls_app. simpl params.
  set (acc := accumulated _).
  set (mc := concat _).
  erewrite bind_run by reflexivity.
  erewrite bind_run by (apply read_scaling_run; by destruct sens).
  unfold lsc_run, lsc_calls1, lsc_flag_sum, lsc_cond, lsc_calls2, lsc_overflow,
    lsc_after_update, lsc_update_calls, lsc_optimizer_calls.
  fold acc. fold mc.
  set (scaled := hyper_map (tensor_grad_scale sv) acc).
  unfold call_network, call_optimizer, call_grad_reducer, call_get_status,
    call_allreduce, call_update_cell, LSC.read_loss_scale.
  unfold bind, log, modify, get, ret, raise, log_calls. simpl.
  destruct (LSC.grad_reducer self) as [|p mn dg];
    destruct (LSC.gpu_target self);
    destruct (LSC.is_distributed self);
    destruct sens as [v|]; simpl in *;
    try (destruct (Huc eq_refl) as [uc ->]; rewrite Hsv; simpl);
    repeat (first [rewrite app_nil_r | rewrite <- app_assoc]; simpl);
    try (destruct (run_update_cell _ _ _ _) as [[ov ls2] a2]; simpl);
    (destruct (tensor_bool _); simpl;
     [|destruct (run_optimizer _ _ _ _); simpl]);
    repeat (first [rewrite app_nil_r | rewrite <- app_assoc]; simpl);
    reflexivity.
Qed.

End LossScaleStep.

(** ** Reading the recorded calls *)

Section Calls.
Context {F : Framework}.

Lemma omap_concat_zip_with {A B C D} (f : C -> option D) (h : A -> B -> list C)
    (ds : list A) (ls : list B) :
  omap f (concat (zip_with h ds ls)) =
  concat (zip_with (fun d l => omap f (h d l)) ds ls).
Proof.
  revert ls. induction ds as [|d ds IH]; intros [|l ls]; simpl; try done.
  by rewrite omap_app, IH.
Qed.

Lemma concat_zip_with_nil {A B C} (ds : list A) (ls : list B) :
  concat (zip_with (fun _ _ => @nil C) ds ls) = [].
Proof.
  revert ls. induction ds as [|d ds IH]; intros [|l ls]; simpl; try done.
Qed.

Lemma concat_zip_with_singleton {A B C} (h : A -> B -> C) (ds : list A) (ls : list B) :
  concat (zip_with (fun d l => [h d l]) ds ls) = zip_with h ds ls.
Proof.
  revert ls. induction ds as [|d ds IH]; intros [|l ls]; simpl; try done.
  by rewrite IH.
Qed.

Lemma mode_in_data_parallel mode :
  mode_in mode [DATA_PARALLEL; HYBRID_PARALLEL] = true <->
  mode = DATA_PARALLEL \/ mode = HYBRID_PARALLEL.
Proof.
  destruct mode; simpl; split; intros H; try done; auto;
    destruct H; discriminate.
Qed.

(** *** [_TrainOneStepCell] *)

Lemma tos_init_inv ctx net opt sens mb l2 mech self :
  TOS.__init__ ctx net opt sens mb l2 mech = inr self ->
  exists m,
    mb = Some m /\ (0 < m)%Z /\
    (forall x xs, TOS._split self x = inr xs -> length xs = Z.to_nat m) /\
    TOS.network self = net /\
    TOS.weights self = opt_parameters opt /\
    TOS.optimizer self = opt /\
    TOS._micro_batches self = Some m /\
    TOS._l2_norm self = l2 /\
    TOS.reducer_flag self
    = mode_in (_get_parallel_mode ctx) [DATA_PARALLEL; HYBRID_PARALLEL] /\
    TOS.grad_reducer self
    = (if mode_in (_get_parallel_mode ctx) [DATA_PARALLEL; HYBRID_PARALLEL]
       then Some (Reducer (opt_parameters opt) (_get_mirror_mean ctx)
                          (_get_device_num ctx))
       else None).
Proof.
  unfold TOS.__init__. destruct (P_Split 0 mb) as [e|split] eqn:Hs; [done|].
  intros [= <-]. destruct (@P_Split_arity F _ _ _ Hs) as (m & -> & Hpos & Har).
  exists m. simpl. repeat split; done.
Qed.

(** A cell built by [__init__] runs a whole step whenever the batch splits. *)
Lemma tos_step ctx net opt sens mb c mech self data label ds ls s :
  TOS.__init__ ctx net opt sens mb (Some c) mech = inr self ->
  TOS._split self data = inr ds ->
  TOS._split self label = inr ls ->
  mb = Some (Z.of_nat (length ds)) /\ length ls = length ds /\ 0 < length ds /\
  TOS.construct self data label s =
  inr (run_network net (params s) data label,
       tos_step_store self c s data label ds ls).
Proof.
  intros Hinit Hd Hl.
  destruct (tos_init_inv _ _ _ _ _ _ _ _ Hinit)
    as (m & -> & Hpos & Har & Hnet & Hw & Hopt & Hm & Hc & Hflag & Hred).
  pose proof (Har _ _ Hd) as Hlen_d. pose proof (Har _ _ Hl) as Hlen_l.
  destruct ds as [|d0 ds']; simpl in Hlen_d; [lia|].
  destruct ls as [|l0 ls']; simpl in Hlen_l; [lia|].
  split; [f_equal; simpl; lia|]. split; [simpl; lia|]. split; [simpl; lia|].
  rewrite <- Hnet.
  apply (tos_construct_run self c m); try done; try lia.
  rewrite Hflag, Hred. intros ->. by eexists.
Qed.

Lemma tos_step_calls_optimizer self c pv data label ds ls :
  optimizer_args (tos_step_calls self c pv data label ds ls) =
  [tos_reduce self (accumulated (zip_with (tos_clipped self c pv) ds ls))].
Proof.
  unfold tos_step_calls, optimizer_args. rewrite !omap_app.
  rewrite omap_concat_zip_with. simpl. rewrite concat_zip_with_nil. simpl.
  unfold tos_reduce_calls.
  destruct (TOS.reducer_flag self); [|done].
  by destruct (TOS.grad_reducer self) as [[|? ? ?]|].
Qed.

Lemma tos_step_calls_network self c pv data label ds ls :
  network_args (tos_step_calls self c pv data label ds ls) =
  zip_with pair ds ls ++ [(data, label)].
Proof.
  unfold tos_step_calls, network_args. rewrite !omap_app.
  rewrite omap_concat_zip_with. simpl. rewrite concat_zip_with_singleton.
  unfold tos_reduce_calls.
  destruct (TOS.reducer_flag self); [|done].
  by destruct (TOS.grad_reducer self) as [[|? ? ?]|].
Qed.

Lemma tos_step_calls_clip self c pv data label ds ls :
  clip_args (tos_step_calls self c pv data label ds ls) =
  zip_with (fun d l => (tos_raw_grad self pv d l, GRADIENT_CLIP_TYPE,
                        TOS._l2_norm self)) ds ls.
Proof.
  unfold tos_step_calls, clip_args. rewrite !omap_app.
  rewrite omap_concat_zip_with. simpl. rewrite concat_zip_with_singleton.
  unfold tos_reduce_calls.
  destruct (TOS.reducer_flag self); [|by rewrite app_nil_r].
  destruct (TOS.grad_reducer self) as [[|? ? ?]|]; by rewrite app_nil_r.
Qed.

Lemma tos_step_calls_mech self c pv data label ds ls :
  mech_args (tos_step_calls self c pv data label ds ls) = [].
Proof.
  unfold tos_step_calls, mech_args. rewrite !omap_app.
  rewrite omap_concat_zip_with. simpl. rewrite concat_zip_with_nil.
  unfold tos_reduce_calls.
  destruct (TOS.reducer_flag self); [|done].
  by destruct (TOS.grad_reducer self) as [[|? ? ?]|].
Qed.

Lemma tos_step_calls_reducer self c pv data label ds ls :
  reducer_args (tos_step_calls self c pv data label ds ls) =
  reducer_args (tos_reduce_calls self
                  (accumulated (zip_with (tos_clipped self c pv) ds ls))).
Proof.
  unfold tos_step_calls, reducer_args. rewrite !omap_app.
  rewrite omap_concat_zip_with. simpl. rewrite concat_zip_with_nil. simpl.
  by rewrite app_nil_r.
Qed.

Lemma tos_step_store_calls self c s data label ds ls :
  calls (tos_step_store self c s data label ds ls) =
  calls s ++ tos_step_calls self c (params s) data label ds ls.
Proof.
  unfold tos_step_store. by destruct (run_optimizer _ _ _ _).
Qed.

End Calls.

(** ** Reading the calls of [_TrainOneStepWithLossScaleCell] *)

Section LossScaleCalls.
Context {F : Framework}.

Lemma lsc_init_inv ctx net opt uc mb l2 mech self :
  LSC.__init__ ctx net opt uc mb l2 mech = inr self ->
  exists m,
    mb = Some m /\ (0 < m)%Z /\
    (forall x xs, LSC._split self x = inr xs -> length xs = Z.to_nat m) /\
    LSC.network self = net /\
    LSC.optimizer self = opt /\
    LSC._micro_batches self = Some m /\
    LSC._l2_norm self = l2 /\
    LSC.loss_scaling_manager self = uc /\
    LSC.gpu_target self = String.eqb (device_target ctx) "GPU" /\
    LSC.base self = Tensor_of_int 1 float32 /\
    LSC.is_distributed self
    = negb (ParallelMode_eqb (_get_parallel_mode ctx) STAND_ALONE) /\
    LSC.grad_reducer self
    = (if mode_in (_get_parallel_mode ctx) [DATA_PARALLEL; HYBRID_PARALLEL]
       then Reducer (opt_parameters opt) (_get_mirror_mean ctx)
                    (_get_device_num ctx)
       else F_identity).
Proof.
  unfold LSC.__init__. destruct (P_Split 0 mb) as [e|split] eqn:Hs; [done|].
  intros [= <-]. destruct (@P_Split_arity F _ _ _ Hs) as (m & -> & Hpos & Har).
  exists m. simpl. repeat split; done.
Qed.

(** A cell built by [__init__] runs a whole step whenever the batch splits
    and the loss scale is available. *)
Lemma lsc_step_run ctx net opt uc mb c mech self data label sens sv ds ls s :
  LSC.__init__ ctx net opt uc mb (Some c) mech = inr self ->
  LSC._split self data = inr ds ->
  LSC._split self label = inr ls ->
  scaling_value sens s = Some sv ->
  (sens = None -> is_Some uc) ->
  mb = Some (Z.of_nat (length ds)) /\ length ls = length ds /\ 0 < length ds /\
  LSC.construct self data label sens s =
  let r := lsc_run self c sens sv s data label ds ls in
  inr ((run_network net (params s) data label, st_cond r, scaling_of sens),
       st_store r).
Proof.
  intros Hinit Hd Hl Hsv Huc.
  destruct (lsc_init_inv _ _ _ _ _ _ _ _ Hinit)
    as (m & -> & Hpos & Har & Hnet & Hopt & Hm & Hc & Hman & _).
  pose proof (Har _ _ Hd) as Hlen_d. pose proof (Har _ _ Hl) as Hlen_l.
  destruct ds as [|d0 ds']; simpl in Hlen_d; [lia|].
  destruct ls as [|l0 ls']; simpl in Hlen_l; [lia|].
  split; [f_equal; simpl; lia|]. split; [simpl; lia|]. split; [simpl; lia|].
  rewrite <- Hnet.
  apply (lsc_construct_run self c m); try done; try lia.
  by rewrite Hman.
Qed.

Lemma lsc_store_params self c sens sv s data label ds ls :
  params (st_store (lsc_run self c sens sv s data label ds ls)) =
  if tensor_bool (st_overflow (lsc_run self c sens sv s data label ds ls))
  then params s
  else fst (run_optimizer (LSC.optimizer self) (params s)
              (snd (lsc_after_update self sens sv s
                      (st_cond (lsc_run self c sens sv s data label ds ls))))
              (st_grads (lsc_run self c sens sv s data label ds ls))).
Proof. reflexivity. Qed.

Lemma lsc_calls_network self c sens sv s data label ds ls :
  network_args (st_calls (lsc_run self c sens sv s data label ds ls)) =
  zip_with pair ds ls ++ [(data, label)].
Proof.
  unfold lsc_run, lsc_calls1, lsc_calls2, lsc_update_calls,
    lsc_optimizer_calls, network_args. simpl.
  rewrite !omap_app, omap_concat_zip_with. simpl.
  rewrite concat_zip_with_singleton.
  destruct (LSC.gpu_target self), (LSC.grad_reducer self),
    (LSC.is_distributed self), sens, (LSC.loss_scaling_manager self),
    (tensor_bool _); simpl; by rewrite ?app_nil_r.
Qed.

Lemma lsc_calls_clip self c sens sv s data label ds ls :
  clip_args (st_calls (lsc_run self c sens sv s data label ds ls)) =
  zip_with (fun d l => (lsc_raw_grad self sv (params s) d l, GRADIENT_CLIP_TYPE,
                        LSC._l2_norm self)) ds ls.
Proof.
  unfold lsc_run, lsc_calls1, lsc_calls2, lsc_update_calls,
    lsc_optimizer_calls, clip_args. simpl.
  rewrite !omap_app, omap_concat_zip_with. simpl.
  rewrite concat_zip_with_singleton.
  destruct (LSC.gpu_target self), (LSC.grad_reducer self),
    (LSC.is_distributed self), sens, (LSC.loss_scaling_manager self),
    (tensor_bool _); simpl; by rewrite ?app_nil_r.
Qed.

Lemma lsc_calls_mech self c sens sv s data label ds ls :
  mech_args (st_calls (lsc_run self c sens sv s data label ds ls)) = [].
Proof.
  unfold lsc_run, lsc_calls1, lsc_calls2, lsc_update_calls,
    lsc_optimizer_calls, mech_args. simpl.
  rewrite !omap_app, omap_concat_zip_with. simpl.
  rewrite concat_zip_with_nil.
  destruct (LSC.gpu_target self), (LSC.grad_reducer self),
    (LSC.is_distributed self), sens, (LSC.loss_scaling_manager self),
    (tensor_bool _); simpl; by rewrite ?app_nil_r.
Qed.

Lemma lsc_calls_reducer self c sens sv s data label ds ls :
  let r := lsc_run self c sens sv s data label ds ls in
  reducer_args (st_calls r) =
  match LSC.grad_reducer self with
  | Reducer _ _ _ => [st_scaled r]
  | F_identity => []
  end.
Proof.
  unfold lsc_run, lsc_calls1, lsc_calls2, lsc_update_calls,
    lsc_optimizer_calls, reducer_args. simpl.
  rewrite !omap_app, omap_concat_zip_with. simpl.
  rewrite concat_zip_with_nil.
  destruct (LSC.gpu_target self), (LSC.grad_reducer self),
    (LSC.is_distributed self), sens, (LSC.loss_scaling_manager self),
    (tensor_bool _); simpl; by rewrite ?app_nil_r.
Qed.

Lemma lsc_calls_optimizer self c sens sv s data label ds ls :
  let r := lsc_run self c sens sv s data label ds ls in
  optimizer_args (st_calls r) =
  if tensor_bool (st_overflow r) then [] else [st_grads r].
Proof.
  unfold lsc_run, lsc_calls1, lsc_calls2, lsc_update_calls,
    lsc_optimizer_calls, optimizer_args. simpl.
  rewrite !omap_app, omap_concat_zip_with. simpl.
  rewrite concat_zip_with_nil.
  destruct (LSC.gpu_target self), (LSC.grad_reducer self),
    (LSC.is_distributed self), sens, (LSC.loss_scaling_manager self),
    (tensor_bool _); simpl; by rewrite ?app_nil_r.
Qed.

End LossScaleCalls.

(** * The claims *)

(** ** C2: what the optimizer of [_TrainOneStepCell] receives *)

(** C2, as the code has it.  For a cell built by [__init__] with clipping
    bound [c] and a batch that splits into the microbatches [ds], [ls],
    [construct] returns and calls the optimizer exactly once.  The tuple
    [sums] it accumulated has one entry per weight, and entry [j] is the
    float32 Tensor of the numpy sum, taken in microbatch order, of entry [j]
    of the clipped gradient of every microbatch.  The optimizer receives
    [sums] itself unless the parallel mode is DATA_PARALLEL or
    HYBRID_PARALLEL; in those two modes it receives the
    [DistributedGradReducer] applied to [sums]. *)
Theorem C2_optimizer_receives_reduced_sum {F : Framework}
    (ctx : Context) (net : Cell) (opt : Optimizer) (sens : float)
    (mb : option Z) (c : float) (mech : option Mechanisms)
    (self : TOS.t) (data label : Tensor) (ds ls : list Tensor) (s : Store) :
  TOS.__init__ ctx net opt sens mb (Some c) mech = inr self ->
  TOS._split self data = inr ds ->
  TOS._split self label = inr ls ->
  let clipped := zip_with (tos_clipped self c (params s)) ds ls in
  exists loss s' new sums,
    TOS.construct self data label s = inr (loss, s') /\
    mb = Some (Z.of_nat (length clipped)) /\
    calls s' = calls s ++ new /\
    optimizer_args new =
      [if mode_in (_get_parallel_mode ctx) [DATA_PARALLEL; HYBRID_PARALLEL]
       then DistributedGradReducer (opt_parameters opt) (_get_mirror_mean ctx)
                                   (_get_device_num ctx) sums
       else sums] /\
    length sums = length (opt_parameters opt) /\
    forall j, j < length sums ->
      exists x0 col,
        column j clipped = Some (x0 :: col) /\
        sums !! j = Some (Tensor_of_array (np_sum x0 col) float32).
Proof.
  intros Hinit Hd Hl clipped.
  destruct (tos_step _ _ _ _ _ _ _ _ _ _ _ _ s Hinit Hd Hl)
    as (Hmb & Hlen & Hpos & Hrun).
  destruct (tos_init_inv _ _ _ _ _ _ _ _ Hinit)
    as (m & _ & _ & _ & _ & Hw & _ & _ & _ & Hflag & Hred).
  assert (Hall : Forall (fun r => length r = length (TOS.weights self)) clipped).
  { apply (clipped_all_length (tos_clipped self c) (length (TOS.weights self))
             (length_tos_clipped self c)). }
  assert (Hne : clipped <> []).
  { unfold clipped. destruct ds, ls; simpl in *; try lia. done. }
  assert (Hsums : length (accumulated clipped) = length (opt_parameters opt)).
  { destruct clipped as [|c0 rest] eqn:Hcl; [done|].
    inversion Hall as [|? ? Hc0 Hrest]; subst.
    rewrite length_accumulated; [by rewrite Hc0, Hw | by rewrite Hc0]. }
  exists (run_network net (params s) data label),
         (tos_step_store self c s data label ds ls),
         (tos_step_calls self c (params s) data label ds ls),
         (accumulated clipped).
  split; [done|]. split.
  { unfold clipped. rewrite length_zip_with, Hlen, Nat.min_id. done. }
  split; [apply tos_step_store_calls|]. split.
  { rewrite tos_step_calls_optimizer. unfold tos_reduce.
    rewrite Hflag, Hred. fold clipped.
    by destruct (mode_in _ _). }
  split; [done|].
  intros j Hj.
  destruct (accumulated_lookup clipped (length (TOS.weights self)) j Hne Hall)
    as (x0 & col & Hcol & _ & Hlook).
  { rewrite Hw, <- Hsums. done. }
  by exists x0, col.
Qed.

(** In stand-alone mode, a batch of four examples in two microbatches: the
    optimizer receives the sums of the two clipped gradients. *)
Lemma C2_witness :
  exists self loss s' new sums,
    TOS.__init__ (F:=Toy.framework) (Toy.ctx "Ascend" STAND_ALONE)
      Toy.LeNet 1%Z 1%float (Some 2%Z) (Some 5%float) None = inr self /\
    TOS.construct self Toy.data Toy.label Toy.store0 = inr (loss, s') /\
    calls s' = calls Toy.store0 ++ new /\
    optimizer_args new = [sums] /\
    sums !! 0 = Some [8; 2]%Z /\
    sums !! 1 = Some [9; 2]%Z.
Proof.
  eexists.
  destruct (C2_optimizer_receives_reduced_sum (F:=Toy.framework)
              (Toy.ctx "Ascend" STAND_ALONE) Toy.LeNet 1%Z 1%float (Some 2%Z)
              5%float None _ Toy.data Toy.label
              [[1; 2]; [3; 4]]%Z [[1; 0]; [0; 1]]%Z Toy.store0
              eq_refl eq_refl eq_refl)
    as (loss & s' & new & sums & Hrun & _ & Hcalls & Hopt & Hlen & Hsum).
  exists loss, s', new, sums.
  split; [reflexivity|]. split; [exact Hrun|]. split; [exact Hcalls|].
  split; [exact Hopt|].
  destruct (Hsum 0%nat) as (x0 & col & Hcol & H0); [rewrite Hlen; simpl; lia|].
  destruct (Hsum 1%nat) as (x1 & col1 & Hcol1 & H1); [rewrite Hlen; simpl; lia|].
  vm_compute in Hcol, Hcol1.
  injection Hcol as <- <-. injection Hcol1 as <- <-.
  split; [exact H0 | exact H1].
Defined.

(** In DATA_PARALLEL mode the optimizer does not receive the sums: the two
    clipped gradients add up to [[8; 2]; [9; 2]], and the optimizer is called
    once, with the reduced tuple [[16; 4]; [18; 4]]. *)
Lemma C2_counterexample :
  (try* self := TOS.__init__ (F:=Toy.framework) (Toy.ctx "Ascend" DATA_PARALLEL)
                  Toy.LeNet 1%Z 1%float (Some 2%Z) (Some 5%float) None in
   try* ds := TOS._split self Toy.data in
   try* ls := TOS._split self Toy.label in
   try* r := TOS.construct self Toy.data Toy.label Toy.store0 in
   inr (accumulated (zip_with (tos_clipped self 5%float (params Toy.store0)) ds ls),
        optimizer_args (calls (snd r))))
  = inr ([[8; 2]; [9; 2]]%Z, [[[16; 4]; [18; 4]]%Z]).
Proof. vm_compute. reflexivity. Qed.

(** ** C1: the noise mechanism *)

(** The same cell with another object in [_mech]. *)
Definition tos_with_mech {F : Framework} (self : TOS.t)
    (mech : option Mechanisms) : TOS.t :=
  {| TOS.network := TOS.network self; TOS.weights := TOS.weights self;
     TOS.optimizer := TOS.optimizer self; TOS.sens := TOS.sens self;
     TOS.reducer_flag := TOS.reducer_flag self;
     TOS.grad_reducer := TOS.grad_reducer self;
     TOS._micro_batches := TOS._micro_batches self;
     TOS._l2_norm := TOS._l2_norm self; TOS._split := TOS._split self;
     TOS._mech := mech; TOS.training := TOS.training self |}.

Definition lsc_with_mech {F : Framework} (self : LSC.t)
    (mech : option Mechanisms) : LSC.t :=
  {| LSC.network := LSC.network self; LSC.weights := LSC.weights self;
     LSC.optimizer := LSC.optimizer self; LSC.gpu_target := LSC.gpu_target self;
     LSC.base := LSC.base self; LSC.parallel_mode := LSC.parallel_mode self;
     LSC.grad_reducer := LSC.grad_reducer self;
     LSC.reducer_flag := LSC.reducer_flag self;
     LSC.is_distributed := LSC.is_distributed self;
     LSC.init_loss_scale := LSC.init_loss_scale self;
     LSC.loss_scaling_manager := LSC.loss_scaling_manager self;
     LSC._micro_batches := LSC._micro_batches self;
     LSC._l2_norm := LSC._l2_norm self; LSC._split := LSC._split self;
     LSC._mech := mech; LSC.training := LSC.training self |}.

(** C1, as the code has it.  Both cells store the mechanism in [_mech] and
    never call it.  [construct] of either cell does the same whatever object
    is stored there, and a step of a cell built by [__init__] records no call
    of the mechanism: the accumulated gradients go to the optimizer (in the
    loss-scale cell only when there is no overflow) without passing through
    it. *)
Theorem C1_mech_is_stored_but_never_called {F : Framework} :
  (forall self mech' data label s,
      TOS.construct (tos_with_mech self mech') data label s
      = TOS.construct self data label s) /\
  (forall self mech' data label sens s,
      LSC.construct (lsc_with_mech self mech') data label sens s
      = LSC.construct self data label sens s) /\
  (forall ctx net opt sens mb c mech self data label ds ls s,
      TOS.__init__ ctx net opt sens mb (Some c) mech = inr self ->
      TOS._split self data = inr ds ->
      TOS._split self label = inr ls ->
      exists loss s' new grads,
        TOS.construct self data label s = inr (loss, s') /\
        calls s' = calls s ++ new /\
        mech_args new = [] /\
        optimizer_args new = [grads]) /\
  (forall ctx net opt uc mb c mech self data label sens sv ds ls s,
      LSC.__init__ ctx net opt uc mb (Some c) mech = inr self ->
      LSC._split self data = inr ds ->
      LSC._split self label = inr ls ->
      scaling_value sens s = Some sv ->
      (sens = None -> is_Some uc) ->
      exists out s' new,
        LSC.construct self data label sens s = inr (out, s') /\
        calls s' = calls s ++ new /\
        mech_args new = []).
Proof.
  split; [reflexivity|]. split; [reflexivity|]. split.
  - intros ctx net opt sens mb c mech self data label ds ls s Hinit Hd Hl.
    destruct (tos_step _ _ _ _ _ _ _ _ _ _ _ _ s Hinit Hd Hl)
      as (_ & _ & _ & Hrun).
    eexists _, _, (tos_step_calls self c (params s) data label ds ls), _.
    split; [exact Hrun|]. split; [apply tos_step_store_calls|].
    split; [apply tos_step_calls_mech | apply tos_step_calls_optimizer].
  - intros ctx net opt uc mb c mech self data label sens sv ds ls s
      Hinit Hd Hl Hsv Huc.
    destruct (lsc_step_run _ _ _ _ _ _ _ _ _ _ _ _ _ _ _ Hinit Hd Hl Hsv Huc)
      as (_ & _ & _ & Hrun).
    eexists _, _, (st_calls (lsc_run self c sens sv s data label ds ls)).
    split; [exact Hrun|]. split; [reflexivity|]. apply lsc_calls_mech.
Qed.

(** A one-step cell configured with a mechanism: its step records no call
    of it. *)
Lemma C1_witness :
  exists self loss s' new grads,
    TOS.__init__ (F:=Toy.framework) (Toy.ctx "Ascend" STAND_ALONE)
      Toy.LeNet 1%Z 1%float (Some 2%Z) (Some 5%float) (Some 7%Z) = inr self /\
    TOS.construct self Toy.data Toy.label Toy.store0 = inr (loss, s') /\
    calls s' = calls Toy.store0 ++ new /\
    mech_args new = [] /\
    optimizer_args new = [grads].
Proof.
  eexists.
  destruct (proj1 (proj2 (proj2 (C1_mech_is_stored_but_never_called
                                   (F:=Toy.framework))))
              (Toy.ctx "Ascend" STAND_ALONE) Toy.LeNet 1%Z 1%float (Some 2%Z)
              5%float (Some 7%Z) _ Toy.data Toy.label
              [[1; 2]; [3; 4]]%Z [[1; 0]; [0; 1]]%Z Toy.store0
              eq_refl eq_refl eq_refl)
    as (loss & s' & new & grads & Hrun & Hcalls & Hmech & Hopt).
  exists loss, s', new, grads. by repeat split.
Defined.

(** The claim on a list of recorded calls: some optimizer call is preceded
    by a call of the mechanism. *)
Definition mech_called_before_optimizer {F : Framework}
    (cs : list (call Tensor)) : Prop :=
  exists pre grads post,
    cs = pre ++ CallOptimizer grads :: post /\ mech_args pre <> [].

Lemma mech_args_prefix {F : Framework} (cs pre post : list (call Tensor)) :
  cs = pre ++ post -> mech_args cs = [] -> mech_args pre = [].
Proof.
  intros -> H. unfold mech_args in *. rewrite omap_app in H.
  by apply app_eq_nil in H as [H _].
Qed.

(** Both cells configured with a mechanism ([Some 7]): the optimizer is
    called with the accumulated gradients, and no call of the mechanism
    precedes it. *)
Lemma C1_counterexample :
  exists cs_one_step cs_loss_scale : list (call Toy.vec),
    (try* self := TOS.__init__ (F:=Toy.framework) (Toy.ctx "Ascend" STAND_ALONE)
                    Toy.LeNet 1%Z 1%float (Some 2%Z) (Some 5%float) (Some 7%Z) in
     try* r := TOS.construct self Toy.data Toy.label Toy.store0 in
     inr (calls (snd r))) = inr cs_one_step /\
    (try* self := LSC.__init__ (F:=Toy.framework) (Toy.ctx "GPU" STAND_ALONE)
                    Toy.LeNet 1%Z (Some tt) (Some 2%Z) (Some 5%float) (Some 7%Z) in
     try* r := LSC.construct self Toy.data Toy.label None Toy.store0 in
     inr (calls (snd r))) = inr cs_loss_scale /\
    optimizer_args (F:=Toy.framework) cs_one_step = [[[8; 2]; [9; 2]]%Z] /\
    optimizer_args (F:=Toy.framework) cs_loss_scale = [[[2; 2]; [2; 2]]%Z] /\
    ~ mech_called_before_optimizer (F:=Toy.framework) cs_one_step /\
    ~ mech_called_before_optimizer (F:=Toy.framework) cs_loss_scale.
Proof.
  eexists _, _.
  split; [vm_compute; reflexivity|].
  split; [vm_compute; reflexivity|].
  split; [reflexivity|]. split; [reflexivity|].
  split; intros (pre & grads & post & Heq & Hne); apply Hne;
    apply (mech_args_prefix _ _ _ Heq); reflexivity.
Qed.

(** ** C3: clipping *)

(** C3, as the code has it.  Clipping is per microbatch and by norm.
    [GRADIENT_CLIP_TYPE] is 1; with that clip type [_ClipGradients] applies
    [ClipByNorm] with the given bound to every tensor of the tuple and
    returns a tuple of the same length; and in a step of either cell the
    calls of [_ClipGradients] are, in order, one per microbatch, on the one
    gradient tuple computed for that microbatch (however many examples it
    holds), with clip type [GRADIENT_CLIP_TYPE] and the bound [l2_norm_clip]
    the cell was built with. *)
Theorem C3_clip_by_norm_per_microbatch {F : Framework} :
  GRADIENT_CLIP_TYPE = 1%Z /\
  (forall grads c,
      _ClipGradients grads GRADIENT_CLIP_TYPE (Some c)
      = inr (map (fun g => ClipByNorm g (tuple_to_array [c])) grads) /\
      length (map (fun g => ClipByNorm g (tuple_to_array [c])) grads)
      = length grads) /\
  (forall ctx net opt sens mb c mech self data label ds ls s,
      TOS.__init__ ctx net opt sens mb (Some c) mech = inr self ->
      TOS._split self data = inr ds ->
      TOS._split self label = inr ls ->
      exists loss s' new,
        TOS.construct self data label s = inr (loss, s') /\
        calls s' = calls s ++ new /\
        clip_args new =
        zip_with (fun d l => (tos_raw_grad self (params s) d l,
                              GRADIENT_CLIP_TYPE, Some c)) ds ls) /\
  (forall ctx net opt uc mb c mech self data label sens sv ds ls s,
      LSC.__init__ ctx net opt uc mb (Some c) mech = inr self ->
      LSC._split self data = inr ds ->
      LSC._split self label = inr ls ->
      scaling_value sens s = Some sv ->
      (sens = None -> is_Some uc) ->
      exists out s' new,
        LSC.construct self data label sens s = inr (out, s') /\
        calls s' = calls s ++ new /\
        clip_args new =
        zip_with (fun d l => (lsc_raw_grad self sv (params s) d l,
                              GRADIENT_CLIP_TYPE, Some c)) ds ls).
Proof.
  split; [reflexivity|]. split.
  { intros grads c. split; [apply _ClipGradients_norm | apply length_map]. }
  split.
  - intros ctx net opt sens mb c mech self data label ds ls s Hinit Hd Hl.
    destruct (tos_step _ _ _ _ _ _ _ _ _ _ _ _ s Hinit Hd Hl)
      as (_ & _ & _ & Hrun).
    destruct (tos_init_inv _ _ _ _ _ _ _ _ Hinit)
      as (m & _ & _ & _ & _ & _ & _ & _ & Hc & _).
    eexists _, _, (tos_step_calls self c (params s) data label ds ls).
    split; [exact Hrun|]. split; [apply tos_step_store_calls|].
    rewrite tos_step_calls_clip. by rewrite Hc.
  - intros ctx net opt uc mb c mech self data label sens sv ds ls s
      Hinit Hd Hl Hsv Huc.
    destruct (lsc_step_run _ _ _ _ _ _ _ _ _ _ _ _ _ _ _ Hinit Hd Hl Hsv Huc)
      as (_ & _ & _ & Hrun).
    destruct (lsc_init_inv _ _ _ _ _ _ _ _ Hinit)
      as (m & _ & _ & _ & _ & _ & _ & Hc & _).
    eexists _, _, (st_calls (lsc_run self c sens sv s data label ds ls)).
    split; [exact Hrun|]. split; [reflexivity|].
    rewrite lsc_calls_clip. by rewrite Hc.
Qed.

(** Two microbatches, bound 5: the two gradients are clipped by norm. *)
Lemma C3_witness :
  exists self loss s' new,
    TOS.__init__ (F:=Toy.framework) (Toy.ctx "Ascend" STAND_ALONE)
      Toy.LeNet 1%Z 1%float (Some 2%Z) (Some 5%float) None = inr self /\
    TOS.construct self Toy.data Toy.label Toy.store0 = inr (loss, s') /\
    calls s' = calls Toy.store0 ++ new /\
    clip_args new = [([[3; 1]; [4; 1]]%Z, 1%Z, Some 5%float);
                     ([[7; 1]; [8; 1]]%Z, 1%Z, Some 5%float)].
Proof.
  eexists.
  destruct (proj1 (proj2 (proj2 (C3_clip_by_norm_per_microbatch
                                   (F:=Toy.framework))))
              (Toy.ctx "Ascend" STAND_ALONE) Toy.LeNet 1%Z 1%float (Some 2%Z)
              5%float None _ Toy.data Toy.label
              [[1; 2]; [3; 4]]%Z [[1; 0]; [0; 1]]%Z Toy.store0
              eq_refl eq_refl eq_refl)
    as (loss & s' & new & Hrun & Hcalls & Hclip).
  exists loss, s', new.
  split; [reflexivity|]. split; [exact Hrun|]. split; [exact Hcalls|].
  exact Hclip.
Defined.

(** A batch of four examples in two microbatches of two.  Two gradient
    tuples are clipped, one per microbatch; the gradients of the four single
    examples are other tuples, and none of them is clipped. *)
Lemma C3_counterexample :
  exists clipped per_example : list (list Toy.vec),
    (try* self := TOS.__init__ (F:=Toy.framework) (Toy.ctx "Ascend" STAND_ALONE)
                    Toy.LeNet 1%Z 1%float (Some 2%Z) (Some 5%float) None in
     try* r := TOS.construct self Toy.data Toy.label Toy.store0 in
     inr (map (fun x => fst (fst x)) (clip_args (calls (snd r))),
          map (fun xy => tos_raw_grad self (params Toy.store0)
                           [fst xy] [snd xy])
              (zip Toy.data Toy.label)))
    = inr (clipped, per_example) /\
    length per_example = 4 /\
    length clipped = 2 /\
    forall g, In g per_example -> ~ In g clipped.
Proof.
  eexists _, _. split; [vm_compute; reflexivity|].
  split; [reflexivity|]. split; [reflexivity|].
  intros g Hg Hc. simpl in Hg, Hc.
  destruct Hc as [<-|[<-|[]]];
    destruct Hg as [Hg|[Hg|[Hg|[Hg|[]]]]]; discriminate Hg.
Qed.

(** ** C10: the returned loss *)

(** C10.  In both cells the loss that a step returns is the network applied
    to the full [data] and [label] (with the parameters as they are before
    the optimizer runs), and the network is called once per microbatch and
    once more on the full batch, in this order: [micro_batches + 1] calls. *)
Theorem C10_loss_from_final_forward_pass {F : Framework} :
  (forall ctx net opt sens mb c mech self data label ds ls s,
      TOS.__init__ ctx net opt sens mb (Some c) mech = inr self ->
      TOS._split self data = inr ds ->
      TOS._split self label = inr ls ->
      exists m s' new,
        mb = Some m /\
        TOS.construct self data label s
        = inr (run_network net (params s) data label, s') /\
        calls s' = calls s ++ new /\
        network_args new = zip_with pair ds ls ++ [(data, label)] /\
        length (network_args new) = Z.to_nat m + 1) /\
  (forall ctx net opt uc mb c mech self data label sens sv ds ls s,
      LSC.__init__ ctx net opt uc mb (Some c) mech = inr self ->
      LSC._split self data = inr ds ->
      LSC._split self label = inr ls ->
      scaling_value sens s = Some sv ->
      (sens = None -> is_Some uc) ->
      exists m cond scale s' new,
        mb = Some m /\
        LSC.construct self data label sens s
        = inr ((run_network net (params s) data label, cond, scale), s') /\
        calls s' = calls s ++ new /\
        network_args new = zip_with pair ds ls ++ [(data, label)] /\
        length (network_args new) = Z.to_nat m + 1).
Proof.
  split.
  - intros ctx net opt sens mb c mech self data label ds ls s Hinit Hd Hl.
    destruct (tos_step _ _ _ _ _ _ _ _ _ _ _ _ s Hinit Hd Hl)
      as (Hmb & Hlen & _ & Hrun).
    eexists _, _, (tos_step_calls self c (params s) data label ds ls).
    split; [exact Hmb|]. split; [exact Hrun|].
    split; [apply tos_step_store_calls|].
    rewrite tos_step_calls_network. split; [done|].
    rewrite length_app, length_zip_with, Hlen. simpl. lia.
  - intros ctx net opt uc mb c mech self data label sens sv ds ls s
      Hinit Hd Hl Hsv Huc.
    destruct (lsc_step_run _ _ _ _ _ _ _ _ _ _ _ _ _ _ _ Hinit Hd Hl Hsv Huc)
      as (Hmb & Hlen & _ & Hrun).
    eexists _, _, _, _, (st_calls (lsc_run self c sens sv s data label ds ls)).
    split; [exact Hmb|]. split; [exact Hrun|]. split; [reflexivity|].
    rewrite lsc_calls_network. split; [done|].
    rewrite length_app, length_zip_with, Hlen. simpl. lia.
Qed.

(** Two microbatches: three forward passes, the last one on the full batch. *)
Lemma C10_witness :
  exists self s' new,
    TOS.__init__ (F:=Toy.framework) (Toy.ctx "Ascend" STAND_ALONE)
      Toy.LeNet 1%Z 1%float (Some 2%Z) (Some 5%float) None = inr self /\
    TOS.construct self Toy.data Toy.label Toy.store0 = inr ([28]%Z, s') /\
    calls s' = calls Toy.store0 ++ new /\
    network_args new = [([1; 2], [1; 0]); ([3; 4], [0; 1]);
                        ([1; 2; 3; 4], [1; 0; 0; 1])]%Z /\
    length (network_args new) = 3.
Proof.
  eexists.
  destruct (proj1 (C10_loss_from_final_forward_pass (F:=Toy.framework))
              (Toy.ctx "Ascend" STAND_ALONE) Toy.LeNet 1%Z 1%float (Some 2%Z)
              5%float None _ Toy.data Toy.label
              [[1; 2]; [3; 4]]%Z [[1; 0]; [0; 1]]%Z Toy.store0
              eq_refl eq_refl eq_refl)
    as (m & s' & new & Hm & Hrun & Hcalls & Hnet & Hlen).
  injection Hm as <-.
  exists s', new.
  split; [reflexivity|]. split; [exact Hrun|]. split; [exact Hcalls|].
  split; [exact Hnet | exact Hlen].
Defined.

(** ** C6: the distributed gradient reducer *)

(** C6.  For cells built by [__init__] under a context with parallel mode
    [mode]: when [mode] is DATA_PARALLEL or HYBRID_PARALLEL, the accumulated
    tuple (unscaled first, in the loss-scale cell) is passed once to the
    [DistributedGradReducer] built from the optimizer's parameters, the
    mirror-mean flag and the device number, and the optimizer receives the
    reducer's output; in every other mode no reducer is called and the
    optimizer receives the tuple as it is.  In the loss-scale cell the
    optimizer is called only when the overflow flag is false. *)
Theorem C6_reducer_exactly_in_data_parallel_modes {F : Framework} :
  (forall ctx net opt sens mb c mech self data label ds ls s,
      TOS.__init__ ctx net opt sens mb (Some c) mech = inr self ->
      TOS._split self data = inr ds ->
      TOS._split self label = inr ls ->
      let mode := _get_parallel_mode ctx in
      let sums := accumulated (zip_with (tos_clipped self c (params s)) ds ls) in
      exists loss s' new,
        TOS.construct self data label s = inr (loss, s') /\
        calls s' = calls s ++ new /\
        (mode = DATA_PARALLEL \/ mode = HYBRID_PARALLEL ->
         reducer_args new = [sums] /\
         optimizer_args new =
         [DistributedGradReducer (opt_parameters opt) (_get_mirror_mean ctx)
                                 (_get_device_num ctx) sums]) /\
        (mode <> DATA_PARALLEL -> mode <> HYBRID_PARALLEL ->
         reducer_args new = [] /\ optimizer_args new = [sums])) /\
  (forall ctx net opt uc mb c mech self data label sens sv ds ls s,
      LSC.__init__ ctx net opt uc mb (Some c) mech = inr self ->
      LSC._split self data = inr ds ->
      LSC._split self label = inr ls ->
      scaling_value sens s = Some sv ->
      (sens = None -> is_Some uc) ->
      let mode := _get_parallel_mode ctx in
      let scaled :=
        hyper_map (tensor_grad_scale sv)
          (accumulated (zip_with (lsc_clipped self c sv (params s)) ds ls)) in
      exists out s' new overflow,
        LSC.construct self data label sens s = inr (out, s') /\
        calls s' = calls s ++ new /\
        (mode = DATA_PARALLEL \/ mode = HYBRID_PARALLEL ->
         reducer_args new = [scaled] /\
         optimizer_args new =
         if tensor_bool overflow then []
         else [DistributedGradReducer (opt_parameters opt) (_get_mirror_mean ctx)
                                      (_get_device_num ctx) scaled]) /\
        (mode <> DATA_PARALLEL -> mode <> HYBRID_PARALLEL ->
         reducer_args new = [] /\
         optimizer_args new = if tensor_bool overflow then [] else [scaled])).
Proof.
  split.
  - intros ctx net opt sens mb c mech self data label ds ls s Hinit Hd Hl
      mode sums.
    destruct (tos_step _ _ _ _ _ _ _ _ _ _ _ _ s Hinit Hd Hl)
      as (_ & _ & _ & Hrun).
    destruct (tos_init_inv _ _ _ _ _ _ _ _ Hinit)
      as (m & _ & _ & _ & _ & _ & _ & _ & _ & Hflag & Hred).
    eexists _, _, (tos_step_calls self c (params s) data label ds ls).
    split; [exact Hrun|]. split; [apply tos_step_store_calls|].
    rewrite tos_step_calls_reducer, tos_step_calls_optimizer.
    unfold tos_reduce, tos_reduce_calls. rewrite Hflag, Hred.
    fold mode. fold sums. split.
    + intros Hmode. apply mode_in_data_parallel in Hmode. by rewrite Hmode.
    + intros H1 H2.
      destruct (mode_in mode [DATA_PARALLEL; HYBRID_PARALLEL]) eqn:Hmode;
        [|done].
      apply mode_in_data_parallel in Hmode. by destruct Hmode.
  - intros ctx net opt uc mb c mech self data label sens sv ds ls s
      Hinit Hd Hl Hsv Huc mode scaled.
    destruct (lsc_step_run _ _ _ _ _ _ _ _ _ _ _ _ _ _ _ Hinit Hd Hl Hsv Huc)
      as (_ & _ & _ & Hrun).
    destruct (lsc_init_inv _ _ _ _ _ _ _ _ Hinit)
      as (m & _ & _ & _ & _ & _ & _ & _ & _ & _ & _ & _ & Hred).
    set (r := lsc_run self c sens sv s data label ds ls) in *.
    eexists _, _, (st_calls r), (st_overflow r).
    split; [exact Hrun|]. split; [reflexivity|].
    unfold r. rewrite lsc_calls_reducer, lsc_calls_optimizer.
    fold r. change (st_scaled r) with scaled.
    change (st_grads r) with (apply_reducer (LSC.grad_reducer self) scaled).
    rewrite Hred. fold mode. split.
    + intros Hmode. apply mode_in_data_parallel in Hmode. by rewrite Hmode.
    + intros H1 H2.
      destruct (mode_in mode [DATA_PARALLEL; HYBRID_PARALLEL]) eqn:Hmode;
        [|done].
      apply mode_in_data_parallel in Hmode. by destruct Hmode.
Qed.

(** HYBRID_PARALLEL on two devices without mirror mean: the reducer is called
    on the sums and the optimizer receives twice the sums. *)
Lemma C6_witness :
  exists self loss s' new,
    TOS.__init__ (F:=Toy.framework) (Toy.ctx "Ascend" HYBRID_PARALLEL)
      Toy.LeNet 1%Z 1%float (Some 2%Z) (Some 5%float) None = inr self /\
    TOS.construct self Toy.data Toy.label Toy.store0 = inr (loss, s') /\
    calls s' = calls Toy.store0 ++ new /\
    reducer_args new = [[[8; 2]; [9; 2]]%Z] /\
    optimizer_args new = [[[16; 4]; [18; 4]]%Z].
Proof.
  eexists.
  destruct (proj1 (C6_reducer_exactly_in_data_parallel_modes (F:=Toy.framework))
              (Toy.ctx "Ascend" HYBRID_PARALLEL) Toy.LeNet 1%Z 1%float (Some 2%Z)
              5%float None _ Toy.data Toy.label
              [[1; 2]; [3; 4]]%Z [[1; 0]; [0; 1]]%Z Toy.store0
              eq_refl eq_refl eq_refl)
    as (loss & s' & new & Hrun & Hcalls & Hdp & _).
  destruct (Hdp (or_intror eq_refl)) as [Hred Hopt].
  exists loss, s', new.
  split; [reflexivity|]. split; [exact Hrun|]. split; [exact Hcalls|].
  split; [exact Hred | exact Hopt].
Defined.

(** ** C7: unscaling the accumulated gradients *)

(** C7.  A step of a loss-scale cell built by [__init__], [sv] being the
    [sens] argument when one is passed and the stored [loss_scale] Parameter
    otherwise.  Let [acc] be the tuple after accumulation and [scaled] the
    tuple of the products [g * reciprocal sv] over [acc].  The step returns,
    [scaled] is [acc] mapped through [tensor_grad_scale sv], and it is
    [scaled], not [acc], that the rest of the step works on: in the
    data-parallel modes the gradient reducer is called exactly once and on
    [scaled], in the other modes it is not called; the optimizer, called
    exactly when the overflow value is false, receives the reducer's output
    for [scaled] (or [scaled] itself); and on GPU the returned condition is
    computed from the float status of those same tensors. *)
Theorem C7_unscale_before_reduction {F : Framework}
    (ctx : Context) (net : Cell) (opt : Optimizer) (uc : option UpdateCell)
    (mb : option Z) (c : float) (mech : option Mechanisms) (self : LSC.t)
    (data label : Tensor) (sens : option Tensor) (sv : Tensor)
    (ds ls : list Tensor) (s : Store) :
  LSC.__init__ ctx net opt uc mb (Some c) mech = inr self ->
  LSC._split self data = inr ds ->
  LSC._split self label = inr ls ->
  match sens with
  | Some v => sv = v
  | None => loss_scale s = Some sv /\ is_Some uc
  end ->
  let mode := _get_parallel_mode ctx in
  let acc := accumulated (zip_with (lsc_clipped self c sv (params s)) ds ls) in
  let scaled := map (fun g => tensor_mul g (P_Reciprocal sv)) acc in
  let reduced :=
    if mode_in mode [DATA_PARALLEL; HYBRID_PARALLEL]
    then DistributedGradReducer (opt_parameters opt) (_get_mirror_mean ctx)
                                (_get_device_num ctx) scaled
    else scaled in
  exists cond overflow s' new,
    LSC.construct self data label sens s
    = inr ((run_network net (params s) data label, cond, scaling_of sens), s') /\
    calls s' = calls s ++ new /\
    scaled = hyper_map (tensor_grad_scale sv) acc /\
    reducer_args new =
    (if mode_in mode [DATA_PARALLEL; HYBRID_PARALLEL] then [scaled] else []) /\
    overflow = match sens, uc with
               | None, Some u => fst (fst (run_update_cell u (aux s) sv cond))
               | _, _ => cond
               end /\
    optimizer_args new = (if tensor_bool overflow then [] else [reduced]) /\
    (String.eqb (device_target ctx) "GPU" = true ->
     let flag_sum := P_Reshape (P_AddN (hyper_map _grad_overflow reduced)) [] in
     cond = LessEqual (Tensor_of_int 1 float32)
              (if ParallelMode_eqb mode STAND_ALONE
               then flag_sum else P_AllReduce flag_sum)).
Proof.
  intros Hinit Hd Hl Hsens mode acc scaled reduced.
  assert (Hsv : scaling_value sens s = Some sv).
  { destruct sens as [v|]; simpl; [by subst | by destruct Hsens]. }
  assert (Huc : sens = None -> is_Some uc).
  { intros ->. by destruct Hsens. }
  destruct (lsc_step_run _ _ _ _ _ _ _ _ _ _ _ _ _ _ _ Hinit Hd Hl Hsv Huc)
    as (_ & _ & _ & Hrun).
  destruct (lsc_init_inv _ _ _ _ _ _ _ _ Hinit)
    as (m & _ & _ & _ & _ & _ & _ & _ & Hman & Hgpu & Hbase & Hdist & Hred).
  set (r := lsc_run self c sens sv s data label ds ls) in *.
  assert (Hgrads : st_grads r = reduced).
  { change (st_grads r) with (apply_reducer (LSC.grad_reducer self) scaled).
    rewrite Hred. unfold reduced, mode. by destruct (mode_in _ _). }
  exists (st_cond r), (st_overflow r), (st_store r), (st_calls r).
  split; [exact Hrun|]. split; [reflexivity|]. split; [reflexivity|].
  split.
  { unfold r. rewrite lsc_calls_reducer. fold r.
    change (st_scaled r) with scaled.
    rewrite Hred. unfold mode. by destruct (mode_in _ _). }
  split.
  { unfold r, lsc_run, lsc_overflow. simpl. by rewrite Hman. }
  split.
  { unfold r. rewrite lsc_calls_optimizer. fold r. by rewrite Hgrads. }
  intros Hdev flag_sum.
  change (st_cond r) with (lsc_cond self (st_flag_sum r)).
  change (st_flag_sum r)
    with (lsc_flag_sum self (st_grads r)
            (calls s ++ lsc_calls1 self sv (params s) data label ds ls
                          (st_scaled r))).
  unfold lsc_cond, lsc_flag_sum.
  rewrite Hgpu, Hdev, Hbase, Hdist, Hgrads. fold flag_sum. unfold mode.
  by destruct (ParallelMode_eqb _ _).
Qed.

(** Loss scale 4 passed as [sens], on GPU in DATA_PARALLEL mode.  The
    clipped scaled gradients add up to [[10; 8]; [10; 8]]; the reducer is
    called on them divided by 4, and the optimizer receives what the
    reducer made of that. *)
Lemma C7_witness :
  exists self cond s' new,
    LSC.__init__ (F:=Toy.framework) (Toy.ctx "GPU" DATA_PARALLEL)
      Toy.LeNet 1%Z (Some tt) (Some 2%Z) (Some 5%float) None = inr self /\
    LSC.construct self Toy.data Toy.label (Some [4]%Z) Toy.store0
    = inr ((run_network (Framework:=Toy.framework) Toy.LeNet
              (params Toy.store0) Toy.data Toy.label,
            cond, LSC.sens_arg (F:=Toy.framework) [4]%Z), s') /\
    calls s' = calls Toy.store0 ++ new /\
    accumulated (F:=Toy.framework)
      (zip_with (lsc_clipped self 5%float [4]%Z (params Toy.store0))
                [[1; 2]; [3; 4]]%Z [[1; 0]; [0; 1]]%Z)
    = [[10; 8]; [10; 8]]%Z /\
    reducer_args new = [[[2; 2]; [2; 2]]%Z] /\
    optimizer_args new = [[[4; 4]; [4; 4]]%Z].
Proof.
  eexists.
  destruct (C7_unscale_before_reduction (F:=Toy.framework)
              (Toy.ctx "GPU" DATA_PARALLEL) Toy.LeNet 1%Z (Some tt) (Some 2%Z)
              5%float None _ Toy.data Toy.label (Some [4]%Z) [4]%Z
              [[1; 2]; [3; 4]]%Z [[1; 0]; [0; 1]]%Z Toy.store0
              eq_refl eq_refl eq_refl eq_refl)
    as (cond & overflow & s' & new & Hrun & Hcalls & _ & Hred & Hov & Hopt
        & Hcond).
  exists cond, s', new.
  split; [reflexivity|]. split; [exact Hrun|]. split; [exact Hcalls|].
  split; [vm_compute; reflexivity|]. split; [exact Hred|].
  rewrite Hov, (Hcond eq_refl) in Hopt. exact Hopt.
Defined.

(** ** C5: overflow detection *)

Definition is_npu_call {F : Framework} (c : call Tensor) : bool :=
  match c with
  | CallAllocStatus | CallClearStatus _ | CallGetStatus _ => true
  | _ => false
  end.

(** The calls of the NPU float-status primitives among [cs]. *)
Definition npu_calls {F : Framework} (cs : list (call Tensor))
  : list (call Tensor) :=
  List.filter is_npu_call cs.

Definition allreduce_args {F : Framework} (cs : list (call Tensor))
  : list Tensor :=
  omap (fun c => match c with CallAllReduce t => Some t | _ => None end) cs.

Lemma npu_calls_app {F : Framework} (cs1 cs2 : list (call Tensor)) :
  npu_calls (cs1 ++ cs2) = npu_calls cs1 ++ npu_calls cs2.
Proof. apply List.filter_app. Qed.

Lemma npu_calls_micro {F : Framework} (self : LSC.t) sv pv ds ls :
  npu_calls (concat (zip_with (lsc_micro_calls self sv pv) ds ls)) = [].
Proof.
  revert ls. induction ds as [|d ds IH]; intros [|l ls]; simpl; done.
Qed.

(** C5.  For a loss-scale cell built by [__init__] under a context [ctx],
    with [grads] the tuple the step has after unscaling and reduction.
    When the device target is not GPU the step first allocates and clears
    the NPU status buffer, reads it after the gradients are computed, and
    [flag_sum] is [ReduceSum] of what it read; these are the only NPU status
    calls.  On GPU no NPU status call is made and [flag_sum] is
    [_grad_overflow] (FloatStatus) mapped over [grads], summed by [AddN] and
    reshaped to [()].  In both cases the condition is [LessEqual(1, flag)],
    where [flag] is [flag_sum], passed through [AllReduce] exactly when the
    parallel mode is not STAND_ALONE. *)
Theorem C5_overflow_detection_by_device {F : Framework}
    (ctx : Context) (net : Cell) (opt : Optimizer) (uc : option UpdateCell)
    (mb : option Z) (c : float) (mech : option Mechanisms) (self : LSC.t)
    (data label : Tensor) (sens : option Tensor) (sv : Tensor)
    (ds ls : list Tensor) (s : Store) :
  LSC.__init__ ctx net opt uc mb (Some c) mech = inr self ->
  LSC._split self data = inr ds ->
  LSC._split self label = inr ls ->
  scaling_value sens s = Some sv ->
  (sens = None -> is_Some uc) ->
  let grads :=
    apply_reducer (LSC.grad_reducer self)
      (hyper_map (tensor_grad_scale sv)
         (accumulated (zip_with (lsc_clipped self c sv (params s)) ds ls))) in
  exists loss cond scale s' new flag_sum,
    LSC.construct self data label sens s = inr ((loss, cond, scale), s') /\
    calls s' = calls s ++ new /\
    (device_target ctx = "GPU" ->
     npu_calls new = [] /\
     flag_sum = P_Reshape (P_AddN (hyper_map _grad_overflow grads)) []) /\
    (device_target ctx <> "GPU" ->
     exists before after,
       new = [CallAllocStatus; CallClearStatus NPUAllocFloatStatus]
             ++ before ++ [CallGetStatus NPUAllocFloatStatus] ++ after /\
       npu_calls before = [] /\ npu_calls after = [] /\
       flag_sum =
       ReduceSum
         (NPUGetFloatStatus NPUAllocFloatStatus
            (calls s ++ [CallAllocStatus; CallClearStatus NPUAllocFloatStatus]
             ++ before))
         [0%Z]) /\
    (_get_parallel_mode ctx = STAND_ALONE ->
     allreduce_args new = [] /\
     cond = LessEqual (Tensor_of_int 1 float32) flag_sum) /\
    (_get_parallel_mode ctx <> STAND_ALONE ->
     allreduce_args new = [flag_sum] /\
     cond = LessEqual (Tensor_of_int 1 float32) (P_AllReduce flag_sum)).
Proof.
  intros Hinit Hd Hl Hsv Huc grads.
  destruct (lsc_step_run _ _ _ _ _ _ _ _ _ _ _ _ _ _ _ Hinit Hd Hl Hsv Huc)
    as (_ & _ & _ & Hrun).
  destruct (lsc_init_inv _ _ _ _ _ _ _ _ Hinit)
    as (m & _ & _ & _ & _ & _ & _ & _ & _ & Hgpu & Hbase & Hdist & _).
  set (r := lsc_run self c sens sv s data label ds ls) in *.
  eexists _, _, _, _, (st_calls r), (st_flag_sum r).
  split; [exact Hrun|]. split; [reflexivity|].
  assert (Hopt : forall ov gs, npu_calls (lsc_optimizer_calls ov gs) = []).
  { intros ov gs. unfold lsc_optimizer_calls. by destruct (tensor_bool ov). }
  assert (Hupd : forall cd, npu_calls (lsc_update_calls self sens sv cd) = []).
  { intros cd. unfold lsc_update_calls.
    by destruct sens, (LSC.loss_scaling_manager self). }
  split; [|split; [|split]].
  - intros Htarget. apply String.eqb_eq in Htarget. rewrite <- Hgpu in Htarget.
    unfold r, lsc_run, lsc_calls1, lsc_calls2, lsc_flag_sum. simpl.
    rewrite Htarget. split; [|done].
    rewrite !npu_calls_app, npu_calls_micro, Hopt, Hupd. simpl.
    destruct (LSC.grad_reducer self), (LSC.is_distributed self); done.
  - intros Htarget. apply String.eqb_neq in Htarget. rewrite <- Hgpu in Htarget.
    exists (concat (zip_with (lsc_micro_calls self sv (params s)) ds ls)
            ++ [CallNetwork data label]
            ++ match LSC.grad_reducer self with
               | Reducer _ _ _ => [CallGradReducer (st_scaled r)]
               | F_identity => []
               end),
           ((if LSC.is_distributed self
             then [CallAllReduce (st_flag_sum r)] else [])
            ++ lsc_update_calls self sens sv (st_cond r)
            ++ lsc_optimizer_calls (st_overflow r) (st_grads r)).
    unfold r, lsc_run, lsc_calls1, lsc_calls2, lsc_flag_sum. simpl.
    rewrite Htarget. split; [by rewrite <- !app_assoc|].
    rewrite !npu_calls_app, npu_calls_micro, Hopt, Hupd. simpl.
    split; [by destruct (LSC.grad_reducer self)|].
    split; [by destruct (LSC.is_distributed self)|].
    reflexivity.
  - intros Hmode. rewrite Hmode in Hdist. simpl in Hdist.
    unfold r, lsc_run, lsc_calls1, lsc_calls2, lsc_cond, allreduce_args. simpl.
    rewrite Hdist, Hbase. split; [|done].
    rewrite !omap_app, omap_concat_zip_with. simpl.
    rewrite concat_zip_with_nil.
    unfold lsc_update_calls, lsc_optimizer_calls.
    destruct (LSC.gpu_target self), (LSC.grad_reducer self), sens,
      (LSC.loss_scaling_manager self), (tensor_bool _); done.
  - intros Hmode.
    assert (Hd' : LSC.is_distributed self = true).
    { rewrite Hdist. by destruct (_get_parallel_mode ctx). }
    unfold r, lsc_run, lsc_calls1, lsc_calls2, lsc_cond, allreduce_args. simpl.
    rewrite Hd', Hbase. split; [|done].
    rewrite !omap_app, omap_concat_zip_with. simpl.
    rewrite concat_zip_with_nil.
    unfold lsc_update_calls, lsc_optimizer_calls.
    destruct (LSC.gpu_target self), (LSC.grad_reducer self), sens,
      (LSC.loss_scaling_manager self), (tensor_bool _); done.
Qed.

(** On an NPU in DATA_PARALLEL mode: the flag sum goes through [AllReduce]
    and the condition compares 1 with the reduced flag. *)
Lemma C5_witness :
  exists self loss cond scale s' new flag_sum,
    LSC.__init__ (F:=Toy.framework) (Toy.ctx "Ascend" DATA_PARALLEL)
      Toy.LeNet 1%Z (Some tt) (Some 2%Z) (Some 5%float) None = inr self /\
    LSC.construct self Toy.data Toy.label (Some [2000]%Z) Toy.store0
    = inr ((loss, cond, scale), s') /\
    calls s' = calls Toy.store0 ++ new /\
    allreduce_args new = [flag_sum] /\
    cond = @LessEqual Toy.framework (Tensor_of_int 1 float32)
                      (P_AllReduce flag_sum).
Proof.
  eexists.
  destruct (C5_overflow_detection_by_device (F:=Toy.framework)
              (Toy.ctx "Ascend" DATA_PARALLEL) Toy.LeNet 1%Z (Some tt) (Some 2%Z)
              5%float None _ Toy.data Toy.label (Some [2000]%Z) [2000]%Z
              [[1; 2]; [3; 4]]%Z [[1; 0]; [0; 1]]%Z Toy.store0
              eq_refl eq_refl eq_refl eq_refl)
    as (loss & cond & scale & s' & new & flag_sum & Hrun & Hcalls
        & _ & _ & _ & Hdist).
  { intros H. discriminate H. }
  destruct Hdist as [Hall Hcond]; [discriminate|].
  exists loss, cond, scale, s', new, flag_sum.
  split; [reflexivity|]. split; [exact Hrun|]. split; [exact Hcalls|].
  split; [exact Hall | exact Hcond].
Defined.

(** ** C8: the optimizer is skipped on overflow *)

(** C8.  A step of a loss-scale cell built by [__init__] returns the triple
    of the loss on the full batch, the condition [cond] and the loss scale.
    With [overflow] the value the source tests ([cond] itself when [sens] is
    passed, what the update cell returns for [cond] otherwise), the optimizer
    is called, once and with the reduced gradients, if and only if [overflow]
    is false; when [overflow] is true it is not called and the network
    parameters in the store are those from before the step. *)
Theorem C8_optimizer_iff_no_overflow {F : Framework}
    (ctx : Context) (net : Cell) (opt : Optimizer) (uc : option UpdateCell)
    (mb : option Z) (c : float) (mech : option Mechanisms) (self : LSC.t)
    (data label : Tensor) (sens : option Tensor) (sv : Tensor)
    (ds ls : list Tensor) (s : Store) :
  LSC.__init__ ctx net opt uc mb (Some c) mech = inr self ->
  LSC._split self data = inr ds ->
  LSC._split self label = inr ls ->
  scaling_value sens s = Some sv ->
  (sens = None -> is_Some uc) ->
  let grads :=
    apply_reducer (LSC.grad_reducer self)
      (hyper_map (tensor_grad_scale sv)
         (accumulated (zip_with (lsc_clipped self c sv (params s)) ds ls))) in
  exists cond overflow s' new,
    LSC.construct self data label sens s
    = inr ((run_network net (params s) data label, cond, scaling_of sens), s') /\
    calls s' = calls s ++ new /\
    overflow = match sens, uc with
               | None, Some u => fst (fst (run_update_cell u (aux s) sv cond))
               | _, _ => cond
               end /\
    (optimizer_args new <> [] <-> tensor_bool overflow = false) /\
    (tensor_bool overflow = false ->
     optimizer_args new = [grads] /\
     exists a, params s' = fst (run_optimizer opt (params s) a grads)) /\
    (tensor_bool overflow = true ->
     optimizer_args new = [] /\ params s' = params s).
Proof.
  intros Hinit Hd Hl Hsv Huc grads.
  destruct (lsc_step_run _ _ _ _ _ _ _ _ _ _ _ _ _ _ _ Hinit Hd Hl Hsv Huc)
    as (_ & _ & _ & Hrun).
  destruct (lsc_init_inv _ _ _ _ _ _ _ _ Hinit)
    as (m & _ & _ & _ & _ & Hopt & _ & _ & Hman & _).
  set (r := lsc_run self c sens sv s data label ds ls) in *.
  exists (st_cond r), (st_overflow r), (st_store r), (st_calls r).
  split; [exact Hrun|]. split; [reflexivity|].
  split.
  { unfold r, lsc_run, lsc_overflow. simpl. by rewrite Hman. }
  unfold r. rewrite lsc_calls_optimizer. fold r.
  change (st_grads r) with grads.
  split; [|split].
  - destruct (tensor_bool (st_overflow r)); split; done.
  - intros Hov. rewrite Hov. split; [done|].
    unfold r. rewrite lsc_store_params. fold r.
    rewrite Hov, Hopt. by eexists.
  - intros Hov. rewrite Hov. split; [done|].
    unfold r. rewrite lsc_store_params. fold r.
    by rewrite Hov.
Qed.

(** A loss scale of 2000 overflows in the toy framework: the optimizer is
    not called and the parameters stay [[1; 2]]. *)
Lemma C8_witness :
  exists self cond s' new,
    LSC.__init__ (F:=Toy.framework) (Toy.ctx "Ascend" DATA_PARALLEL)
      Toy.LeNet 1%Z (Some tt) (Some 2%Z) (Some 5%float) None = inr self /\
    LSC.construct self Toy.data Toy.label (Some [2000]%Z) Toy.store0
    = inr (([28]%Z, cond, @LSC.sens_arg Toy.framework [2000]%Z), s') /\
    calls s' = calls Toy.store0 ++ new /\
    optimizer_args new = [] /\
    params s' = [1; 2]%Z.
Proof.
  eexists.
  destruct (C8_optimizer_iff_no_overflow (F:=Toy.framework)
              (Toy.ctx "Ascend" DATA_PARALLEL) Toy.LeNet 1%Z (Some tt) (Some 2%Z)
              5%float None _ Toy.data Toy.label (Some [2000]%Z) [2000]%Z
              [[1; 2]; [3; 4]]%Z [[1; 0]; [0; 1]]%Z Toy.store0
              eq_refl eq_refl eq_refl eq_refl)
    as (cond & overflow & s' & new & Hrun & Hcalls & Hov & _ & _ & Hskip).
  { intros H. discriminate H. }
  destruct Hskip as [Hnone Hparams].
  { rewrite Hov.
    pose proof (f_equal (fun x => match x with
                                  | inr ((_, cd, _), _) => tensor_bool cd
                                  | inl _ => false
                                  end) Hrun) as Hc.
    vm_compute in Hc. symmetry. exact Hc. }
  exists cond, s', new.
  split; [reflexivity|]. split; [exact Hrun|]. split; [exact Hcalls|].
  split; [exact Hnone | exact Hparams].
Defined.

(** ** C9: the CPU guard of [amp_build_train_network] *)

(** The update cell the loss-scale manager of a [config] provides, if any. *)
Definition update_cell_of {F : Framework}
    (config : gmap string (pyobj LossScaleManager)) : option UpdateCell :=
  match config !! "loss_scale_manager" with
  | Some (PyManager m) => get_update_cell m
  | _ => None
  end.

(** The guard of [amp_build_train_network] for CPU: no cell is returned. *)
Lemma cpu_guard_no_cell {F : Framework}
    (ctx : Context) (self : DPModel.t) (network : Cell) (optimizer : Optimizer)
    (loss_fn : option LossFn) (level : string)
    (kw level_config : gmap string (pyobj LossScaleManager))
    (update_cell : UpdateCell) :
  _config_level !! level = Some level_config ->
  update_cell_of (kw ∪ level_config) = Some update_cell ->
  device_target ctx = "CPU" ->
  enable_ge ctx = false ->
  exists e, DPModel.amp_build_train_network ctx self network optimizer
              loss_fn level kw = inl e.
Proof.
  intros Hlc Huc Hcpu Hge.
  unfold update_cell_of in Huc.
  destruct ((kw ∪ level_config) !! "loss_scale_manager") as [[| | |m]|] eqn:Hm;
    try discriminate.
  assert (Hguard : negb (enable_ge ctx) && String.eqb (device_target ctx) "CPU"
                   = true).
  { by rewrite Hge, Hcpu. }
  unfold DPModel.amp_build_train_network, DPModel.attr.
  destruct (DPModel.check_level level) as [e|u]; simpl; [by eexists|].
  destruct (_check_kwargs kw) as [e|]; simpl; [by eexists|].
  rewrite Hlc. simpl.
  destruct ((kw ∪ level_config) !! "cast_model_type") as [cast|]; simpl;
    [|by eexists].
  destruct (DPModel.is_float16 cast); simpl.
  - destruct ((kw ∪ level_config) !! "keep_batchnorm_fp32"); simpl;
      [|by eexists].
    destruct loss_fn; simpl; rewrite Hm; simpl; rewrite Huc, Hguard;
      by eexists.
  - destruct loss_fn; simpl; rewrite Hm; simpl; rewrite Huc, Hguard;
      by eexists.
Qed.

(** C9.  When the manager in the merged [config] provides an update cell,
    the device target is CPU and [enable_ge] is off,
    [amp_build_train_network] never returns a training cell; and when the
    checks that precede the manager pass (the level is valid, the keyword
    arguments are accepted, the config has its entries) the exception is the
    ValueError of the CPU guard. *)
Theorem C9_cpu_update_cell_raises {F : Framework}
    (ctx : Context) (self : DPModel.t) (network : Cell) (optimizer : Optimizer)
    (loss_fn : option LossFn) (level : string)
    (kw level_config : gmap string (pyobj LossScaleManager))
    (update_cell : UpdateCell) :
  _config_level !! level = Some level_config ->
  update_cell_of (kw ∪ level_config) = Some update_cell ->
  device_target ctx = "CPU" ->
  enable_ge ctx = false ->
  (exists e, DPModel.amp_build_train_network ctx self network optimizer
               loss_fn level kw = inl e) /\
  (DPModel.check_level level = inr tt ->
   _check_kwargs kw = None ->
   is_Some ((kw ∪ level_config) !! "cast_model_type") ->
   is_Some ((kw ∪ level_config) !! "keep_batchnorm_fp32") ->
   DPModel.amp_build_train_network ctx self network optimizer loss_fn level kw
   = inl ValueError).
Proof.
  intros Hlc Huc Hcpu Hge.
  split; [by eapply cpu_guard_no_cell|].
  unfold update_cell_of in Huc.
  destruct ((kw ∪ level_config) !! "loss_scale_manager") as [[| | |m]|] eqn:Hm;
    try discriminate.
  assert (Hguard : negb (enable_ge ctx) && String.eqb (device_target ctx) "CPU"
                   = true).
  { by rewrite Hge, Hcpu. }
  unfold DPModel.amp_build_train_network, DPModel.attr.
  intros -> -> [cast Hcast] [keep Hkeep]. simpl.
  rewrite Hlc. simpl. rewrite Hcast. simpl.
  destruct (DPModel.is_float16 cast); simpl.
  - rewrite Hkeep. simpl.
    destruct loss_fn; simpl; rewrite ?Hcast; simpl; rewrite Hm; simpl;
      by rewrite Huc, Hguard.
  - destruct loss_fn; simpl; rewrite ?Hcast; simpl; rewrite Hm; simpl;
      by rewrite Huc, Hguard.
Qed.

(** Level O2 on CPU: the table's manager provides an update cell, and the
    builder raises ValueError. *)
Lemma C9_witness :
  DPModel.amp_build_train_network (F:=Toy.framework)
    (Toy.ctx "CPU" STAND_ALONE) (Toy.model "O2") Toy.LeNet 1%Z (Some tt) "O2"
    (DPModel.build_kwargs (Toy.model "O2"))
  = inl ValueError.
Proof.
  apply (proj2 (C9_cpu_update_cell_raises (F:=Toy.framework)
                  (Toy.ctx "CPU" STAND_ALONE) (Toy.model "O2") Toy.LeNet 1%Z
                  (Some tt) "O2" (DPModel.build_kwargs (Toy.model "O2"))
                  Toy.O2_config tt
                  ltac:(vm_compute; reflexivity) ltac:(vm_compute; reflexivity)
                  eq_refl eq_refl)).
  - reflexivity.
  - vm_compute. reflexivity.
  - vm_compute. by eexists.
  - vm_compute. by eexists.
Defined.

(** ** C4: which train network [DPModel] builds *)

Section Routing.
Context {F : Framework}.

(** The training cell [amp_build_train_network] returns, when it returns. *)
Lemma amp_build_cases ctx self network opt loss_fn level kw lc n :
  _config_level !! level = Some lc ->
  DPModel.amp_build_train_network ctx self network opt loss_fn level kw = inr n ->
  exists network',
    (update_cell_of (kw ∪ lc) = None /\
     exists loss_scale cell,
       TOS.__init__ ctx network' opt loss_scale (DPModel._micro_batches self)
         (DPModel._norm_clip self) (DPModel._dp_mech self) = inr cell /\
       n = DPModel.NetOneStep (TOS.set_train cell)) \/
    (exists u cell,
       update_cell_of (kw ∪ lc) = Some u /\
       negb (enable_ge ctx) && String.eqb (device_target ctx) "CPU" = false /\
       LSC.__init__ ctx network' opt (Some u) (DPModel._micro_batches self)
         (DPModel._norm_clip self) (DPModel._dp_mech self) = inr cell /\
       n = DPModel.NetLossScale (LSC.set_train cell)).
Proof.
  intros Hlc Hrun.
  unfold DPModel.amp_build_train_network, DPModel.attr in Hrun.
  destruct (DPModel.check_level level); simpl in Hrun; [done|].
  destruct (_check_kwargs kw); simpl in Hrun; [done|].
  rewrite Hlc in Hrun. simpl in Hrun.
  unfold update_cell_of.
  destruct ((kw ∪ lc) !! "cast_model_type") as [cast|]; simpl in Hrun; [|done].
  destruct ((kw ∪ lc) !! "loss_scale_manager") as [manager|] eqn:Hm.
  - assert (Hgen : forall net0,
      match manager with
      | PyNone =>
          try* cell := TOS.__init__ ctx net0 opt 1%float
                         (DPModel._micro_batches self) (DPModel._norm_clip self)
                         (DPModel._dp_mech self) in
          inr (DPModel.NetOneStep (TOS.set_train cell))
      | PyManager m =>
          match get_update_cell m with
          | Some update_cell =>
              if negb (enable_ge ctx) && String.eqb (device_target ctx) "CPU"
              then inl ValueError
              else
                try* cell := LSC.__init__ ctx net0 opt (Some update_cell)
                               (DPModel._micro_batches self)
                               (DPModel._norm_clip self) (DPModel._dp_mech self) in
                inr (DPModel.NetLossScale (LSC.set_train cell))
          | None =>
              try* cell := TOS.__init__ ctx net0 opt (get_loss_scale m)
                             (DPModel._micro_batches self)
                             (DPModel._norm_clip self) (DPModel._dp_mech self) in
              inr (DPModel.NetOneStep (TOS.set_train cell))
          end
      | _ => inl AttributeError
      end = inr n ->
      (match manager with PyManager m => get_update_cell m | _ => None end = None /\
       exists loss_scale cell,
         TOS.__init__ ctx net0 opt loss_scale (DPModel._micro_batches self)
           (DPModel._norm_clip self) (DPModel._dp_mech self) = inr cell /\
         n = DPModel.NetOneStep (TOS.set_train cell)) \/
      (exists u cell,
         match manager with PyManager m => get_update_cell m | _ => None end
         = Some u /\
         negb (enable_ge ctx) && String.eqb (device_target ctx) "CPU" = false /\
         LSC.__init__ ctx net0 opt (Some u) (DPModel._micro_batches self)
           (DPModel._norm_clip self) (DPModel._dp_mech self) = inr cell /\
         n = DPModel.NetLossScale (LSC.set_train cell))).
    { intros net0 H. destruct manager as [| | |m]; try done.
      - left. split; [done|].
        destruct (TOS.__init__ _ _ _ _ _ _ _) as [e|cell] eqn:Hc; [done|].
        simpl in H. injection H as <-. by eexists _, _.
      - destruct (get_update_cell m) as [uc|].
        + right. destruct (negb _ && _) eqn:Hg; [done|].
          destruct (LSC.__init__ _ _ _ _ _ _ _) as [e|cell] eqn:Hc; [done|].
          simpl in H. injection H as <-. by eexists _, _.
        + left. split; [done|].
          destruct (TOS.__init__ _ _ _ _ _ _ _) as [e|cell] eqn:Hc; [done|].
          simpl in H. injection H as <-. by eexists _, _. }
    destruct (DPModel.is_float16 cast); simpl in Hrun.
    + destruct ((kw ∪ lc) !! "keep_batchnorm_fp32"); simpl in Hrun; [|done].
      destruct loss_fn; simpl in Hrun; eexists; apply Hgen; exact Hrun.
    + destruct loss_fn; simpl in Hrun; eexists; apply Hgen; exact Hrun.
  - destruct (DPModel.is_float16 cast); simpl in Hrun.
    + destruct ((kw ∪ lc) !! "keep_batchnorm_fp32"); simpl in Hrun; [|done].
      destruct loss_fn; simpl in Hrun; done.
    + destruct loss_fn; simpl in Hrun; done.
Qed.

(** It does return a cell when the checks pass, the cell can be built and
    the CPU guard does not apply. *)
Lemma amp_build_returns ctx self network opt loss_fn level kw lc split :
  DPModel.check_level level = inr tt ->
  _check_kwargs kw = None ->
  _config_level !! level = Some lc ->
  is_Some ((kw ∪ lc) !! "cast_model_type") ->
  is_Some ((kw ∪ lc) !! "keep_batchnorm_fp32") ->
  ((kw ∪ lc) !! "loss_scale_manager" = Some PyNone \/
   exists m, (kw ∪ lc) !! "loss_scale_manager" = Some (PyManager m)) ->
  P_Split 0 (DPModel._micro_batches self) = inr split ->
  (update_cell_of (kw ∪ lc) = None \/
   negb (enable_ge ctx) && String.eqb (device_target ctx) "CPU" = false) ->
  exists n,
    DPModel.amp_build_train_network ctx self network opt loss_fn level kw = inr n.
Proof.
  intros Hlv Hkw Hlc [cast Hcast] [keep Hkeep] Hm Hsplit Hguard.
  unfold DPModel.amp_build_train_network, DPModel.attr.
  rewrite Hlv, Hkw. simpl. rewrite Hlc. simpl. rewrite Hcast. simpl.
  unfold update_cell_of in Hguard.
  assert (Hgen : forall net0, exists n,
    (try* manager := match (kw ∪ lc) !! "loss_scale_manager" with
                     | Some v => inr v
                     | None => inl AttributeError
                     end in
     match manager with
     | PyNone =>
         try* cell := TOS.__init__ ctx net0 opt 1%float
                        (DPModel._micro_batches self) (DPModel._norm_clip self)
                        (DPModel._dp_mech self) in
         inr (DPModel.NetOneStep (TOS.set_train cell))
     | PyManager m =>
         match get_update_cell m with
         | Some update_cell =>
             if negb (enable_ge ctx) && String.eqb (device_target ctx) "CPU"
             then inl ValueError
             else
               try* cell := LSC.__init__ ctx net0 opt (Some update_cell)
                              (DPModel._micro_batches self)
                              (DPModel._norm_clip self) (DPModel._dp_mech self) in
               inr (DPModel.NetLossScale (LSC.set_train cell))
         | None =>
             try* cell := TOS.__init__ ctx net0 opt (get_loss_scale m)
                            (DPModel._micro_batches self)
                            (DPModel._norm_clip self) (DPModel._dp_mech self) in
             inr (DPModel.NetOneStep (TOS.set_train cell))
         end
     | _ => inl AttributeError
     end) = inr n).
  { intros net0. unfold TOS.__init__, LSC.__init__. rewrite Hsplit.
    destruct Hm as [Hm|[m Hm]]; rewrite Hm in *; simpl; [by eexists|].
    destruct (get_update_cell m) as [uc|]; [|by eexists].
    destruct Hguard as [Hg|Hg]; [done|]. rewrite Hg. by eexists. }
  destruct (DPModel.is_float16 cast); simpl.
  - rewrite Hkeep. simpl. destruct loss_fn; simpl; rewrite ?Hcast; simpl;
      apply Hgen.
  - destruct loss_fn; simpl; rewrite ?Hcast; simpl; apply Hgen.
Qed.

End Routing.

(** C4, as the code has it.  With a truthy [_micro_batches] and an
    optimizer, [_build_train_network] returns what [amp_build_train_network]
    returns.  That builder, whenever it returns, returns a
    [_TrainOneStepWithLossScaleCell] (built around the update cell) exactly
    when the loss-scale manager of the config provides an update cell, and a
    [_TrainOneStepCell] otherwise, both built with the model's micro batches,
    norm clip and mechanism; it returns whenever its checks pass, the cell
    can be built and the CPU guard does not apply, and it returns nothing
    when an update cell is provided on CPU with [enable_ge] off.  With a
    falsy [_micro_batches] and an optimizer the result is the framework's
    [amp.build_train_network], and with a falsy [_micro_batches] the result
    is never one of the two DP cells. *)
Theorem C4_build_train_network_routing {F : Framework}
    (ctx : Context) (self : DPModel.t) :
  (forall opt,
      DPModel.int_truthy (DPModel._micro_batches self) = true ->
      DPModel._optimizer self = Some opt ->
      DPModel._build_train_network ctx self =
      try* n := DPModel.amp_build_train_network ctx self
                  (DPModel._network self) opt (DPModel._loss_fn self)
                  (DPModel._amp_level self) (DPModel.build_kwargs self) in
      inr (n, mode_in (DPModel._parallel_mode self)
                      [SEMI_AUTO_PARALLEL; AUTO_PARALLEL])) /\
  (forall network opt loss_fn level kw lc n,
      _config_level !! level = Some lc ->
      DPModel.amp_build_train_network ctx self network opt loss_fn level kw
      = inr n ->
      exists network',
        (update_cell_of (kw ∪ lc) = None /\
         exists loss_scale cell,
           TOS.__init__ ctx network' opt loss_scale (DPModel._micro_batches self)
             (DPModel._norm_clip self) (DPModel._dp_mech self) = inr cell /\
           n = DPModel.NetOneStep (TOS.set_train cell)) \/
        (exists u cell,
           update_cell_of (kw ∪ lc) = Some u /\
           negb (enable_ge ctx) && String.eqb (device_target ctx) "CPU" = false /\
           LSC.__init__ ctx network' opt (Some u) (DPModel._micro_batches self)
             (DPModel._norm_clip self) (DPModel._dp_mech self) = inr cell /\
           n = DPModel.NetLossScale (LSC.set_train cell))) /\
  (forall network opt loss_fn level kw lc split,
      DPModel.check_level level = inr tt ->
      _check_kwargs kw = None ->
      _config_level !! level = Some lc ->
      is_Some ((kw ∪ lc) !! "cast_model_type") ->
      is_Some ((kw ∪ lc) !! "keep_batchnorm_fp32") ->
      ((kw ∪ lc) !! "loss_scale_manager" = Some PyNone \/
       exists m, (kw ∪ lc) !! "loss_scale_manager" = Some (PyManager m)) ->
      P_Split 0 (DPModel._micro_batches self) = inr split ->
      (update_cell_of (kw ∪ lc) = None \/
       negb (enable_ge ctx) && String.eqb (device_target ctx) "CPU" = false) ->
      exists n,
        DPModel.amp_build_train_network ctx self network opt loss_fn level kw
        = inr n) /\
  (forall network opt loss_fn level kw lc u,
      _config_level !! level = Some lc ->
      update_cell_of (kw ∪ lc) = Some u ->
      device_target ctx = "CPU" ->
      enable_ge ctx = false ->
      exists e,
        DPModel.amp_build_train_network ctx self network opt loss_fn level kw
        = inl e) /\
  (forall opt,
      DPModel.int_truthy (DPModel._micro_batches self) = false ->
      DPModel._optimizer self = Some opt ->
      DPModel._build_train_network ctx self =
      try* c := amp_build_train_network_fw (DPModel._network self) opt
                  (DPModel._loss_fn self) (DPModel._amp_level self)
                  (DPModel.build_kwargs self) in
      inr (DPModel.NetCell c,
           mode_in (DPModel._parallel_mode self)
                   [SEMI_AUTO_PARALLEL; AUTO_PARALLEL])) /\
  (forall n flag,
      DPModel.int_truthy (DPModel._micro_batches self) = false ->
      DPModel._build_train_network ctx self = inr (n, flag) ->
      exists c, n = DPModel.NetCell c).
Proof.
  split; [|split; [|split; [|split; [|split]]]].
  - intros opt Hmb Hopt. unfold DPModel._build_train_network.
    rewrite Hmb, Hopt. unfold ebind.
    by destruct (DPModel.amp_build_train_network _ _ _ _ _ _ _).
  - intros. by eapply amp_build_cases.
  - intros. by eapply amp_build_returns.
  - intros network opt loss_fn level kw lc u Hlc Hu Hcpu Hge.
    by eapply cpu_guard_no_cell.
  - intros opt Hmb Hopt. unfold DPModel._build_train_network.
    rewrite Hmb, Hopt. unfold ebind.
    by destruct (amp_build_train_network_fw _ _ _ _ _).
  - intros n flag Hmb. unfold DPModel._build_train_network. rewrite Hmb.
    destruct (DPModel._optimizer self) as [opt|].
    + unfold ebind.
      destruct (amp_build_train_network_fw _ _ _ _ _) as [e|c]; [done|].
      intros [= <- _]. by eexists.
    + destruct (DPModel._loss_fn self); simpl; intros [= <- _]; by eexists.
Qed.

(** Level O2 on GPU: the builder returns, and what it returns is the
    loss-scale cell. *)
Lemma C4_witness :
  exists n c,
    DPModel.amp_build_train_network (F:=Toy.framework)
      (Toy.ctx "GPU" STAND_ALONE) (Toy.model "O2") Toy.LeNet 1%Z (Some tt) "O2"
      (DPModel.build_kwargs (Toy.model "O2")) = inr n /\
    n = DPModel.NetLossScale c.
Proof.
  pose proof (C4_build_train_network_routing (F:=Toy.framework)
                (Toy.ctx "GPU" STAND_ALONE) (Toy.model "O2"))
    as (_ & Hcases & Hreturns & _).
  edestruct (Hreturns Toy.LeNet 1%Z (Some tt) "O2"%string
               (DPModel.build_kwargs (Toy.model "O2")) Toy.O2_config)
    as [n Hn].
  - reflexivity.
  - vm_compute. reflexivity.
  - vm_compute. reflexivity.
  - vm_compute. by eexists.
  - vm_compute. by eexists.
  - right. exists true. vm_compute. reflexivity.
  - reflexivity.
  - right. reflexivity.
  - destruct (Hcases Toy.LeNet 1%Z (Some tt) "O2"%string
                (DPModel.build_kwargs (Toy.model "O2")) Toy.O2_config n)
      as [network' [[Hnone _]|(u & cell & _ & _ & _ & Hcell)]].
    + vm_compute. reflexivity.
    + exact Hn.
    + vm_compute in Hnone. discriminate Hnone.
    + exists n, (LSC.set_train cell). split; [exact Hn | exact Hcell].
Defined.

(** Level O2 on CPU with [enable_ge] off: micro batches are set, an
    optimizer is given and the manager provides an update cell, yet no
    [_TrainOneStepWithLossScaleCell] is returned: the call raises. *)
Lemma C4_counterexample :
  DPModel.int_truthy (DPModel._micro_batches (Toy.model "O2")) = true /\
  DPModel._optimizer (Toy.model "O2") = Some 1%Z /\
  update_cell_of (F:=Toy.framework)
    (DPModel.build_kwargs (Toy.model "O2") ∪ Toy.O2_config) = Some tt /\
  match DPModel._build_train_network (Toy.ctx "CPU" STAND_ALONE) (Toy.model "O2")
  with
  | inl e => Some e
  | inr _ => None
  end = Some ValueError.
Proof.
  split; [reflexivity|]. split; [reflexivity|].
  split; vm_compute; reflexivity.
Qed.

(** * Further properties of the code *)

(** ** [_ClipGradients.construct] on every clip type *)

Section ClipMore.
Context {F : Framework}.

(** What one tensor becomes under clip type [clip_type] (0 or 1). *)
Definition clip_one (clip_type : Z) (c : float) (grad : Tensor) : Tensor :=
  if (clip_type =? 0)%Z
  then clip_by_value grad (tuple_to_array [PrimFloat.opp c]) (tuple_to_array [c])
  else ClipByNorm grad (tuple_to_array [c]).

Lemma _ClipGradients_loop_float grads clip_type c acc :
  _ClipGradients_loop grads clip_type (Some c) acc
  = inr (acc ++ map (clip_one clip_type c) grads).
Proof.
  revert acc. induction grads as [|g grads IH]; intros acc; simpl.
  - by rewrite app_nil_r.
  - rewrite IH. by rewrite <- app_assoc.
Qed.

Lemma _ClipGradients_loop_None grads clip_type acc :
  _ClipGradients_loop grads clip_type None acc
  = match grads with
    | [] => inr acc
    | _ :: _ => inl TypeError
    end.
Proof. by destruct grads. Qed.

End ClipMore.

(** X1.  With a float bound [c], [_ClipGradients] returns, and what it
    returns is decided by the clip type alone: type 0 clips every tensor by
    value between [-c] and [c], type 1 clips every tensor by norm [c], and
    any other type hands the tuple back untouched. *)
Theorem X1_clip_gradients_by_type {F : Framework}
    (grads : list Tensor) (clip_type : Z) (c : float) :
  _ClipGradients grads clip_type (Some c) =
  inr (if (clip_type =? 0)%Z
       then map (fun g => clip_by_value g (tuple_to_array [PrimFloat.opp c])
                                          (tuple_to_array [c])) grads
       else if (clip_type =? 1)%Z
       then map (fun g => ClipByNorm g (tuple_to_array [c])) grads
       else grads).
Proof.
  unfold _ClipGradients.
  destruct (clip_type =? 0)%Z eqn:H0; simpl.
  - rewrite _ClipGradients_loop_float. simpl. f_equal.
    apply map_ext. intros g. unfold clip_one. by rewrite H0.
  - destruct (clip_type =? 1)%Z eqn:H1; simpl; [|done].
    rewrite _ClipGradients_loop_float. simpl. f_equal.
    apply map_ext. intros g. unfold clip_one. by rewrite H0.
Qed.

(** X2.  Without a bound ([clip_value] is [None], the default of
    [l2_norm_clip]) [_ClipGradients] raises TypeError exactly when the clip
    type is 0 or 1 and the tuple is not empty; in every other case it
    returns the tuple as it is. *)
Theorem X2_clip_gradients_without_bound {F : Framework}
    (grads : list Tensor) (clip_type : Z) :
  _ClipGradients grads clip_type None =
  if ((clip_type =? 0)%Z || (clip_type =? 1)%Z)
     && negb (Nat.eqb (length grads) 0)
  then inl TypeError
  else inr grads.
Proof.
  unfold _ClipGradients.
  destruct ((clip_type =? 0)%Z || (clip_type =? 1)%Z); simpl; [|done].
  rewrite _ClipGradients_loop_None. by destruct grads.
Qed.

(** X3.  Whatever the clip type and the bound, a tuple that
    [_ClipGradients] returns has as many tensors as the tuple it was given. *)
Theorem X3_clip_gradients_keeps_length {F : Framework}
    (grads out : list Tensor) (clip_type : Z) (clip_value : option float) :
  _ClipGradients grads clip_type clip_value = inr out ->
  length out = length grads.
Proof.
  unfold _ClipGradients.
  destruct (negb _); [by intros [= <-]|].
  destruct clip_value as [c|].
  - rewrite _ClipGradients_loop_float. simpl. intros [= <-].
    by rewrite length_map.
  - rewrite _ClipGradients_loop_None. destruct grads; [by intros [= <-]|done].
Qed.

(** Clipping three tensors by value in the toy framework gives three
    tensors. *)
Lemma X3_witness :
  length ([[3; 1]; [9; 0]; [7; 2]]%Z : list Toy.vec) = 3 /\
  exists out,
    _ClipGradients (F:=Toy.framework) [[3; 1]; [9; 0]; [7; 2]]%Z 0%Z
                   (Some 5%float) = inr out /\
    length out = 3.
Proof.
  split; [reflexivity|].
  exists [[3; 1]; [5; 0]; [5; 2]]%Z.
  split; [vm_compute; reflexivity|].
  apply (X3_clip_gradients_keeps_length (F:=Toy.framework)
           [[3; 1]; [9; 0]; [7; 2]]%Z _ 0%Z (Some 5%float)).
  vm_compute. reflexivity.
Defined.


(** ** Steps that cannot run *)

Section Raises.
Context {F : Framework}.

Lemma bind_raise {St A B} (m : M (St:=St) A) (k : A -> M B) s e :
  m s = inl e -> bind m k s = inl e.
Proof. intros H. unfold bind. by rewrite H. Qed.

Lemma clip_None_raises (grads : list Tensor) :
  grads <> [] ->
  _ClipGradients grads GRADIENT_CLIP_TYPE None = inl TypeError.
Proof. by destruct grads. Qed.

Lemma GradOperation_nonempty net ws pv d l sens :
  ws <> [] -> GradOperation net ws pv d l sens <> [].
Proof.
  intros Hws Hg. apply (f_equal length) in Hg.
  rewrite GradOperation_arity in Hg. by destruct ws.
Qed.

Lemma tos_record_grad_no_bound self d l s :
  TOS._l2_norm self = None ->
  TOS.weights self <> [] ->
  TOS.record_grad_of self d l s = inl TypeError.
Proof.
  intros Hc Hw. unfold TOS.record_grad_of.
  erewrite bind_run by reflexivity.
  erewrite bind_run by reflexivity.
  unfold call_clip. erewrite bind_run by reflexivity.
  unfold lift. rewrite Hc, clip_None_raises; [done|].
  by apply GradOperation_nonempty.
Qed.

Lemma lsc_record_grad_no_bound self sens sv d l s :
  LSC._l2_norm self = None ->
  LSC.weights self <> [] ->
  scaling_value sens s = Some sv ->
  LSC.record_grad_of self (scaling_of sens) d l s = inl TypeError.
Proof.
  intros Hc Hw Hsv. unfold LSC.record_grad_of.
  erewrite bind_run by reflexivity.
  erewrite bind_run
    by (apply read_scaling_run; destruct sens; simpl in *; exact Hsv).
  erewrite bind_run by reflexivity.
  unfold call_clip. erewrite bind_run by reflexivity.
  unfold lift. rewrite Hc, clip_None_raises; [done|].
  by apply GradOperation_nonempty.
Qed.

Lemma lsc_record_grad_no_scale self d l s :
  loss_scale s = None ->
  LSC.record_grad_of self LSC.self_loss_scale d l s = inl TypeError.
Proof.
  intros Hls. unfold LSC.record_grad_of.
  erewrite bind_run by reflexivity.
  apply bind_raise. unfold LSC.read_scaling, LSC.read_loss_scale, bind, get.
  simpl. by rewrite Hls.
Qed.

(** The first microbatch of a cell built by [__init__] exists. *)
Lemma first_microbatch (split : Tensor -> exn + list Tensor) m x xs :
  (0 < m)%Z ->
  (forall x xs, split x = inr xs -> length xs = Z.to_nat m) ->
  split x = inr xs ->
  exists x0 xs', xs = x0 :: xs'.
Proof.
  intros Hm Har Hx. pose proof (Har _ _ Hx) as Hlen.
  destruct xs as [|x0 xs']; simpl in Hlen; [lia|]. by eexists _, _.
Qed.

End Raises.

(** X4.  The default clipping bound cannot be used.  A cell of either kind
    built by [__init__] with [l2_norm_clip = None] raises TypeError on every
    batch that splits, as soon as there is at least one weight to
    differentiate (in the loss-scale cell: given a loss scale to read). *)
Theorem X4_no_clipping_bound_raises {F : Framework} :
  (forall ctx net opt sens mb mech self data label ds ls s,
      TOS.__init__ ctx net opt sens mb None mech = inr self ->
      opt_parameters opt <> [] ->
      TOS._split self data = inr ds ->
      TOS._split self label = inr ls ->
      TOS.construct self data label s = inl TypeError) /\
  (forall ctx net opt uc mb mech self data label sens sv ds ls s,
      LSC.__init__ ctx net opt uc mb None mech = inr self ->
      trainable_params net <> [] ->
      LSC._split self data = inr ds ->
      LSC._split self label = inr ls ->
      scaling_value sens s = Some sv ->
      LSC.construct self data label sens s = inl TypeError).
Proof.
  split.
  - intros ctx net opt sens mb mech self data label ds ls s Hinit Hw Hd Hl.
    destruct (tos_init_inv _ _ _ _ _ _ _ _ Hinit)
      as (m & _ & Hpos & Har & _ & Hws & _ & _ & Hc & _).
    destruct (first_microbatch _ _ _ _ Hpos Har Hd) as (d0 & ds' & ->).
    destruct (first_microbatch _ _ _ _ Hpos Har Hl) as (l0 & ls' & ->).
    unfold TOS.construct. cbv zeta.
    erewrite bind_run by (apply lift_run; exact Hd).
    erewrite bind_run by (apply lift_run; exact Hl).
    erewrite bind_run by (by apply lift_run).
    erewrite bind_run by (by apply lift_run).
    apply bind_raise. apply tos_record_grad_no_bound; [done|].
    by rewrite Hws.
  - intros ctx net opt uc mb mech self data label sens sv ds ls s
      Hinit Hw Hd Hl Hsv.
    destruct (lsc_init_inv _ _ _ _ _ _ _ _ Hinit)
      as (m & _ & Hpos & Har & Hnet & _ & _ & Hc & _).
    assert (Hws : LSC.weights self = trainable_params net).
    { unfold LSC.__init__ in Hinit. destruct (P_Split 0 mb); [done|].
      by injection Hinit as <-. }
    destruct (first_microbatch _ _ _ _ Hpos Har Hd) as (d0 & ds' & ->).
    destruct (first_microbatch _ _ _ _ Hpos Har Hl) as (l0 & ls' & ->).
    unfold LSC.construct. cbv zeta.
    erewrite bind_run by apply lsc_init_run.
    erewrite bind_run by (apply lift_run; exact Hd).
    erewrite bind_run by (apply lift_run; exact Hl).
    erewrite bind_run by (by apply lift_run).
    erewrite bind_run by (by apply lift_run).
    apply bind_raise.
    change (match sens with
            | Some v => LSC.sens_arg v
            | None => LSC.self_loss_scale
            end) with (scaling_of sens).
    apply (lsc_record_grad_no_bound self sens sv); [done| |by destruct sens].
    by rewrite Hws.
Qed.

(** The one-step cell of the toy framework, built without a bound. *)
Lemma X4_witness :
  exists self,
    TOS.__init__ (F:=Toy.framework) (Toy.ctx "Ascend" STAND_ALONE)
      Toy.LeNet 1%Z 1%float (Some 2%Z) None None = inr self /\
    TOS.construct self Toy.data Toy.label Toy.store0 = inl TypeError.
Proof.
  eexists. split; [reflexivity|].
  eapply (proj1 (X4_no_clipping_bound_raises (F:=Toy.framework))
            (Toy.ctx "Ascend" STAND_ALONE) Toy.LeNet 1%Z 1%float (Some 2%Z)
            None _ Toy.data Toy.label
            [[1; 2]; [3; 4]]%Z [[1; 0]; [0; 1]]%Z Toy.store0).
  - reflexivity.
  - discriminate.
  - reflexivity.
  - reflexivity.
Defined.

(** X5.  A loss-scale cell needs a loss scale from somewhere.  Called
    without [sens] while there is no [loss_scale] Parameter (as for a cell
    built with [scale_update_cell = None]), a step raises TypeError on every
    batch that splits. *)
Theorem X5_no_loss_scale_raises {F : Framework}
    (ctx : Context) (net : Cell) (opt : Optimizer) (uc : option UpdateCell)
    (mb : option Z) (l2 : option float) (mech : option Mechanisms)
    (self : LSC.t) (data label : Tensor) (ds ls : list Tensor) (s : Store) :
  LSC.__init__ ctx net opt uc mb l2 mech = inr self ->
  LSC._split self data = inr ds ->
  LSC._split self label = inr ls ->
  loss_scale s = None ->
  LSC.construct self data label None s = inl TypeError.
Proof.
  intros Hinit Hd Hl Hls.
  destruct (lsc_init_inv _ _ _ _ _ _ _ _ Hinit)
    as (m & _ & Hpos & Har & _).
  destruct (first_microbatch _ _ _ _ Hpos Har Hd) as (d0 & ds' & ->).
  destruct (first_microbatch _ _ _ _ Hpos Har Hl) as (l0 & ls' & ->).
  unfold LSC.construct. cbv zeta.
  erewrite bind_run by apply lsc_init_run.
  erewrite bind_run by (apply lift_run; exact Hd).
  erewrite bind_run by (apply lift_run; exact Hl).
  erewrite bind_run by (by apply lift_run).
  erewrite bind_run by (by apply lift_run).
  apply bind_raise. apply lsc_record_grad_no_scale.
  destruct (LSC.gpu_target self); exact Hls.
Qed.

(** A cell built without an update cell, in a store without loss scale. *)
Lemma X5_witness :
  exists self,
    LSC.__init__ (F:=Toy.framework) (Toy.ctx "GPU" STAND_ALONE)
      Toy.LeNet 1%Z None (Some 2%Z) (Some 5%float) None = inr self /\
    LSC.construct self Toy.data Toy.label None
      (Build_Store (F:=Toy.framework) [1; 2]%Z None 0%Z []) = inl TypeError.
Proof.
  eexists. split; [reflexivity|].
  eapply (X5_no_loss_scale_raises (F:=Toy.framework)
            (Toy.ctx "GPU" STAND_ALONE) Toy.LeNet 1%Z None (Some 2%Z)
            (Some 5%float) None _ Toy.data Toy.label
            [[1; 2]; [3; 4]]%Z [[1; 0]; [0; 1]]%Z).
  - reflexivity.
  - reflexivity.
  - reflexivity.
  - reflexivity.
Defined.

(** ** What a step does to the store *)

(** The arguments of the calls of the loss-scale update cell. *)
Definition update_args {F : Framework} (cs : list (call Tensor))
  : list (Tensor * Tensor) :=
  omap (fun c => match c with
                 | CallLossScaleManager ls cond => Some (ls, cond)
                 | _ => None
                 end) cs.

Section StoreEffects.
Context {F : Framework}.

Lemma optimizer_args_micro {A B} (h : A -> B -> list (call Tensor)) ds ls :
  (forall d l, optimizer_args (h d l) = []) ->
  optimizer_args (concat (zip_with h ds ls)) = [].
Proof.
  intros Hh. unfold optimizer_args. rewrite omap_concat_zip_with.
  revert ls. induction ds as [|d ds IH]; intros [|l ls]; simpl; try done.
  unfold optimizer_args in Hh. by rewrite Hh, IH.
Qed.

Lemma update_args_micro {A B} (h : A -> B -> list (call Tensor)) ds ls :
  (forall d l, update_args (h d l) = []) ->
  update_args (concat (zip_with h ds ls)) = [].
Proof.
  intros Hh. unfold update_args. rewrite omap_concat_zip_with.
  revert ls. induction ds as [|d ds IH]; intros [|l ls]; simpl; try done.
  unfold update_args in Hh. by rewrite Hh, IH.
Qed.

Lemma optimizer_args_app (cs1 cs2 : list (call Tensor)) :
  optimizer_args (cs1 ++ cs2) = optimizer_args cs1 ++ optimizer_args cs2.
Proof. apply omap_app. Qed.

Lemma update_args_app (cs1 cs2 : list (call Tensor)) :
  update_args (cs1 ++ cs2) = update_args cs1 ++ update_args cs2.
Proof. apply omap_app. Qed.

(** The calls of a loss-scale step before the update cell is consulted. *)
Definition lsc_calls_before_update (self : LSC.t) (c : float)
    (sens : option Tensor) (sv : Tensor) (s : Store) (data label : Tensor)
    (ds ls : list Tensor) : list (call Tensor) :=
  let r := lsc_run self c sens sv s data label ds ls in
  lsc_calls1 self sv (params s) data label ds ls (st_scaled r)
  ++ lsc_calls2 self (st_flag_sum r).

Lemma lsc_calls_split self c sens sv s data label ds ls :
  let r := lsc_run self c sens sv s data label ds ls in
  st_calls r =
  lsc_calls_before_update self c sens sv s data label ds ls
  ++ lsc_update_calls self sens sv (st_cond r)
  ++ lsc_optimizer_calls (st_overflow r) (st_grads r).
Proof.
  unfold lsc_calls_before_update, lsc_run. simpl. by rewrite <- app_assoc.
Qed.

Lemma lsc_before_update_quiet self c sens sv s data label ds ls :
  optimizer_args (lsc_calls_before_update self c sens sv s data label ds ls) = []
  /\ update_args (lsc_calls_before_update self c sens sv s data label ds ls) = [].
Proof.
  unfold lsc_calls_before_update, lsc_calls1, lsc_calls2.
  rewrite !optimizer_args_app, !update_args_app.
  rewrite optimizer_args_micro, update_args_micro by done.
  destruct (LSC.gpu_target self), (LSC.grad_reducer self),
    (LSC.is_distributed self); done.
Qed.

Lemma lsc_store_eq self c sens sv s data label ds ls :
  st_store (lsc_run self c sens sv s data label ds ls) =
  let r := lsc_run self c sens sv s data label ds ls in
  let after := lsc_after_update self sens sv s (st_cond r) in
  let updated := run_optimizer (LSC.optimizer self) (params s) (snd after)
                   (st_grads r) in
  {| params := if tensor_bool (st_overflow r) then params s else fst updated;
     loss_scale := fst after;
     aux := if tensor_bool (st_overflow r) then snd after else snd updated;
     calls := calls s ++ st_calls r |}.
Proof. reflexivity. Qed.

End StoreEffects.

(** X6.  A step of the one-step cell touches the store through the
    optimizer alone.  The optimizer call is the last call of the step and the
    only optimizer call; it runs on the parameters and the auxiliary state
    the step started with, so every forward pass and every gradient of the
    step saw the parameters from before the step; and the [loss_scale]
    Parameter is left as it was. *)
Theorem X6_one_step_store_effect {F : Framework}
    (ctx : Context) (net : Cell) (opt : Optimizer) (sens : float)
    (mb : option Z) (c : float) (mech : option Mechanisms)
    (self : TOS.t) (data label : Tensor) (ds ls : list Tensor) (s : Store) :
  TOS.__init__ ctx net opt sens mb (Some c) mech = inr self ->
  TOS._split self data = inr ds ->
  TOS._split self label = inr ls ->
  exists loss s' pre grads,
    TOS.construct self data label s = inr (loss, s') /\
    calls s' = calls s ++ pre ++ [CallOptimizer grads] /\
    optimizer_args pre = [] /\
    run_optimizer opt (params s) (aux s) grads = (params s', aux s') /\
    loss_scale s' = loss_scale s.
Proof.
  intros Hinit Hd Hl.
  destruct (tos_step _ _ _ _ _ _ _ _ _ _ _ _ s Hinit Hd Hl)
    as (_ & _ & _ & Hrun).
  destruct (tos_init_inv _ _ _ _ _ _ _ _ Hinit)
    as (m & _ & _ & _ & _ & _ & Hopt & _).
  set (acc := accumulated (zip_with (tos_clipped self c (params s)) ds ls)).
  exists (run_network net (params s) data label),
         (tos_step_store self c s data label ds ls),
         (concat (zip_with (tos_micro_calls self (params s)) ds ls)
          ++ [CallNetwork data label] ++ tos_reduce_calls self acc),
         (tos_reduce self acc).
  split; [exact Hrun|].
  unfold tos_step_store, tos_step_calls. fold acc. rewrite Hopt.
  destruct (run_optimizer opt (params s) (aux s) (tos_reduce self acc))
    as [pv a] eqn:Hupd. simpl.
  split; [by rewrite <- !app_assoc|].
  split; [|done].
  rewrite !optimizer_args_app, optimizer_args_micro by done.
  unfold tos_reduce_calls.
  destruct (TOS.reducer_flag self); [|done].
  by destruct (TOS.grad_reducer self) as [[|? ? ?]|].
Qed.

(** One step in the toy framework: the optimizer is called last, on the
    parameters [[1; 2]] and the step counter 0 the step started with, and the
    loss scale stays [[4]]. *)
Lemma X6_witness :
  exists self loss s' pre grads,
    TOS.__init__ (F:=Toy.framework) (Toy.ctx "Ascend" STAND_ALONE)
      Toy.LeNet 1%Z 1%float (Some 2%Z) (Some 5%float) None = inr self /\
    TOS.construct self Toy.data Toy.label Toy.store0 = inr (loss, s') /\
    calls s' = calls Toy.store0 ++ pre ++ [CallOptimizer grads] /\
    Toy.descend 1%Z [1; 2]%Z 0%Z grads = (params s', aux s') /\
    loss_scale s' = Some [4]%Z.
Proof.
  eexists.
  destruct (X6_one_step_store_effect (F:=Toy.framework)
              (Toy.ctx "Ascend" STAND_ALONE) Toy.LeNet 1%Z 1%float (Some 2%Z)
              5%float None _ Toy.data Toy.label
              [[1; 2]; [3; 4]]%Z [[1; 0]; [0; 1]]%Z Toy.store0
              eq_refl eq_refl eq_refl)
    as (loss & s' & pre & grads & Hrun & Hcalls & _ & Hupd & Hls).
  exists loss, s', pre, grads.
  split; [reflexivity|]. split; [exact Hrun|]. split; [exact Hcalls|].
  split; [exact Hupd | exact Hls].
Defined.

(** X7.  When [sens] is passed, the update cell is ignored, whether the cell
    has one or not: a step never calls it, hands back the [sens] it was
    given, and leaves the [loss_scale] Parameter alone.  If the condition
    signals overflow, the parameters and the auxiliary state are untouched as
    well: the step leaves nothing behind; otherwise they are what the
    optimizer makes of the state the step started with. *)
Theorem X7_sens_given_ignores_update_cell {F : Framework}
    (ctx : Context) (net : Cell) (opt : Optimizer) (uc : option UpdateCell)
    (mb : option Z) (c : float) (mech : option Mechanisms) (self : LSC.t)
    (data label v : Tensor) (ds ls : list Tensor) (s : Store) :
  LSC.__init__ ctx net opt uc mb (Some c) mech = inr self ->
  LSC._split self data = inr ds ->
  LSC._split self label = inr ls ->
  exists loss cond s' new,
    LSC.construct self data label (Some v) s
    = inr ((loss, cond, LSC.sens_arg v), s') /\
    calls s' = calls s ++ new /\
    update_args new = [] /\
    loss_scale s' = loss_scale s /\
    (tensor_bool cond = true -> params s' = params s /\ aux s' = aux s) /\
    (tensor_bool cond = false ->
     exists grads,
       optimizer_args new = [grads] /\
       run_optimizer opt (params s) (aux s) grads = (params s', aux s')).
Proof.
  intros Hinit Hd Hl.
  assert (Huc : Some v = None -> is_Some uc) by done.
  destruct (lsc_step_run ctx net opt uc mb c mech self data label (Some v) v
              ds ls s Hinit Hd Hl eq_refl Huc) as (_ & _ & _ & Hrun).
  destruct (lsc_init_inv _ _ _ _ _ _ _ _ Hinit)
    as (m & _ & _ & _ & _ & Hopt & _).
  set (r := lsc_run self c (Some v) v s data label ds ls) in *.
  exists (run_network net (params s) data label), (st_cond r), (st_store r),
         (st_calls r).
  split; [exact Hrun|]. split; [reflexivity|].
  assert (Hov : st_overflow r = st_cond r) by reflexivity.
  split.
  { unfold r. rewrite lsc_calls_split. fold r. rewrite !update_args_app.
    rewrite (proj2 (lsc_before_update_quiet _ _ _ _ _ _ _ _ _)).
    unfold lsc_update_calls, lsc_optimizer_calls.
    by destruct (tensor_bool _). }
  split; [reflexivity|].
  split.
  - intros Hc. unfold r. rewrite lsc_store_eq. fold r. cbv zeta.
    rewrite Hov, Hc. done.
  - intros Hc. exists (st_grads r). split.
    + unfold r. rewrite lsc_calls_optimizer. fold r. by rewrite Hov, Hc.
    + unfold r. rewrite lsc_store_eq. fold r. cbv zeta.
      rewrite Hov, Hc, Hopt. simpl.
      by destruct (run_optimizer opt (params s) (aux s) _).
Qed.

(** A cell that has an update cell, called with [sens]: the update cell is
    not called and the stored loss scale stays [[4]]. *)
Lemma X7_witness :
  exists self loss cond s' new,
    LSC.__init__ (F:=Toy.framework) (Toy.ctx "GPU" STAND_ALONE)
      Toy.LeNet 1%Z (Some tt) (Some 2%Z) (Some 5%float) None = inr self /\
    LSC.construct self Toy.data Toy.label (Some [2]%Z) Toy.store0
    = inr ((loss, cond, @LSC.sens_arg Toy.framework [2]%Z), s') /\
    calls s' = calls Toy.store0 ++ new /\
    update_args new = [] /\
    loss_scale s' = Some [4]%Z.
Proof.
  eexists.
  destruct (X7_sens_given_ignores_update_cell (F:=Toy.framework)
              (Toy.ctx "GPU" STAND_ALONE) Toy.LeNet 1%Z (Some tt) (Some 2%Z)
              5%float None _ Toy.data Toy.label [2]%Z
              [[1; 2]; [3; 4]]%Z [[1; 0]; [0; 1]]%Z Toy.store0
              eq_refl eq_refl eq_refl)
    as (loss & cond & s' & new & Hrun & Hcalls & Hupd & Hls & _).
  exists loss, cond, s', new.
  split; [reflexivity|]. split; [exact Hrun|]. split; [exact Hcalls|].
  split; [exact Hupd | exact Hls].
Defined.

(** X8.  Without [sens], the update cell decides.  A step of a cell built
    with an update cell, in a store holding the loss scale [sv], calls the
    update cell exactly once, on [sv] and the condition, after every
    gradient has been computed and before any optimizer call; the
    [loss_scale] Parameter then holds what the update cell assigned, and the
    third component of the result is that Parameter itself, not a copy of
    [sv].  The optimizer, if it runs, runs on the auxiliary state the update
    cell left. *)
Theorem X8_update_cell_runs_once {F : Framework}
    (ctx : Context) (net : Cell) (opt : Optimizer) (u : UpdateCell)
    (mb : option Z) (c : float) (mech : option Mechanisms) (self : LSC.t)
    (data label sv : Tensor) (ds ls : list Tensor) (s : Store) :
  LSC.__init__ ctx net opt (Some u) mb (Some c) mech = inr self ->
  LSC._split self data = inr ds ->
  LSC._split self label = inr ls ->
  loss_scale s = Some sv ->
  exists loss cond s' pre post,
    LSC.construct self data label None s
    = inr ((loss, cond, LSC.self_loss_scale), s') /\
    calls s' = calls s ++ pre ++ [CallLossScaleManager sv cond] ++ post /\
    optimizer_args pre = [] /\ update_args pre = [] /\ update_args post = [] /\
    let '(overflow, new_scale, a) := run_update_cell u (aux s) sv cond in
    loss_scale s' = Some new_scale /\
    (tensor_bool overflow = true ->
     post = [] /\ params s' = params s /\ aux s' = a) /\
    (tensor_bool overflow = false ->
     exists grads,
       post = [CallOptimizer grads] /\
       run_optimizer opt (params s) a grads = (params s', aux s')).
Proof.
  intros Hinit Hd Hl Hls.
  assert (Huc : @None Tensor = None -> is_Some (Some u)) by (by eexists).
  destruct (lsc_step_run ctx net opt (Some u) mb c mech self data label None sv
              ds ls s Hinit Hd Hl Hls Huc) as (_ & _ & _ & Hrun).
  destruct (lsc_init_inv _ _ _ _ _ _ _ _ Hinit)
    as (m & _ & _ & _ & _ & Hopt & _ & _ & Hman & _).
  set (r := lsc_run self c None sv s data label ds ls) in *.
  exists (run_network net (params s) data label), (st_cond r), (st_store r),
         (lsc_calls_before_update self c None sv s data label ds ls),
         (lsc_optimizer_calls (st_overflow r) (st_grads r)).
  split; [exact Hrun|].
  split.
  { change (calls (st_store r)) with (calls s ++ st_calls r).
    unfold r. rewrite lsc_calls_split. fold r.
    unfold lsc_update_calls. by rewrite Hman. }
  destruct (lsc_before_update_quiet self c None sv s data label ds ls)
    as [Hq1 Hq2].
  split; [exact Hq1|]. split; [exact Hq2|].
  split.
  { unfold lsc_optimizer_calls. by destruct (tensor_bool _). }
  assert (Hov : st_overflow r
                = fst (fst (run_update_cell u (aux s) sv (st_cond r)))).
  { unfold r, lsc_run, lsc_overflow. simpl. by rewrite Hman. }
  assert (Hafter : lsc_after_update self None sv s (st_cond r)
                   = (Some (snd (fst (run_update_cell u (aux s) sv (st_cond r)))),
                      snd (run_update_cell u (aux s) sv (st_cond r)))).
  { unfold lsc_after_update. by rewrite Hman. }
  unfold r. rewrite lsc_store_eq. fold r. cbv zeta.
  rewrite Hafter, Hov, Hopt.
  unfold lsc_optimizer_calls.
  destruct (run_update_cell u (aux s) sv (st_cond r)) as [[ov ns] a]. simpl.
  split; [done|]. split.
  - intros ->. done.
  - intros ->. eexists. split; [done|].
    by destruct (run_optimizer _ _ _ _).
Qed.

(** No overflow in the toy framework: the update cell is called once on the
    loss scale [[4]] and the optimizer runs after it. *)
Lemma X8_witness :
  exists self loss cond s' pre post,
    LSC.__init__ (F:=Toy.framework) (Toy.ctx "GPU" STAND_ALONE)
      Toy.LeNet 1%Z (Some tt) (Some 2%Z) (Some 5%float) None = inr self /\
    LSC.construct self Toy.data Toy.label None Toy.store0
    = inr ((loss, cond, @LSC.self_loss_scale Toy.framework), s') /\
    calls s' = calls Toy.store0 ++ pre ++ [CallLossScaleManager [4]%Z cond] ++ post /\
    optimizer_args (F:=Toy.framework) pre = [] /\
    update_args (F:=Toy.framework) pre = [].
Proof.
  eexists.
  destruct (X8_update_cell_runs_once (F:=Toy.framework)
              (Toy.ctx "GPU" STAND_ALONE) Toy.LeNet 1%Z tt (Some 2%Z)
              5%float None _ Toy.data Toy.label [4]%Z
              [[1; 2]; [3; 4]]%Z [[1; 0]; [0; 1]]%Z Toy.store0
              eq_refl eq_refl eq_refl eq_refl)
    as (loss & cond & s' & pre & post & Hrun & Hcalls & Hq1 & Hq2 & _).
  exists loss, cond, s', pre, post.
  split; [reflexivity|]. split; [exact Hrun|]. split; [exact Hcalls|].
  split; [exact Hq1 | exact Hq2].
Defined.

(** ** The cell [amp_build_train_network] builds *)

Section Builder.
Context {F : Framework}.

(** The network the training cell is wrapped around: cast to float16 (with
    batchnorm kept in float32 if asked), then given its loss, then, in the
    auto-parallel modes, put in a virtual dataset cell. *)
Definition wrapped_network (ctx : Context)
    (config : gmap string (pyobj LossScaleManager)) (network : Cell)
    (loss_fn : option LossFn) : Cell :=
  let cast := config !! "cast_model_type" in
  let n1 :=
    match cast with
    | Some ct =>
        if DPModel.is_float16 ct
        then let n := to_float network float16 in
             match config !! "keep_batchnorm_fp32" with
             | Some keep => if DPModel.truthy keep
                            then _do_keep_batchnorm_fp32 n else n
             | None => n
             end
        else network
    | None => network
    end in
  let n2 :=
    match loss_fn, cast with
    | Some l, Some ct => _add_loss_network n1 l ct
    | _, _ => n1
    end in
  if mode_in (_get_parallel_mode ctx) [SEMI_AUTO_PARALLEL; AUTO_PARALLEL]
  then _VirtualDatasetCell n2 else n2.

(** The [sens] a one-step cell is built with. *)
Definition one_step_sens (config : gmap string (pyobj LossScaleManager))
  : float :=
  match config !! "loss_scale_manager" with
  | Some (PyManager m) => get_loss_scale m
  | _ => 1%float
  end.

Lemma amp_build_has_level ctx self network opt loss_fn level kw n :
  DPModel.amp_build_train_network ctx self network opt loss_fn level kw = inr n ->
  exists lc, _config_level !! level = Some lc.
Proof.
  unfold DPModel.amp_build_train_network.
  destruct (DPModel.check_level level); simpl; [done|].
  destruct (_check_kwargs kw); simpl; [done|].
  destruct (_config_level !! level) as [lc|]; simpl; [|done].
  by eexists.
Qed.

Lemma amp_build_full ctx self network opt loss_fn level kw lc n :
  _config_level !! level = Some lc ->
  DPModel.amp_build_train_network ctx self network opt loss_fn level kw = inr n ->
  (update_cell_of (kw ∪ lc) = None /\
   exists cell,
     TOS.__init__ ctx (wrapped_network ctx (kw ∪ lc) network loss_fn) opt
       (one_step_sens (kw ∪ lc)) (DPModel._micro_batches self)
       (DPModel._norm_clip self) (DPModel._dp_mech self) = inr cell /\
     n = DPModel.NetOneStep (TOS.set_train cell)) \/
  (exists u cell,
     update_cell_of (kw ∪ lc) = Some u /\
     LSC.__init__ ctx (wrapped_network ctx (kw ∪ lc) network loss_fn) opt
       (Some u) (DPModel._micro_batches self)
       (DPModel._norm_clip self) (DPModel._dp_mech self) = inr cell /\
     n = DPModel.NetLossScale (LSC.set_train cell)).
Proof.
  intros Hlc Hrun.
  unfold DPModel.amp_build_train_network, DPModel.attr in Hrun.
  destruct (DPModel.check_level level); simpl in Hrun; [done|].
  destruct (_check_kwargs kw); simpl in Hrun; [done|].
  rewrite Hlc in Hrun. simpl in Hrun.
  unfold update_cell_of, wrapped_network, one_step_sens.
  destruct ((kw ∪ lc) !! "cast_model_type") as [cast|]; simpl in Hrun; [|done].
  assert (Hgen : forall net0,
    (try* manager := match (kw ∪ lc) !! "loss_scale_manager" with
                     | Some v => inr v
                     | None => inl AttributeError
                     end in
     match manager with
     | PyNone =>
         try* cell := TOS.__init__ ctx net0 opt 1%float
                        (DPModel._micro_batches self) (DPModel._norm_clip self)
                        (DPModel._dp_mech self) in
         inr (DPModel.NetOneStep (TOS.set_train cell))
     | PyManager m =>
         match get_update_cell m with
         | Some update_cell =>
             if negb (enable_ge ctx) && String.eqb (device_target ctx) "CPU"
             then inl ValueError
             else
               try* cell := LSC.__init__ ctx net0 opt (Some update_cell)
                              (DPModel._micro_batches self)
                              (DPModel._norm_clip self) (DPModel._dp_mech self) in
               inr (DPModel.NetLossScale (LSC.set_train cell))
         | None =>
             try* cell := TOS.__init__ ctx net0 opt (get_loss_scale m)
                            (DPModel._micro_batches self)
                            (DPModel._norm_clip self) (DPModel._dp_mech self) in
             inr (DPModel.NetOneStep (TOS.set_train cell))
         end
     | _ => inl AttributeError
     end) = inr n ->
    (match (kw ∪ lc) !! "loss_scale_manager" with
     | Some (PyManager m) => get_update_cell m
     | _ => None
     end = None /\
     exists cell,
       TOS.__init__ ctx net0 opt
         match (kw ∪ lc) !! "loss_scale_manager" with
         | Some (PyManager m) => get_loss_scale m
         | _ => 1%float
         end (DPModel._micro_batches self)
         (DPModel._norm_clip self) (DPModel._dp_mech self) = inr cell /\
       n = DPModel.NetOneStep (TOS.set_train cell)) \/
    (exists u cell,
       match (kw ∪ lc) !! "loss_scale_manager" with
       | Some (PyManager m) => get_update_cell m
       | _ => None
       end = Some u /\
       LSC.__init__ ctx net0 opt (Some u) (DPModel._micro_batches self)
         (DPModel._norm_clip self) (DPModel._dp_mech self) = inr cell /\
       n = DPModel.NetLossScale (LSC.set_train cell))).
  { intros net0 H.
    destruct ((kw ∪ lc) !! "loss_scale_manager") as [[| | |m]|];
      simpl in H; try done.
    - left. split; [done|].
      destruct (TOS.__init__ _ _ _ _ _ _ _) as [e|cell] eqn:Hc; [done|].
      simpl in H. injection H as <-. by eexists.
    - destruct (get_update_cell m) as [uc|].
      + right. destruct (negb _ && _); [done|].
        destruct (LSC.__init__ _ _ _ _ _ _ _) as [e|cell] eqn:Hc; [done|].
        simpl in H. injection H as <-. by eexists _, _.
      + left. split; [done|].
        destruct (TOS.__init__ _ _ _ _ _ _ _) as [e|cell] eqn:Hc; [done|].
        simpl in H. injection H as <-. by eexists. }
  destruct (DPModel.is_float16 cast); simpl in Hrun.
  - destruct ((kw ∪ lc) !! "keep_batchnorm_fp32"); simpl in Hrun; [|done].
    destruct loss_fn; simpl in Hrun; apply Hgen; exact Hrun.
  - destruct loss_fn; simpl in Hrun; apply Hgen; exact Hrun.
Qed.

End Builder.

(** X9.  Whatever [amp_build_train_network] returns is one of the two DP
    cells, already set to training, holding the optimizer it was given and
    the model's micro batches, norm clip and mechanism unchanged.  The
    one-step cell differentiates with respect to the optimizer's parameters,
    the loss-scale cell with respect to the trainable parameters of the
    network it wraps, and the loss-scale cell always has an update cell and
    a [loss_scale] Parameter. *)
Theorem X9_built_cell_carries_model_settings {F : Framework}
    (ctx : Context) (self : DPModel.t) (network : Cell) (opt : Optimizer)
    (loss_fn : option LossFn) (level : string)
    (kw : gmap string (pyobj LossScaleManager)) (n : DPModel.TrainNetwork) :
  DPModel.amp_build_train_network ctx self network opt loss_fn level kw = inr n ->
  match n with
  | DPModel.NetOneStep cell =>
      TOS.training cell = true /\
      TOS.optimizer cell = opt /\
      TOS.weights cell = opt_parameters opt /\
      TOS._micro_batches cell = DPModel._micro_batches self /\
      TOS._l2_norm cell = DPModel._norm_clip self /\
      TOS._mech cell = DPModel._dp_mech self
  | DPModel.NetLossScale cell =>
      LSC.training cell = true /\
      LSC.optimizer cell = opt /\
      LSC.weights cell = trainable_params (LSC.network cell) /\
      LSC._micro_batches cell = DPModel._micro_batches self /\
      LSC._l2_norm cell = DPModel._norm_clip self /\
      LSC._mech cell = DPModel._dp_mech self /\
      is_Some (LSC.loss_scaling_manager cell) /\
      is_Some (LSC.init_loss_scale cell)
  | DPModel.NetCell _ => False
  end.
Proof.
  intros Hrun.
  destruct (amp_build_has_level _ _ _ _ _ _ _ _ Hrun) as [lc Hlc].
  destruct (amp_build_full _ _ _ _ _ _ _ _ _ Hlc Hrun)
    as [(_ & cell & Hinit & ->)|(u & cell & _ & Hinit & ->)].
  - unfold TOS.__init__ in Hinit.
    destruct (P_Split 0 (DPModel._micro_batches self)); [done|].
    injection Hinit as <-. simpl. done.
  - unfold LSC.__init__ in Hinit.
    destruct (P_Split 0 (DPModel._micro_batches self)); [done|].
    injection Hinit as <-. simpl. repeat split; by eexists.
Qed.

(** X10.  The network inside the returned cell is the given network, cast to
    float16 first when the config asks for it (batchnorm kept in float32 if
    asked), then given its loss function, then wrapped in a virtual dataset
    cell in the auto-parallel modes.  A one-step cell gets as [sens] the
    manager's loss scale, or 1.0 when the config has no manager; a loss-scale
    cell starts its [loss_scale] Parameter from the update cell's own loss
    scale. *)
Theorem X10_built_cell_network_and_scale {F : Framework}
    (ctx : Context) (self : DPModel.t) (network : Cell) (opt : Optimizer)
    (loss_fn : option LossFn) (level : string)
    (kw lc : gmap string (pyobj LossScaleManager)) (n : DPModel.TrainNetwork) :
  _config_level !! level = Some lc ->
  DPModel.amp_build_train_network ctx self network opt loss_fn level kw = inr n ->
  match n with
  | DPModel.NetOneStep cell =>
      TOS.network cell = wrapped_network ctx (kw ∪ lc) network loss_fn /\
      TOS.sens cell = one_step_sens (kw ∪ lc)
  | DPModel.NetLossScale cell =>
      LSC.network cell = wrapped_network ctx (kw ∪ lc) network loss_fn /\
      exists u,
        update_cell_of (kw ∪ lc) = Some u /\
        LSC.loss_scaling_manager cell = Some u /\
        LSC.init_loss_scale cell
        = Some (Tensor_of_float (uc_get_loss_scale u) float32)
  | DPModel.NetCell _ => False
  end.
Proof.
  intros Hlc Hrun.
  destruct (amp_build_full _ _ _ _ _ _ _ _ _ Hlc Hrun)
    as [(_ & cell & Hinit & ->)|(u & cell & Hu & Hinit & ->)].
  - unfold TOS.__init__ in Hinit.
    destruct (P_Split 0 (DPModel._micro_batches self)); [done|].
    injection Hinit as <-. simpl. done.
  - unfold LSC.__init__ in Hinit.
    destruct (P_Split 0 (DPModel._micro_batches self)); [done|].
    injection Hinit as <-. simpl. split; [done|]. by exists u.
Qed.

(** X11.  A [loss_scale_manager=None] among the keyword arguments overrides
    the manager of the level: whatever the level's table says, the cell
    returned is the one-step cell, built with [sens] 1.0. *)
Theorem X11_manager_none_overrides_level {F : Framework}
    (ctx : Context) (self : DPModel.t) (network : Cell) (opt : Optimizer)
    (loss_fn : option LossFn) (level : string)
    (kw : gmap string (pyobj LossScaleManager)) (n : DPModel.TrainNetwork) :
  kw !! "loss_scale_manager" = Some PyNone ->
  DPModel.amp_build_train_network ctx self network opt loss_fn level kw = inr n ->
  exists cell, n = DPModel.NetOneStep cell /\ TOS.sens cell = 1%float.
Proof.
  intros Hkw Hrun.
  destruct (amp_build_has_level _ _ _ _ _ _ _ _ Hrun) as [lc Hlc].
  assert (Hm : (kw ∪ lc) !! "loss_scale_manager" = Some PyNone).
  { by apply lookup_union_Some_l. }
  destruct (amp_build_full _ _ _ _ _ _ _ _ _ Hlc Hrun)
    as [(_ & cell & Hinit & ->)|(u & cell & Hu & _)].
  - eexists. split; [done|].
    unfold TOS.__init__ in Hinit.
    destruct (P_Split 0 (DPModel._micro_batches self)); [done|].
    injection Hinit as <-. simpl. unfold one_step_sens. by rewrite Hm.
  - unfold update_cell_of in Hu. by rewrite Hm in Hu.
Qed.

(** X12.  Without an optimizer the DP settings play no part.
    [_build_train_network] cannot raise and returns the network with its
    loss function attached ([nn.WithLossCell]) or, lacking one, the bare
    network; [set_auto_parallel] is called on it exactly in the
    auto-parallel modes. *)
Theorem X12_no_optimizer_no_training_cell {F : Framework}
    (ctx : Context) (self : DPModel.t) :
  DPModel._optimizer self = None ->
  DPModel._build_train_network ctx self =
  inr (DPModel.NetCell
         match DPModel._loss_fn self with
         | Some loss_fn => WithLossCell (DPModel._network self) loss_fn
         | None => DPModel._network self
         end,
       mode_in (DPModel._parallel_mode self) [SEMI_AUTO_PARALLEL; AUTO_PARALLEL]).
Proof.
  intros Hopt. unfold DPModel._build_train_network. rewrite Hopt.
  by destruct (DPModel.int_truthy _), (DPModel._loss_fn self).
Qed.

(** X13.  [DPModel.__init__] keeps a non-zero [micro_batches] and turns 0
    into [None] as if none had been given.  Hence a model with an optimizer
    builds its train network with [amp_build_train_network] exactly when
    [micro_batches] is a non-zero int, and with the framework's
    [amp.build_train_network] when it is 0 or [None]. *)
Theorem X13_zero_micro_batches_is_none {F : Framework}
    (ctx : Context) (mb : option Z) (nc : option float)
    (mech : option Mechanisms) (base : DPModel.Model) (opt : Optimizer) :
  DPModel.Model_optimizer base = Some opt ->
  let model := DPModel.__init__ mb nc mech base in
  let flag := mode_in (DPModel.Model_parallel_mode base)
                      [SEMI_AUTO_PARALLEL; AUTO_PARALLEL] in
  (forall z, mb = Some z -> z <> 0%Z ->
     DPModel._micro_batches model = Some z /\
     DPModel._build_train_network ctx model =
     try* n := DPModel.amp_build_train_network ctx model
                 (DPModel.Model_network base) opt (DPModel.Model_loss_fn base)
                 (DPModel.Model_amp_level base) (DPModel.build_kwargs model) in
     inr (n, flag)) /\
  (mb = None \/ mb = Some 0%Z ->
     DPModel._micro_batches model = None /\
     DPModel._build_train_network ctx model =
     try* c := amp_build_train_network_fw (DPModel.Model_network base) opt
                 (DPModel.Model_loss_fn base) (DPModel.Model_amp_level base)
                 (DPModel.build_kwargs model) in
     inr (DPModel.NetCell c, flag)).
Proof.
  intros Hopt model flag. split.
  - intros z -> Hz.
    assert (Hz0 : (z =? 0)%Z = false) by (by apply Z.eqb_neq).
    assert (Hf : DPModel._micro_batches model = Some z).
    { unfold model, DPModel.__init__. simpl. by rewrite Hz0. }
    split; [exact Hf|].
    unfold DPModel._build_train_network. rewrite Hf.
    change (DPModel._optimizer model) with (DPModel.Model_optimizer base).
    rewrite Hopt. simpl. rewrite Hz0. simpl.
    unfold ebind. by destruct (DPModel.amp_build_train_network _ _ _ _ _ _ _).
  - intros Hmb.
    assert (Hf : DPModel._micro_batches model = None).
    { unfold model, DPModel.__init__. simpl. by destruct Hmb as [-> | ->]. }
    split; [exact Hf|].
    unfold DPModel._build_train_network. rewrite Hf.
    change (DPModel._optimizer model) with (DPModel.Model_optimizer base).
    rewrite Hopt. simpl. unfold ebind.
    by destruct (amp_build_train_network_fw _ _ _ _ _).
Qed.

(** Models of the toy framework for the properties above: one whose
    constructor was given [loss_scale_manager=None], one without optimizer. *)
Definition toy_model_manager_none : DPModel.t (F:=Toy.framework) :=
  DPModel.__init__ (F:=Toy.framework) (Some 2%Z) (Some 5%float) None
    (DPModel.Build_Model (F:=Toy.framework) Toy.LeNet (Some tt) (Some 1%Z)
                         true None "O2" true STAND_ALONE).

Definition toy_model_no_optimizer : DPModel.t (F:=Toy.framework) :=
  DPModel.__init__ (F:=Toy.framework) (Some 2%Z) (Some 5%float) None
    (DPModel.Build_Model (F:=Toy.framework) Toy.LeNet (Some tt) None
                         false None "O0" true STAND_ALONE).

Lemma toy_level_O0 :
  _config_level (Framework:=Toy.framework) !! "O0" = Some Toy.O0_config.
Proof. reflexivity. Qed.

Lemma toy_level_O2 :
  _config_level (Framework:=Toy.framework) !! "O2" = Some Toy.O2_config.
Proof. reflexivity. Qed.

Lemma toy_builds_O0 :
  exists n,
    DPModel.amp_build_train_network (F:=Toy.framework)
      (Toy.ctx "Ascend" STAND_ALONE) (Toy.model "O0") Toy.LeNet 1%Z (Some tt)
      "O0" (DPModel.build_kwargs (Toy.model "O0")) = inr n.
Proof.
  eapply (amp_build_returns (F:=Toy.framework) _ _ _ _ _ _ _ Toy.O0_config).
  - reflexivity.
  - vm_compute. reflexivity.
  - reflexivity.
  - vm_compute. by eexists.
  - vm_compute. by eexists.
  - left. vm_compute. reflexivity.
  - reflexivity.
  - left. vm_compute. reflexivity.
Qed.

Lemma toy_builds_O2_gpu :
  exists n,
    DPModel.amp_build_train_network (F:=Toy.framework)
      (Toy.ctx "GPU" STAND_ALONE) (Toy.model "O2") Toy.LeNet 1%Z (Some tt)
      "O2" (DPModel.build_kwargs (Toy.model "O2")) = inr n.
Proof.
  eapply (amp_build_returns (F:=Toy.framework) _ _ _ _ _ _ _ Toy.O2_config).
  - reflexivity.
  - vm_compute. reflexivity.
  - reflexivity.
  - vm_compute. by eexists.
  - vm_compute. by eexists.
  - right. exists true. vm_compute. reflexivity.
  - reflexivity.
  - right. reflexivity.
Qed.

Lemma toy_builds_manager_none :
  exists n,
    DPModel.amp_build_train_network (F:=Toy.framework)
      (Toy.ctx "CPU" STAND_ALONE) toy_model_manager_none Toy.LeNet 1%Z (Some tt)
      "O2" (DPModel.build_kwargs toy_model_manager_none) = inr n.
Proof.
  eapply (amp_build_returns (F:=Toy.framework) _ _ _ _ _ _ _ Toy.O2_config).
  - reflexivity.
  - vm_compute. reflexivity.
  - reflexivity.
  - vm_compute. by eexists.
  - vm_compute. by eexists.
  - left. vm_compute. reflexivity.
  - reflexivity.
  - left. vm_compute. reflexivity.
Qed.

(** Level O0: a one-step cell in training mode with the model's two micro
    batches and bound 5. *)
Lemma X9_witness :
  exists cell,
    DPModel.amp_build_train_network (F:=Toy.framework)
      (Toy.ctx "Ascend" STAND_ALONE) (Toy.model "O0") Toy.LeNet 1%Z (Some tt)
      "O0" (DPModel.build_kwargs (Toy.model "O0"))
    = inr (DPModel.NetOneStep cell) /\
    TOS.training cell = true /\
    TOS._micro_batches cell = Some 2%Z /\
    TOS._l2_norm cell = Some 5%float.
Proof.
  destruct toy_builds_O0 as [n Hn].
  pose proof (X9_built_cell_carries_model_settings (F:=Toy.framework)
                _ _ _ _ _ _ _ n Hn) as H.
  pose proof (amp_build_full (F:=Toy.framework) _ _ _ _ _ _ _ Toy.O0_config n
                toy_level_O0 Hn) as Hcase.
  destruct Hcase as [(_ & cell & _ & ->)|(u & cell & Hu & _)].
  - destruct H as (Ht & _ & _ & Hmb & Hl2 & _).
    exists (TOS.set_train cell).
    split; [exact Hn|]. split; [exact Ht|]. split; [exact Hmb | exact Hl2].
  - vm_compute in Hu. discriminate Hu.
Defined.

(** Level O2 on GPU: the network is cast to float16 with batchnorm kept,
    then given its loss; the loss-scale cell wraps that. *)
Lemma X10_witness :
  exists cell,
    DPModel.amp_build_train_network (F:=Toy.framework)
      (Toy.ctx "GPU" STAND_ALONE) (Toy.model "O2") Toy.LeNet 1%Z (Some tt)
      "O2" (DPModel.build_kwargs (Toy.model "O2"))
    = inr (DPModel.NetLossScale cell) /\
    LSC.network cell
    = Toy.AddLossNetwork (Toy.KeepBatchnormFp32 (Toy.ToFloat Toy.LeNet float16)).
Proof.
  destruct toy_builds_O2_gpu as [n Hn].
  pose proof (X10_built_cell_network_and_scale (F:=Toy.framework)
                _ _ _ _ _ _ _ Toy.O2_config n
                toy_level_O2 Hn) as H.
  pose proof (amp_build_full (F:=Toy.framework) _ _ _ _ _ _ _ Toy.O2_config n
                toy_level_O2 Hn) as Hcase.
  destruct Hcase as [(Hnone & _)|(u & cell & _ & _ & ->)].
  - vm_compute in Hnone. discriminate Hnone.
  - destruct H as [Hnet _].
    exists (LSC.set_train cell). split; [exact Hn|].
    rewrite Hnet. vm_compute. reflexivity.
Defined.

(** Level O2 on CPU with [loss_scale_manager=None] passed: no guard, a
    one-step cell with [sens] 1.0. *)
Lemma X11_witness :
  exists cell,
    DPModel.amp_build_train_network (F:=Toy.framework)
      (Toy.ctx "CPU" STAND_ALONE) toy_model_manager_none Toy.LeNet 1%Z (Some tt)
      "O2" (DPModel.build_kwargs toy_model_manager_none)
    = inr (DPModel.NetOneStep cell) /\
    TOS.sens cell = 1%float.
Proof.
  destruct toy_builds_manager_none as [n Hn].
  assert (Hkw : DPModel.build_kwargs toy_model_manager_none
                !! "loss_scale_manager" = Some PyNone)
    by (vm_compute; reflexivity).
  destruct (X11_manager_none_overrides_level (F:=Toy.framework)
              _ _ _ _ _ _ _ n Hkw Hn)
    as (cell & -> & Hsens).
  exists cell. split; [exact Hn | exact Hsens].
Defined.

(** Micro batches set but no optimizer: the network with its loss. *)
Lemma X12_witness :
  DPModel._build_train_network (F:=Toy.framework) (Toy.ctx "CPU" STAND_ALONE)
    toy_model_no_optimizer
  = inr (DPModel.NetCell (F:=Toy.framework) (Toy.WithLoss Toy.LeNet), false).
Proof.
  apply (X12_no_optimizer_no_training_cell (F:=Toy.framework)
           (Toy.ctx "CPU" STAND_ALONE) toy_model_no_optimizer).
  reflexivity.
Defined.

(** [micro_batches=0] is stored as [None]. *)
Lemma X13_witness :
  DPModel._micro_batches
    (DPModel.__init__ (F:=Toy.framework) (Some 0%Z) (Some 5%float) None
       (DPModel.Build_Model (F:=Toy.framework) Toy.LeNet (Some tt) (Some 1%Z)
                            false None "O0" true STAND_ALONE)) = None.
Proof.
  refine (proj1 (proj2 (X13_zero_micro_batches_is_none (F:=Toy.framework)
                          (Toy.ctx "CPU" STAND_ALONE) (Some 0%Z) (Some 5%float)
                          None
                          (DPModel.Build_Model (F:=Toy.framework) Toy.LeNet
                             (Some tt) (Some 1%Z) false None "O0" true
                             STAND_ALONE)
                          1%Z eq_refl) _)).
  right. reflexivity.
Defined.

(** ** A single microbatch *)

(** X14.  With [micro_batches = 1] nothing is added up.  The split yields
    one microbatch, the network is called twice (on the microbatch for the
    loss that shapes [sens], on the whole batch for the returned loss), and
    the optimizer receives every tensor of the one clipped gradient after a
    trip to numpy and back to a float32 Tensor (through the reducer in the
    data-parallel modes). *)
Theorem X14_single_microbatch {F : Framework}
    (ctx : Context) (net : Cell) (opt : Optimizer) (sens : float)
    (c : float) (mech : option Mechanisms)
    (self : TOS.t) (data label : Tensor) (ds ls : list Tensor) (s : Store) :
  TOS.__init__ ctx net opt sens (Some 1%Z) (Some c) mech = inr self ->
  TOS._split self data = inr ds ->
  TOS._split self label = inr ls ->
  exists d0 l0 loss s' new,
    ds = [d0] /\ ls = [l0] /\
    TOS.construct self data label s = inr (loss, s') /\
    calls s' = calls s ++ new /\
    network_args new = [(d0, l0); (data, label)] /\
    let sums :=
      map (fun g => Tensor_of_array
                      (asnumpy (ClipByNorm g (tuple_to_array [c]))) float32)
          (tos_raw_grad self (params s) d0 l0) in
    optimizer_args new =
    [if mode_in (_get_parallel_mode ctx) [DATA_PARALLEL; HYBRID_PARALLEL]
     then DistributedGradReducer (opt_parameters opt) (_get_mirror_mean ctx)
                                 (_get_device_num ctx) sums
     else sums].
Proof.
  intros Hinit Hd Hl.
  destruct (tos_step _ _ _ _ _ _ _ _ _ _ _ _ s Hinit Hd Hl)
    as (Hmb & Hlen & _ & Hrun).
  destruct (tos_init_inv _ _ _ _ _ _ _ _ Hinit)
    as (m & _ & _ & _ & _ & _ & _ & _ & _ & Hflag & Hred).
  injection Hmb as Hmb.
  destruct ds as [|d0 [|d1 ds]]; simpl in Hmb; try lia.
  destruct ls as [|l0 [|l1 ls]]; simpl in Hlen; try lia.
  exists d0, l0, (run_network net (params s) data label),
         (tos_step_store self c s data label [d0] [l0]),
         (tos_step_calls self c (params s) data label [d0] [l0]).
  split; [done|]. split; [done|]. split; [exact Hrun|].
  split; [apply tos_step_store_calls|].
  split; [by rewrite tos_step_calls_network|].
  rewrite tos_step_calls_optimizer. unfold tos_reduce. rewrite Hflag, Hred.
  destruct (mode_in _ _);
    unfold accumulated, tos_clipped, clip_norm; simpl; by rewrite !map_map.
Qed.

(** The whole toy batch as one microbatch. *)
Lemma X14_witness :
  exists self loss s' new,
    TOS.__init__ (F:=Toy.framework) (Toy.ctx "Ascend" STAND_ALONE)
      Toy.LeNet 1%Z 1%float (Some 1%Z) (Some 5%float) None = inr self /\
    TOS.construct self Toy.data Toy.label Toy.store0 = inr (loss, s') /\
    calls s' = calls Toy.store0 ++ new /\
    network_args new = [(Toy.data, Toy.label); (Toy.data, Toy.label)].
Proof.
  eexists.
  destruct (X14_single_microbatch (F:=Toy.framework)
              (Toy.ctx "Ascend" STAND_ALONE) Toy.LeNet 1%Z 1%float
              5%float None _ Toy.data Toy.label
              [[1; 2; 3; 4]]%Z [[1; 0; 0; 1]]%Z Toy.store0
              eq_refl eq_refl eq_refl)
    as (d0 & l0 & loss & s' & new & Hd & Hl & Hrun & Hcalls & Hnet & _).
  injection Hd as <-. injection Hl as <-.
  exists loss, s', new.
  split; [reflexivity|]. split; [exact Hrun|]. split; [exact Hcalls|].
  exact Hnet.
Defined.
